(** * App build / deploy / evaluate pipeline: a shallow embedding

    The development follows the Python sources file by file:

    - [Py]            the few Python built-ins the code relies on
                      (truthiness, [in] on strings, [lower], [strip],
                      [split], float [min]/[max]);
    - [Database]      database/database.py, the SQLite store;
    - [EvaluationApi] evaluation_system/evaluation_api.py;
    - [Round1]        evaluation_system/round1.py;
    - [Round2]        evaluation_system/round2.py;
    - [Evaluate]      evaluation_system/evaluate.py;
    - [StudentApi]    student_api/app.py (the notifier).

    Python floats are IEEE binary64 numbers and are embedded as Rocq's
    primitive floats; Python [int] is [Z]; a Python [str] is a [string]
    (the byte-wise operations below agree with Python's on ASCII text).
    Everything outside the process (the clock, uuid4, md5, the HTTP
    peers, git, the LLM, the browser) is an explicit oracle argument. *)

From Stdlib Require Import ZArith List String Ascii Bool Lia DecimalString.
From Stdlib Require Import Sorting.Sorted.
From Stdlib Require Import Floats.PrimFloat.
Import ListNotations.

Set Warnings "-inexact-float".
Set Implicit Arguments.

Local Open Scope string_scope.
Local Open Scope Z_scope.

(* ================================================================== *)
(** * Python built-ins *)
(* ================================================================== *)

Module Py.

(** [bool(s)] for a string and [bool(n)] for an int. *)
Definition truthy_str (s : string) : bool := negb (String.eqb s "").
Definition truthy_int (z : Z) : bool := negb (Z.eqb z 0).

(** [if x:] on a value that may be [None]. *)
Definition truthy_opt {A : Type} (t : A -> bool) (x : option A) : bool :=
  match x with
  | None => false
  | Some a => t a
  end.

(** [needle in hay] on strings. *)
Fixpoint contains (needle hay : string) : bool :=
  String.prefix needle hay
  || match hay with
     | EmptyString => false
     | String _ rest => contains needle rest
     end.

(** [s.endswith(suffix)] *)
Fixpoint endswith (s suffix : string) : bool :=
  String.eqb s suffix
  || match s with
     | EmptyString => false
     | String _ rest => endswith rest suffix
     end.

Definition lower_ascii (c : ascii) : ascii :=
  let n := nat_of_ascii c in
  if (Nat.leb 65 n && Nat.leb n 90)%bool then ascii_of_nat (n + 32) else c.

(** [s.lower()] *)
Fixpoint lower (s : string) : string :=
  match s with
  | EmptyString => EmptyString
  | String c rest => String (lower_ascii c) (lower rest)
  end.

(** [c.isspace()] on the ASCII range: TAB..CR, FS..US and the blank. *)
Definition isspace (c : ascii) : bool :=
  let n := nat_of_ascii c in
  ((Nat.leb 9 n && Nat.leb n 13) || (Nat.leb 28 n && Nat.leb n 32))%bool.

Fixpoint lstrip (s : string) : string :=
  match s with
  | EmptyString => EmptyString
  | String c rest => if isspace c then lstrip rest else s
  end.

Definition reverse (s : string) : string :=
  string_of_list_ascii (rev (list_ascii_of_string s)).

(** [s.strip()], for text in the ASCII range. *)
Definition strip (s : string) : string :=
  reverse (lstrip (reverse (lstrip s))).

(** [len(s)], for text in the ASCII range: one character per byte. *)
Definition len (s : string) : Z := Z.of_nat (String.length s).

(** [s[:n]] for a non-negative constant [n]. *)
Definition take (n : nat) (s : string) : string := String.substring 0 n s.

(** [s.split(sep)[0]]: the text before the first separator. *)
Fixpoint split_head (sep : ascii) (s : string) : string :=
  match s with
  | EmptyString => EmptyString
  | String c rest =>
      if Ascii.eqb c sep then EmptyString else String c (split_head sep rest)
  end.

(** [path.name]: the text after the last slash. *)
Fixpoint basename (s : string) : string :=
  match s with
  | EmptyString => EmptyString
  | String c rest =>
      if contains "/" rest then basename rest
      else if Ascii.eqb c "/" then rest else s
  end.

(** [str(n)] for an int, as the f-strings print it. *)
Definition str (n : Z) : string := NilZero.string_of_int (Z.to_int n).

(** The line feed. *)
Definition nl : string := String (ascii_of_nat 10) EmptyString.

(** [min(a, b)] and [max(a, b)] on floats: the first argument is kept
    unless the second compares strictly below (above) it, so a NaN in
    first position survives. *)
Definition min (a b : float) : float := if PrimFloat.ltb b a then b else a.
Definition max (a b : float) : float := if PrimFloat.ltb a b then b else a.

End Py.

(* ================================================================== *)
(** * database/database.py *)
(* ================================================================== *)

Module Database.

(** An entry of a JSON attachment list: [{'name': ..., 'url': ...}]. *)
Record attachment := mk_attachment {
  att_name : string;
  att_url  : string
}.

(** ** SQLite integers

    SQLite keeps an integer in 64 bits, signed.  sqlite3 raises
    OverflowError ("Python int too large to convert to SQLite INTEGER")
    when a statement is given a Python [int] outside that range as a
    parameter, so the [round] of a stored row is always inside it. *)

Definition fits (z : Z) : bool :=
  (Z.leb (-9223372036854775808) z && Z.leb z 9223372036854775807)%bool.

Record int64 := mk_int64 {
  to_Z :> Z;
  in_range : fits to_Z = true
}.

(** Binding a Python [int]: [None] stands for the OverflowError. *)
Definition bind_int (z : Z) : option int64 :=
  (if fits z as b return (fits z = b -> option int64)
   then fun H => Some (mk_int64 z H)
   else fun _ => None) eq_refl.

(** What a query method gives: the value it returns, or the
    OverflowError of a parameter that does not bind, which no query
    method catches. *)
Inductive outcome (A : Type) : Type :=
| Returned (a : A)
| OverflowError.
Arguments Returned {A} a.
Arguments OverflowError {A}.

(** [str(e)] for that exception. *)
Definition overflow_text : string :=
  "Python int too large to convert to SQLite INTEGER".

(** A parameter that may be [None] binds unless it is an [int] outside
    64 bits. *)
Definition binds (param : option Z) : bool :=
  match param with
  | Some z => fits z
  | None => true
  end.

(** ** Rows

    One record per table, one field per column, in the order of the
    [CREATE TABLE] statements of [init_database].  A [NOT NULL] column
    has the type of its values; a nullable column is an [option] with
    [None] for SQL NULL.  The two JSON text columns of [tasks] are kept
    decoded ([json.dumps] on the way in, [json.loads] on the way out). *)

Record task_row := mk_task_row {
  t_id             : Z;
  t_timestamp      : string;
  t_email          : string;
  t_task           : string;
  t_round          : int64;
  t_nonce          : string;
  t_brief          : string;
  t_attachments    : option (list attachment);
  t_checks         : option (list string);
  t_evaluation_url : string;
  t_endpoint       : string;
  t_statuscode     : option Z;
  t_secret         : string
}.

Record repo_row := mk_repo_row {
  r_id         : Z;
  r_timestamp  : string;
  r_email      : string;
  r_task       : string;
  r_round      : int64;
  r_nonce      : string;
  r_repo_url   : string;
  r_commit_sha : string;
  r_pages_url  : string
}.

Record result_row := mk_result_row {
  e_id         : Z;
  e_timestamp  : string;
  e_email      : string;
  e_task       : string;
  e_round      : int64;
  e_repo_url   : string;
  e_commit_sha : string;
  e_pages_url  : string;
  e_check_name : string;
  e_score      : float;
  e_reason     : option string;
  e_logs       : option string
}.

(** The store: the rows of each table in rowid order, and for each
    table the largest rowid handed out so far (AUTOINCREMENT never
    reuses one, also after a REPLACE deleted the row that had it). *)
Record database := mk_database {
  tasks       : list task_row;
  repos       : list repo_row;
  results     : list result_row;
  seq_tasks   : Z;
  seq_repos   : Z;
  seq_results : Z
}.

(** [init_database] on a fresh file: [CREATE TABLE IF NOT EXISTS]. *)
Definition init_database : database :=
  {| tasks := []; repos := []; results := [];
     seq_tasks := 0; seq_repos := 0; seq_results := 0 |}.

(** ** Arguments of the insert methods

    The Python dictionaries handed to [insert_task], [insert_repo] and
    [insert_result]; a field is [None] when the dictionary holds
    Python's [None] there. *)

Record task_data := mk_task_data {
  td_email          : option string;
  td_secret         : option string;
  td_task           : option string;
  td_round          : option Z;
  td_nonce          : option string;
  td_brief          : option string;
  td_checks         : list string;
  td_evaluation_url : option string;
  td_attachments    : list attachment;
  td_endpoint       : option string;
  td_statuscode     : option Z
}.

Record repo_data := mk_repo_data {
  rd_email      : option string;
  rd_task       : option string;
  rd_round      : option Z;
  rd_nonce      : option string;
  rd_repo_url   : option string;
  rd_commit_sha : option string;
  rd_pages_url  : option string
}.

Record result_data := mk_result_data {
  ed_email      : option string;
  ed_task       : option string;
  ed_round      : option Z;
  ed_repo_url   : option string;
  ed_commit_sha : option string;
  ed_pages_url  : option string;
  ed_check_name : option string;
  ed_score      : option float;
  ed_reason     : option string;
  ed_logs       : option string
}.

(** ** SQL's three-valued logic, as far as the queries use it *)

(** [col = ?]: comparing with a NULL parameter is NULL, not false. *)
Definition sql_eq {A : Type} (eqb : A -> A -> bool)
           (col : A) (param : option A) : option bool :=
  match param with
  | None => None
  | Some p => Some (eqb col p)
  end.

Definition sql_and (a b : option bool) : option bool :=
  match a, b with
  | Some false, _ | _, Some false => Some false
  | Some true, Some true => Some true
  | _, _ => None
  end.

(** A [WHERE] clause keeps a row only when its condition is true. *)
Definition sql_where (c : option bool) : bool :=
  match c with
  | Some true => true
  | _ => false
  end.

(** SQLite binds a float NaN as NULL. *)
Definition bind_real (x : option float) : option float :=
  match x with
  | Some f => if PrimFloat.is_nan f then None else Some f
  | None => None
  end.

(** The [round] and the [statuscode] handed to an insert method, as
    parameters: [None] when the parameter list does not bind. *)
Definition bind_round (x : option Z) : option int64 :=
  match x with
  | Some z => bind_int z
  | None => None                    (* NULL in a NOT NULL column *)
  end.

Definition bind_nullable (x : option Z) : option (option Z) :=
  if binds x then Some x else None.

(** A small option monad for "every NOT NULL column got a value". *)
Definition not_null {A B : Type} (x : option A) (k : A -> option B)
  : option B :=
  match x with
  | None => None
  | Some a => k a
  end.

Notation "'column' x '<-' e ';' k" := (not_null e (fun x => k))
  (at level 10, x name, e at level 100, k at level 200).

(** The [UNIQUE(email, task, round)] key shared by [tasks] and [repos]. *)
Definition key_eqb (e1 t1 : string) (r1 : Z) (e2 t2 : string) (r2 : Z)
  : bool :=
  (String.eqb e1 e2 && String.eqb t1 t2 && Z.eqb r1 r2)%bool.

Definition task_has_key (e t : string) (r : Z) (row : task_row) : bool :=
  key_eqb (t_email row) (t_task row) (t_round row) e t r.

Definition repo_has_key (e t : string) (r : Z) (row : repo_row) : bool :=
  key_eqb (r_email row) (r_task row) (r_round row) e t r.

(** ** insert_task

    [INSERT OR REPLACE]: a NULL in a NOT NULL column aborts the
    statement, and so does an [int] that does not bind (the [except]
    branch, result [False], nothing written); otherwise the rows that
    hold the new row's unique key are deleted and the new row is added
    under a fresh rowid. *)

Definition task_row_of (now : string) (id : Z) (td : task_data)
  : option task_row :=
  column email <- td_email td;
  column task <- td_task td;
  column round <- bind_round (td_round td);
  column nonce <- td_nonce td;
  column brief <- td_brief td;
  column evaluation_url <- td_evaluation_url td;
  column endpoint <- td_endpoint td;
  column statuscode <- bind_nullable (td_statuscode td);
  column secret <- td_secret td;
  Some {| t_id := id; t_timestamp := now; t_email := email;
          t_task := task; t_round := round; t_nonce := nonce;
          t_brief := brief;
          t_attachments := Some (td_attachments td);
          t_checks := Some (td_checks td);
          t_evaluation_url := evaluation_url; t_endpoint := endpoint;
          t_statuscode := statuscode; t_secret := secret |}.

Definition insert_task (now : string) (td : task_data) (db : database)
  : bool * database :=
  match task_row_of now (seq_tasks db + 1) td with
  | Some row =>
      let kept :=
        filter (fun old =>
                  negb (task_has_key (t_email row) (t_task row)
                                     (t_round row) old))
               (tasks db) in
      (true,
       {| tasks := kept ++ [row]; repos := repos db;
          results := results db; seq_tasks := seq_tasks db + 1;
          seq_repos := seq_repos db; seq_results := seq_results db |})
  | None => (false, db)
  end.

(** ** insert_repo *)

Definition repo_row_of (now : string) (id : Z) (rd : repo_data)
  : option repo_row :=
  column email <- rd_email rd;
  column task <- rd_task rd;
  column round <- bind_round (rd_round rd);
  column nonce <- rd_nonce rd;
  column repo_url <- rd_repo_url rd;
  column commit_sha <- rd_commit_sha rd;
  column pages_url <- rd_pages_url rd;
  Some {| r_id := id; r_timestamp := now; r_email := email;
          r_task := task; r_round := round; r_nonce := nonce;
          r_repo_url := repo_url; r_commit_sha := commit_sha;
          r_pages_url := pages_url |}.

Definition insert_repo (now : string) (rd : repo_data) (db : database)
  : bool * database :=
  match repo_row_of now (seq_repos db + 1) rd with
  | Some row =>
      let kept :=
        filter (fun old =>
                  negb (repo_has_key (r_email row) (r_task row)
                                     (r_round row) old))
               (repos db) in
      (true,
       {| tasks := tasks db; repos := kept ++ [row];
          results := results db; seq_tasks := seq_tasks db;
          seq_repos := seq_repos db + 1; seq_results := seq_results db |})
  | None => (false, db)
  end.

(** ** insert_result

    A plain [INSERT]: [results] has no uniqueness constraint, so the
    statement can only fail on a NULL in a NOT NULL column or on an
    [int] that does not bind. *)

Definition result_row_of (now : string) (id : Z) (ed : result_data)
  : option result_row :=
  column email <- ed_email ed;
  column task <- ed_task ed;
  column round <- bind_round (ed_round ed);
  column repo_url <- ed_repo_url ed;
  column commit_sha <- ed_commit_sha ed;
  column pages_url <- ed_pages_url ed;
  column check_name <- ed_check_name ed;
  column score <- bind_real (ed_score ed);
  Some {| e_id := id; e_timestamp := now; e_email := email;
          e_task := task; e_round := round; e_repo_url := repo_url;
          e_commit_sha := commit_sha; e_pages_url := pages_url;
          e_check_name := check_name; e_score := score;
          e_reason := ed_reason ed; e_logs := ed_logs ed |}.

Definition insert_result (now : string) (ed : result_data) (db : database)
  : bool * database :=
  match result_row_of now (seq_results db + 1) ed with
  | Some row =>
      (true,
       {| tasks := tasks db; repos := repos db;
          results := results db ++ [row]; seq_tasks := seq_tasks db;
          seq_repos := seq_repos db; seq_results := seq_results db + 1 |})
  | None => (false, db)
  end.

(** ** get_tasks, get_repos

    The filters are added under Python truthiness ([if email:],
    [if round_num:]): [None], the empty string and the round [0] all
    leave the filter out.  A round that is added is a parameter of the
    statement and has to bind. *)

Definition get_tasks (email : option string) (round_num : option Z)
           (db : database) : outcome (list task_row) :=
  if (Py.truthy_opt Py.truthy_int round_num && negb (binds round_num))%bool
  then OverflowError
  else
    Returned
      (filter
         (fun row =>
            (if Py.truthy_opt Py.truthy_str email
             then sql_where (sql_eq String.eqb (t_email row) email) else true)
            &&
            (if Py.truthy_opt Py.truthy_int round_num
             then sql_where (sql_eq Z.eqb (t_round row) round_num)
             else true))%bool
         (tasks db)).

Definition get_repos (email : option string) (round_num : option Z)
           (db : database) : outcome (list repo_row) :=
  if (Py.truthy_opt Py.truthy_int round_num && negb (binds round_num))%bool
  then OverflowError
  else
    Returned
      (filter
         (fun row =>
            (if Py.truthy_opt Py.truthy_str email
             then sql_where (sql_eq String.eqb (r_email row) email) else true)
            &&
            (if Py.truthy_opt Py.truthy_int round_num
             then sql_where (sql_eq Z.eqb (r_round row) round_num)
             else true))%bool
         (repos db)).

(** ** task_exists, repo_exists

    [SELECT COUNT( * ) ... WHERE email = ? AND task = ? AND round = ?],
    then [count > 0].  The three arguments are always parameters of the
    statement. *)

Definition task_exists (email task : option string) (round_num : option Z)
           (db : database) : outcome bool :=
  if negb (binds round_num) then OverflowError
  else
    let count :=
      List.length
        (filter
           (fun row =>
              sql_where
                (sql_and
                   (sql_and (sql_eq String.eqb (t_email row) email)
                            (sql_eq String.eqb (t_task row) task))
                   (sql_eq Z.eqb (t_round row) round_num)))
           (tasks db)) in
    Returned (Z.ltb 0 (Z.of_nat count)).

Definition repo_exists (email task : option string) (round_num : option Z)
           (db : database) : outcome bool :=
  if negb (binds round_num) then OverflowError
  else
    let count :=
      List.length
        (filter
           (fun row =>
              sql_where
                (sql_and
                   (sql_and (sql_eq String.eqb (r_email row) email)
                            (sql_eq String.eqb (r_task row) task))
                   (sql_eq Z.eqb (r_round row) round_num)))
           (repos db)) in
    Returned (Z.ltb 0 (Z.of_nat count)).

End Database.

(* ================================================================== *)
(** * evaluation_system/evaluation_api.py *)
(* ================================================================== *)

Module EvaluationApi.
Import Database.

(** A field of the posted JSON object: the key is missing, it holds
    [null], or it holds a value.  The object is read at the types of
    the wire protocol: text everywhere, an integer for [round]. *)
Inductive field (A : Type) : Type :=
| Absent
| Null
| Val (a : A).
Arguments Absent {A}.
Arguments Null {A}.
Arguments Val {A} a.

(** [field not in data] *)
Definition missing {A : Type} (f : field A) : bool :=
  match f with
  | Absent => true
  | _ => false
  end.

(** [data[field]] once the key is known to be there. *)
Definition value {A : Type} (f : field A) : option A :=
  match f with
  | Val a => Some a
  | _ => None
  end.

(** The body of [POST /api/notify]; [n_other] says whether the object
    has keys besides the seven the handler reads. *)
Record notification := mk_notification {
  n_email      : field string;
  n_task       : field string;
  n_round      : field Z;
  n_nonce      : field string;
  n_repo_url   : field string;
  n_commit_sha : field string;
  n_pages_url  : field string;
  n_other      : bool
}.

(** [not data] for a JSON object: the object has no key at all. *)
Definition empty (d : notification) : bool :=
  (missing (n_email d) && missing (n_task d) && missing (n_round d)
   && missing (n_nonce d) && missing (n_repo_url d)
   && missing (n_commit_sha d) && missing (n_pages_url d)
   && negb (n_other d))%bool.

Inductive body :=
| Error (message : string)
| Success (message : string).

(** [jsonify(...), code] *)
Definition response := (body * Z)%type.

(** The loop over [required_fields]: the first missing key, if any. *)
Definition first_missing (d : notification) : option string :=
  if missing (n_email d) then Some "email"
  else if missing (n_task d) then Some "task"
  else if missing (n_round d) then Some "round"
  else if missing (n_nonce d) then Some "nonce"
  else if missing (n_repo_url d) then Some "repo_url"
  else if missing (n_commit_sha d) then Some "commit_sha"
  else if missing (n_pages_url d) then Some "pages_url"
  else None.

(** Python's [==] between a column value and a JSON value: a string
    never equals [None]. *)
Definition py_eq (col : string) (v : option string) : bool :=
  match v with
  | Some s => String.eqb col s
  | None => false
  end.

(** The [for task in tasks: ... break] scan. *)
Definition matching_task (d : notification) (tasks : list task_row)
  : option task_row :=
  find (fun task => (py_eq (t_task task) (value (n_task d))
                     && py_eq (t_nonce task) (value (n_nonce d)))%bool)
       tasks.

(** [receive_notification]: [data] is the result of [get_json()]
    ([None] when the body is JSON [null]); [now] is the clock read by
    [insert_repo]. *)
Definition receive_notification (now : string) (data : option notification)
           (db : database) : response * database :=
  match data with
  | None => ((Error "No JSON data provided", 400), db)
  | Some d =>
      if empty d then ((Error "No JSON data provided", 400), db)
      else
        match first_missing d with
        | Some f => ((Error ("Missing required field: " ++ f), 400), db)
        | None =>
            match get_tasks (value (n_email d)) (value (n_round d)) db with
            | OverflowError =>
                (* the outer [except Exception as e] *)
                ((Error ("Internal server error: " ++ overflow_text), 500),
                 db)
            | Returned tasks =>
                match matching_task d tasks with
                | None =>
                    ((Error "No matching task found for the provided email, task, round, and nonce",
                      400), db)
                | Some _ =>
                    let repo_data :=
                      {| rd_email := value (n_email d);
                         rd_task := value (n_task d);
                         rd_round := value (n_round d);
                         rd_nonce := value (n_nonce d);
                         rd_repo_url := value (n_repo_url d);
                         rd_commit_sha := value (n_commit_sha d);
                         rd_pages_url := value (n_pages_url d) |} in
                    let (success, db') := insert_repo now repo_data db in
                    if success
                    then ((Success "Repo submission received", 200), db')
                    else ((Error "Failed to store repo submission", 500), db')
                end
            end
        end
  end.

End EvaluationApi.

(* ================================================================== *)
(** * The outside world of the two issuer scripts *)
(* ================================================================== *)

Module World.
Import Database.

(** The JSON body of a task delivery: the [task_data] dictionary built
    by [generate_task], [generate_round2_task] and the retry sweep. *)
Record payload := mk_payload {
  p_email          : string;
  p_secret         : string;
  p_task           : string;
  p_round          : Z;
  p_nonce          : string;
  p_brief          : string;
  p_checks         : list string;
  p_evaluation_url : string;
  p_attachments    : list attachment
}.

(** What a script does to the world, in order. *)
Inductive event :=
| Uuid4 (nonce : string)
| Post (endpoint : string) (body : payload) (answer : option Z)
| Sleep (seconds : Z).

(** The answers of the world.  Each is indexed by the number of
    interactions made so far, so that no two calls need agree. *)
Record oracle := mk_oracle {
  isoformat : nat -> string;            (* datetime.now().isoformat() *)
  strftime  : nat -> string;            (* ....strftime("%Y-%m-%d-%H") *)
  uuid4     : nat -> string;            (* str(uuid.uuid4()) *)
  post      : nat -> string -> payload -> option Z;
                                        (* requests.post: the status
                                           code, None on an exception *)
  seeded    : string -> nat;            (* random.seed(md5(text)) and then
                                           random.choice, as an index *)
  choice    : nat -> nat;               (* an unseeded random.choice *)
  md5       : string -> list attachment -> string
                                        (* the first five hex digits of
                                           md5(brief + dumps(attachments)) *)
}.

Record state := mk_state {
  db    : database;
  step  : nat;
  trace : list event
}.

Definition io (A : Type) : Type := state -> A * state.

Definition ret {A : Type} (a : A) : io A := fun s => (a, s).

Definition bind {A B : Type} (m : io A) (k : A -> io B) : io B :=
  fun s => let (a, s') := m s in k a s'.

Definition tick : io nat :=
  fun s => (step s, {| db := db s; step := S (step s); trace := trace s |}).

Definition emit (e : event) : io unit :=
  fun s => (tt, {| db := db s; step := step s; trace := trace s ++ [e] |}).

Definition query {A : Type} (q : database -> A) : io A :=
  fun s => (q (db s), s).

Definition update {A : Type} (u : database -> A * database) : io A :=
  fun s => let (a, d) := u (db s) in
           (a, {| db := d; step := step s; trace := trace s |}).

Definition sleep (seconds : Z) : io unit := emit (Sleep seconds).

(** [requests.post(...)] as the scripts see it.  A response has a
    status code of three digits: http.client raises BadStatusLine on a
    status line with any other, and [requests.post] passes that on as
    an exception. *)
Definition requests_post (answer : option Z) : option Z :=
  match answer with
  | Some status_code =>
      if (Z.leb 100 status_code && Z.leb status_code 999)%bool
      then Some status_code
      else None
  | None => None
  end.

End World.

Declare Scope io_scope.
Delimit Scope io_scope with io.
Notation "x <- m ;; k" := (World.bind m (fun x => k))
  (at level 61, m at next level, right associativity) : io_scope.
Notation "m ;; k" := (World.bind m (fun _ => k))
  (at level 61, right associativity) : io_scope.

(* ================================================================== *)
(** * evaluation_system/round1.py *)
(* ================================================================== *)

Module Round1.
Import Database World.
Local Open Scope io_scope.

Record template := mk_template {
  brief       : string;
  checks      : list string;
  attachments : option (list attachment)   (* None: no such key *)
}.

(** [TaskTemplates.get_templates()], the ['round1'] entries, in the
    order of the dictionary's keys. *)
Definition get_templates : list (string * template) :=
  [ ("captcha-solver",
     {| brief := "Create a captcha solver that handles ?url=https://.../image.png. Default to attached sample. Display the solved captcha text within 15 seconds.";
        checks := [ "Repo has MIT license";
                    "README.md is professional";
                    "Page displays captcha URL passed at ?url=...";
                    "Page displays solved captcha text within 15 seconds";
                    "Code is well-commented and organized" ];
        attachments :=
          Some [ {| att_name := "sample.png";
                    att_url := "data:image/png;base64,iVBORw0KGgoAAAANSUhEUgAAAAEAAAABCAYAAAAfFcSJAAAADUlEQVR42mNkYPhfDwAChwGA60e6kgAAAABJRU5ErkJggg==" |} ] |});
    ("weather-dashboard",
     {| brief := "Create a weather dashboard that displays current weather for a city passed as ?city=CityName. Use OpenWeatherMap API or similar.";
        checks := [ "Repo has MIT license";
                    "README.md is professional";
                    "Page accepts city parameter from URL";
                    "Displays current weather information";
                    "Responsive design for mobile devices" ];
        attachments := None |});
    ("todo-manager",
     {| brief := "Create a todo manager that supports adding, editing, deleting, and marking tasks as complete. Use localStorage for persistence.";
        checks := [ "Repo has MIT license";
                    "README.md is professional";
                    "Add, edit, delete functionality works";
                    "Mark tasks as complete/incomplete";
                    "Data persists using localStorage" ];
        attachments := None |}) ].

Section Generator.
Variable world : oracle.
Variable evaluation_url : string.      (* self.evaluation_url *)

(** [attachments or []] *)
Definition or_empty (a : option (list attachment)) : list attachment :=
  match a with
  | Some l => l
  | None => []
  end.

Definition generate_task_id (template_id brief : string)
           (attachments : option (list attachment)) : string :=
  template_id ++ "-" ++ md5 world brief (or_empty attachments).

(** [select_template]: the generator is seeded with the digest of
    [email + date_hour], so the pick is a function of that text. *)
Definition select_template (email date_hour : string)
  : option (string * template) :=
  let template_ids := get_templates in
  let i := Nat.modulo (seeded world (email ++ date_hour))
                      (List.length template_ids) in
  nth_error template_ids i.

(** [generate_task]: the task dictionary, or [None] from the
    [except] branch. *)
Definition generate_task (email endpoint secret : string)
  : io (option payload) :=
  n <- tick ;;
  let current_hour := strftime world n in
  match select_template email current_hour with
  | None => ret None
  | Some (template_id, round1_template) =>
      let task_id :=
        generate_task_id template_id (brief round1_template)
                         (attachments round1_template) in
      m <- tick ;;
      let nonce := uuid4 world m in
      emit (Uuid4 nonce) ;;
      ret (Some {| p_email := email; p_secret := secret;
                   p_task := task_id; p_round := 1; p_nonce := nonce;
                   p_brief := brief round1_template;
                   p_checks := checks round1_template;
                   p_evaluation_url := evaluation_url;
                   p_attachments :=
                     or_empty (attachments round1_template) |})
  end.

(** [send_task]: the status code, [None] when the request raised. *)
Definition send_task (endpoint : string) (task_data : payload)
  : io (option Z) :=
  n <- tick ;;
  let status_code := requests_post (post world n endpoint task_data) in
  emit (Post endpoint task_data status_code) ;;
  ret status_code.

(** [task_record = task_data.copy()] with the two extra keys. *)
Definition task_record (task_data : payload) (endpoint : string)
           (status_code : option Z) : Database.task_data :=
  {| td_email := Some (p_email task_data);
     td_secret := Some (p_secret task_data);
     td_task := Some (p_task task_data);
     td_round := Some (p_round task_data);
     td_nonce := Some (p_nonce task_data);
     td_brief := Some (p_brief task_data);
     td_checks := p_checks task_data;
     td_evaluation_url := Some (p_evaluation_url task_data);
     td_attachments := p_attachments task_data;
     td_endpoint := Some endpoint;
     td_statuscode := status_code |}.

Definition log_task (task_data : payload) (endpoint : string)
           (status_code : option Z) : io bool :=
  n <- tick ;;
  update (insert_task (isoformat world n)
                      (task_record task_data endpoint status_code)).

(** A line of the submissions CSV as [csv.DictReader] yields it; a
    field is [None] when the line has no value for that column. *)
Record csv_row := mk_csv_row {
  c_email    : option string;
  c_endpoint : option string;
  c_secret   : option string
}.

Record counts := mk_counts {
  processed_count : Z;
  skipped_count   : Z;
  error_count     : Z
}.

(** The [for row in reader] loop.  The result is [None] when the loop
    was left through the outer [except] (a row without one of the
    three columns), otherwise the counters that are printed. *)
Fixpoint process_rows (rows : list csv_row) (c : counts)
  : io (option counts) :=
  match rows with
  | [] => ret (Some c)
  | row :: rest =>
      match c_email row, c_endpoint row, c_secret row with
      | Some e, Some ep, Some sec =>
          let email := Py.strip e in
          let endpoint := Py.strip ep in
          let secret := Py.strip sec in
          (* Check any round 1 task for this email *)
          seen <- query (task_exists (Some email) None (Some 1)) ;;
          match seen with
          | OverflowError => ret None     (* the outer [except] *)
          | Returned true =>
              process_rows rest
                {| processed_count := processed_count c;
                   skipped_count := skipped_count c + 1;
                   error_count := error_count c |}
          | Returned false =>
              task_data <- generate_task email endpoint secret ;;
              match task_data with
              | None =>
                  process_rows rest
                    {| processed_count := processed_count c;
                       skipped_count := skipped_count c;
                       error_count := error_count c + 1 |}
              | Some task_data =>
                  status_code <- send_task endpoint task_data ;;
                  success <- log_task task_data endpoint status_code ;;
                  sleep 1 ;;
                  process_rows rest
                    (if success
                     then {| processed_count := processed_count c + 1;
                             skipped_count := skipped_count c;
                             error_count := error_count c |}
                     else {| processed_count := processed_count c;
                             skipped_count := skipped_count c;
                             error_count := error_count c + 1 |})
              end
          end
      | _, _, _ => ret None
      end
  end.

(** [process_submissions]: [file] is [None] when the CSV file cannot
    be opened. *)
Definition process_submissions (file : option (list csv_row))
  : io (option counts) :=
  match file with
  | None => ret None
  | Some rows =>
      process_rows rows
        {| processed_count := 0; skipped_count := 0; error_count := 0 |}
  end.

End Generator.

End Round1.

(* ================================================================== *)
(** * evaluation_system/round2.py *)
(* ================================================================== *)

Module Round2.
Import Database World.
Local Open Scope io_scope.

Record template := mk_template {
  brief  : string;
  checks : list string
}.

(** [self.round2_templates] *)
Definition round2_templates : list (string * list template) :=
  [ ("captcha-solver",
     [ {| brief := "Enhance the captcha solver to handle SVG images and implement audio captcha support with text-to-speech output.";
          checks := [ "SVG captcha support implemented";
                      "Audio captcha functionality added";
                      "Text-to-speech output for solved captchas";
                      "Error handling for unsupported formats";
                      "Updated README with new features";
                      "Backward compatibility maintained" ] |};
       {| brief := "Add batch processing capability to solve multiple captchas from a comma-separated URL list and display results in a table.";
          checks := [ "Batch processing of multiple URLs";
                      "Results displayed in organized table";
                      "Progress indicators during processing";
                      "Export functionality for results";
                      "Error handling for invalid URLs";
                      "Performance optimizations" ] |} ]);
    ("weather-dashboard",
     [ {| brief := "Add 7-day weather forecast, implement location-based weather detection using geolocation API, and add weather maps.";
          checks := [ "7-day forecast implemented";
                      "Geolocation API integration";
                      "Weather maps or charts added";
                      "Temperature unit conversion (C/F)";
                      "Error handling for API failures";
                      "Responsive design improvements" ] |};
       {| brief := "Implement weather alerts, historical data comparison, and add multiple city comparison dashboard.";
          checks := [ "Weather alerts and notifications";
                      "Historical weather data display";
                      "Multi-city comparison view";
                      "Favorite cities functionality";
                      "Data caching for performance";
                      "Enhanced mobile experience" ] |} ]);
    ("todo-manager",
     [ {| brief := "Add categories, due dates, priority levels, and implement search/filter functionality with data export capabilities.";
          checks := [ "Categories system implemented";
                      "Due dates and priority levels";
                      "Search and filter functionality";
                      "Export/import capabilities (JSON/CSV)";
                      "Task sorting options";
                      "Enhanced UI/UX design" ] |};
       {| brief := "Implement collaborative features with task sharing, comments, and real-time updates using localStorage or API.";
          checks := [ "Task sharing functionality";
                      "Comments and notes system";
                      "Real-time updates simulation";
                      "User roles and permissions";
                      "Activity history tracking";
                      "Notification system" ] |} ]) ].

(** [d[key]] on an association list standing for a dictionary. *)
Fixpoint lookup {A : Type} (key : string) (d : list (string * A)) : option A :=
  match d with
  | [] => None
  | (k, v) :: rest => if String.eqb k key then Some v else lookup key rest
  end.

(** [code == 200] and [code != 200] on a status that may be [None]. *)
Definition is_200 (code : option Z) : bool :=
  match code with
  | Some c => Z.eqb c 200
  | None => false
  end.

Section Generator.
Variable world : oracle.
Variable evaluation_url : string.

Definition extract_task_type (task_id : string) : string :=
  if Py.contains "-" task_id then Py.split_head "-" task_id else task_id.

(** [generate_round2_task]: [None] when the family has no template. *)
Definition generate_round2_task (repo : repo_row) (original_task : task_row)
  : io (option payload) :=
  let task_type := extract_task_type (t_task original_task) in
  match lookup task_type round2_templates with
  | None => ret None
  | Some templates =>
      n <- tick ;;
      match nth_error templates
                      (Nat.modulo (choice world n) (List.length templates)) with
      | None => ret None
      | Some selected_template =>
          m <- tick ;;
          let nonce := uuid4 world m in
          emit (Uuid4 nonce) ;;
          ret (Some {| p_email := r_email repo;
                       p_secret := t_secret original_task;
                       p_task := t_task original_task;
                       p_round := 2; p_nonce := nonce;
                       p_brief := brief selected_template;
                       p_checks := checks selected_template;
                       p_evaluation_url := evaluation_url;
                       p_attachments := [] |})
      end
  end.

Definition send_task (endpoint : string) (task_data : payload)
  : io (option Z) :=
  n <- tick ;;
  let status_code := requests_post (post world n endpoint task_data) in
  emit (Post endpoint task_data status_code) ;;
  ret status_code.

Definition log_task (task_data : payload) (endpoint : string)
           (status_code : option Z) : io bool :=
  n <- tick ;;
  update (insert_task (isoformat world n)
                      (Round1.task_record task_data endpoint status_code)).

(** The [for repo in round1_repos] loop of [process_round1_completions],
    with its three counters.  The rounds given to the two queries are
    the literals 2 and 1, which bind. *)
Fixpoint process_repos (round1_repos : list repo_row) (c : Round1.counts)
  : io Round1.counts :=
  match round1_repos with
  | [] => ret c
  | repo :: rest =>
      let email := r_email repo in
      let task := r_task repo in
      seen <- query (task_exists (Some email) (Some task) (Some 2)) ;;
      match seen with
      | OverflowError => ret c            (* not reached: 2 binds *)
      | Returned true =>
          process_repos rest
            {| Round1.processed_count := Round1.processed_count c;
               Round1.skipped_count := Round1.skipped_count c + 1;
               Round1.error_count := Round1.error_count c |}
      | Returned false =>
          round1_tasks <- query (get_tasks (Some email) (Some 1)) ;;
          match round1_tasks with
          | OverflowError => ret c        (* not reached: 1 binds *)
          | Returned round1_tasks =>
              match find (fun task_record =>
                            String.eqb (t_task task_record) task)
                         round1_tasks with
              | None =>
                  process_repos rest
                    {| Round1.processed_count := Round1.processed_count c;
                       Round1.skipped_count := Round1.skipped_count c;
                       Round1.error_count := Round1.error_count c + 1 |}
              | Some original_task =>
                  round2_task <- generate_round2_task repo original_task ;;
                  match round2_task with
                  | None =>
                      process_repos rest
                        {| Round1.processed_count := Round1.processed_count c;
                           Round1.skipped_count := Round1.skipped_count c;
                           Round1.error_count := Round1.error_count c + 1 |}
                  | Some round2_task =>
                      let endpoint := t_endpoint original_task in
                      status_code <- send_task endpoint round2_task ;;
                      success <- log_task round2_task endpoint status_code ;;
                      sleep 1 ;;
                      process_repos rest
                        (if success
                         then {| Round1.processed_count :=
                                   Round1.processed_count c + 1;
                                 Round1.skipped_count :=
                                   Round1.skipped_count c;
                                 Round1.error_count := Round1.error_count c |}
                         else {| Round1.processed_count :=
                                   Round1.processed_count c;
                                 Round1.skipped_count :=
                                   Round1.skipped_count c;
                                 Round1.error_count :=
                                   Round1.error_count c + 1 |})
                  end
              end
          end
      end
  end.

(** [process_round1_completions]: [None] when there is nothing to do. *)
Definition process_round1_completions : io (option Round1.counts) :=
  round1_repos <- query (get_repos None (Some 1)) ;;
  match round1_repos with
  | OverflowError => ret None             (* not reached: 1 binds *)
  | Returned [] => ret None
  | Returned round1_repos =>
      c <- process_repos round1_repos
             {| Round1.processed_count := 0; Round1.skipped_count := 0;
                Round1.error_count := 0 |} ;;
      ret (Some c)
  end.

(** The payload rebuilt from a stored row by the retry sweep. *)
Definition retry_payload (task : task_row) : payload :=
  {| p_email := t_email task;
     p_secret := t_secret task;
     p_task := t_task task;
     p_round := t_round task;
     p_nonce := t_nonce task;
     p_brief := t_brief task;
     p_checks := match t_checks task with Some l => l | None => [] end;
     p_evaluation_url := t_evaluation_url task;
     p_attachments :=
       match t_attachments task with Some l => l | None => [] end |}.

(** The [for task in failed_tasks] loop; the result is [retry_count]. *)
Fixpoint retry_tasks (failed_tasks : list task_row) (retry_count : Z)
  : io Z :=
  match failed_tasks with
  | [] => ret retry_count
  | task :: rest =>
      let task_data := retry_payload task in
      status_code <- send_task (t_endpoint task) task_data ;;
      (* Note: This would require an update method in DatabaseManager *)
      let retry_count :=
        if is_200 status_code then retry_count + 1 else retry_count in
      sleep 2 ;;
      retry_tasks rest retry_count
  end.

(** [retry_failed_round2_tasks]; [max_retries] is accepted and never
    read.  The result is [None] when no task is selected, otherwise the
    number of successful re-deliveries that is printed. *)
Definition retry_failed_round2_tasks (max_retries : Z) : io (option Z) :=
  all_round2_tasks <- query (get_tasks None (Some 2)) ;;
  match all_round2_tasks with
  | OverflowError => ret None             (* not reached: 2 binds *)
  | Returned all_round2_tasks =>
      let failed_tasks :=
        filter (fun task => negb (is_200 (t_statuscode task)))
               all_round2_tasks in
      match failed_tasks with
      | [] => ret None
      | _ =>
          retry_count <- retry_tasks failed_tasks 0 ;;
          ret (Some retry_count)
      end
  end.

End Generator.

End Round2.

(* ================================================================== *)
(** * evaluation_system/evaluate.py *)
(* ================================================================== *)

Module Evaluate.
Import Database.
Local Open Scope float_scope.

(** A call that may raise: its value, or the text of the exception. *)
Inductive exc (A : Type) : Type :=
| Ok (a : A)
| Raised (error : string).
Arguments Ok {A} a.
Arguments Raised {A} error.

(** The checked-out working tree: every path below the clone directory
    (relative, slash-separated, in the order the file system lists
    them) with what [read_text(encoding='utf-8')] gives for it. *)
Definition tree := list (string * exc string).

Fixpoint read (name : string) (t : tree) : option (exc string) :=
  match t with
  | [] => None
  | (path, content) :: rest =>
      if String.eqb path name then Some content else read name rest
  end.

(** The reply of the chat model to a prompt: the call raised, or it
    returned [result]; [leading] is [float(lines[0].split()[0])] ([None]
    when that raises ValueError or IndexError) and [rest] is
    [lines[1:]], the lines after the first. *)
Inductive reply :=
| Failed (error : string)
| Answer (result : string) (leading : option float) (rest : list string).

(** What one page load shows to the Playwright driver. *)
Record page := mk_page {
  title      : exc string;           (* page.title() *)
  inner_text : exc string;           (* page.inner_text('body') *)
  inputs     : exc nat;              (* len(query_selector_all('input')) *)
  buttons    : exc nat               (* len(query_selector_all('button')) *)
}.

(** Everything one evaluation run gets from outside the process. *)
Record run := mk_run {
  clone_escapes    : option string;  (* the exception that leaves
                                        clone_repository: subprocess.run
                                        raised something other than
                                        CalledProcessError *)
  clone_repository : bool;           (* otherwise the value returned: git
                                        clone and checkout worked *)
  files            : tree;           (* the working tree after checkout *)
  chat_readme      : string -> reply;  (* README prompt, by its excerpt *)
  chat_code        : string -> reply;  (* code prompt, by its excerpt *)
  get              : exc Z;          (* requests.get(pages_url).status_code *)
  goto             : string -> exc page;  (* launch, goto, wait *)
  close            : exc unit;       (* browser.close() *)
  isoformat        : nat -> string   (* the clock at the n-th insert *)
}.

Record evaluator := mk_evaluator {
  openai_available     : bool;
  playwright_available : bool
}.

Section Checks.
Variable self : evaluator.
Variable env : run.

(** ** check_mit_license *)

Definition license_files : list string :=
  ["LICENSE"; "LICENSE.txt"; "LICENSE.md"; "license"; "license.txt"]%string.

Fixpoint scan_license_files (names : list string) : bool :=
  match names with
  | [] => false
  | license_file :: rest =>
      match read license_file (files env) with
      | Some (Ok text) =>
          let content := Py.lower text in
          if (Py.contains "mit license" content || Py.contains "mit" content)%bool
          then true
          else scan_license_files rest
      | Some (Raised _) => scan_license_files rest
      | None => scan_license_files rest
      end
  end.

Definition check_mit_license : bool * string :=
  if scan_license_files license_files
  then (true, "MIT license found"%string)
  else (false, "MIT license not found"%string).

(** ** check_readme_quality *)

(** [any(section in text for section in sections)] *)
Definition any_in (sections : list string) (text : string) : bool :=
  existsb (fun section => Py.contains section text) sections.

(** The rubric used when no chat model is configured, as the pairs
    (points, criterion) that were met. *)
Definition readme_criteria (readme_content : string)
  : list (float * string) :=
  ((if Z.ltb 500 (Py.len readme_content)
   then [(0.2, "adequate length"%string)] else [])
  ++ (if Py.contains "# " readme_content
      then [(0.2, "has headings"%string)] else [])
  ++ (if any_in ["setup"; "installation"; "usage"]%string
                (Py.lower readme_content)
      then [(0.2, "has setup/usage sections"%string)] else [])
  ++ (if any_in ["license"; "mit"]%string (Py.lower readme_content)
      then [(0.2, "mentions license"%string)] else [])
  ++ (if Py.contains "```" readme_content
      then [(0.2, "has code examples"%string)] else []))%list.

(** [score = 0.0] followed by the [score += points] of each criterion. *)
Definition total (met : list (float * string)) : float :=
  fold_left (fun score c => score + fst c) met 0.0.

(** The common tail of the two chat-model checks. *)
Definition chat_score (r : reply) (default : string) (on_error : string)
  : float * string :=
  match r with
  | Failed e => (0.5, (on_error ++ e)%string)
  | Answer result (Some score) rest =>
      let explanation :=
        match rest with
        | [] => default
        | _ => String.concat " " rest
        end in
      (Py.min (Py.max score 0.0) 1.0, explanation)
  | Answer result None _ =>
      (0.5, ("LLM response parsing error: " ++ result)%string)
  end.

Definition check_readme_quality : float * string :=
  match read "README.md" (files env) with
  | None => (0.0, "README.md not found"%string)
  | Some (Raised e) => (0.0, ("Error reading README.md: " ++ e)%string)
  | Some (Ok readme_content) =>
      if negb (openai_available self) then
        let met := readme_criteria readme_content in
        (Py.min (total met) 1.0,
         ("Basic criteria met: " ++ String.concat ", " (map snd met))%string)
      else
        chat_score (chat_readme env (Py.take 2000 readme_content))
                   "LLM evaluation" "LLM evaluation error: "
  end.

(** ** check_code_quality *)

Definition extensions : list string :=
  [".html"; ".css"; ".js"; ".py"; ".java"; ".cpp"; ".c"]%string.

(** [Path(repo_path).glob('**/*' + ext)] *)
Definition glob (ext : string) : tree :=
  filter (fun entry => Py.endswith (fst entry) ext) (files env).

Definition code_files : tree := flat_map glob extensions.

(** The loop over [code_files[:3]] that builds [code_content]. *)
Definition read_code (sample : tree) : string :=
  fold_left
    (fun code_content entry =>
       match snd entry with
       | Ok content =>
           (code_content ++ Py.nl ++ Py.nl ++ "=== "
            ++ Py.basename (fst entry) ++ " ===" ++ Py.nl
            ++ Py.take 1000 content)%string
       | Raised _ => code_content
       end)
    sample ""%string.

Definition check_code_quality : float * string :=
  if negb (openai_available self)
  then (0.5, "LLM not available for code quality check"%string)
  else
    match code_files with
    | [] => (0.0, "No code files found"%string)
    | _ =>
        let code_content := read_code (firstn 3 code_files) in
        if negb (Py.truthy_str code_content)
        then (0.0, "No readable code files"%string)
        else
          chat_score (chat_code env (Py.take 3000 code_content))
                     "LLM code evaluation" "LLM code evaluation error: "
    end.

(** ** check_pages_accessibility *)

Definition check_pages_accessibility : bool * string :=
  match get env with
  | Ok status_code =>
      if Z.eqb status_code 200
      then (true, ("Pages accessible (HTTP " ++ Py.str status_code ++ ")")%string)
      else (false,
            ("Pages not accessible (HTTP " ++ Py.str status_code ++ ")")%string)
  | Raised e => (false, ("Pages accessibility error: " ++ e)%string)
  end.

(** ** dynamic_check_playwright *)

Definition bind {A B : Type} (m : exc A) (k : A -> exc B) : exc B :=
  match m with
  | Ok a => k a
  | Raised e => Raised e
  end.

Notation "'try' x '<-' m ';' k" := (bind m (fun x => k))
  (at level 10, x name, m at level 100, k at level 200).

(** The three sub-probes in the order the code runs them; the state is
    the pair [(score, checks_passed)]. *)
Definition probe_title (p : page) (acc : float * list string)
  : exc (float * list string) :=
  try title <- title p;
  Ok (if (Py.truthy_str title && Py.truthy_str (Py.strip title))%bool
      then (fst acc + 0.3, (snd acc ++ ["page has title"%string])%list)
      else acc).

Definition probe_content (p : page) (acc : float * list string)
  : exc (float * list string) :=
  try body_text <- inner_text p;
  Ok (if Z.ltb 50 (Py.len (Py.strip body_text))
      then (fst acc + 0.3, (snd acc ++ ["page has content"%string])%list)
      else acc).

(** The parameter probes of the captcha and weather families: load the
    page with a query string and look for the value in the body. *)
Definition probe_parameter (test_url needle passed : string)
           (acc : float * list string) : exc (float * list string) :=
  try p <- goto env test_url;
  try body_text <- inner_text p;
  Ok (if Py.contains needle (Py.lower body_text)
      then (fst acc + 0.4, (snd acc ++ [passed])%list)
      else acc).

(** The todo probe runs under its own [try ... except: pass]. *)
Definition probe_todo (p : page) (acc : float * list string)
  : float * list string :=
  match inputs p, buttons p with
  | Ok i, Ok b =>
      if (negb (Nat.eqb i 0) && negb (Nat.eqb b 0))%bool
      then (fst acc + 0.4, (snd acc ++ ["todo interface elements"%string])%list)
      else acc
  | _, _ => acc
  end.

Definition probe_task (pages_url task : string) (p : page)
           (acc : float * list string) : exc (float * list string) :=
  let task_type := Py.split_head "-" task in
  if String.eqb task_type "captcha" then
    probe_parameter (pages_url ++ "?url=test") "test"
                    "URL parameter handling" acc
  else if String.eqb task_type "weather" then
    probe_parameter (pages_url ++ "?city=London") "london"
                    "city parameter handling" acc
  else if String.eqb task_type "todo" then
    Ok (probe_todo p acc)
  else Ok acc.

(** The body of the [try] block. *)
Definition drive_browser (pages_url task : string)
  : exc (float * list string) :=
  try p <- goto env pages_url;
  try acc <- probe_title p (0.0, []);
  try acc <- probe_content p acc;
  try acc <- probe_task pages_url task p acc;
  try _ <- close env;
  Ok acc.

Definition dynamic_check_playwright (pages_url task : string)
  : float * string :=
  if negb (playwright_available self)
  then (0.5, "Playwright not available for dynamic checks"%string)
  else
    match drive_browser pages_url task with
    | Ok (score, checks_passed) =>
        (Py.min score 1.0,
         ("Dynamic checks passed: " ++ String.concat ", " checks_passed)%string)
    | Raised e => (0.0, ("Dynamic check error: " ++ e)%string)
    end.

(** ** evaluate_repository *)

(** The dictionary appended to [results] for one check. *)
Definition result (repo_data : repo_row) (check_name : string)
           (score : float) (reason : string) : result_data :=
  {| ed_email := Some (r_email repo_data);
     ed_task := Some (r_task repo_data);
     ed_round := Some (to_Z (r_round repo_data));
     ed_repo_url := Some (r_repo_url repo_data);
     ed_commit_sha := Some (r_commit_sha repo_data);
     ed_pages_url := Some (r_pages_url repo_data);
     ed_check_name := Some check_name;
     ed_score := Some score;
     ed_reason := Some reason;
     ed_logs := Some ""%string |}.

(** [1.0 if flag else 0.0] *)
Definition binary (flag : bool) : float := if flag then 1.0 else 0.0.

(** The checks that need the clone, or the one row that reports its
    failure. *)
Definition repository_results (repo_data : repo_row) : list result_data :=
  if clone_repository env then
    let (has_license, license_reason) := check_mit_license in
    let (readme_score, readme_reason) := check_readme_quality in
    let (code_score, code_reason) := check_code_quality in
    [ result repo_data "MIT License" (binary has_license) license_reason;
      result repo_data "README Quality" readme_score readme_reason;
      result repo_data "Code Quality" code_score code_reason ]
  else
    [ result repo_data "Repository Access" 0.0 "Failed to clone repository" ].

(** The two checks of the deployed page. *)
Definition pages_results (repo_data : repo_row) : list result_data :=
  let pages_url := r_pages_url repo_data in
  let (pages_accessible, pages_reason) := check_pages_accessibility in
  result repo_data "Pages Accessibility" (binary pages_accessible) pages_reason
  :: (if pages_accessible then
        let (dynamic_score, dynamic_reason) :=
          dynamic_check_playwright pages_url (r_task repo_data) in
        [ result repo_data "Dynamic Functionality" dynamic_score
                 dynamic_reason ]
      else []).

(** [for result in results: self.db.insert_result(result)]; the value
    returned by [insert_result] is dropped. *)
Fixpoint store_results (n : nat) (results : list result_data) (d : database)
  : database :=
  match results with
  | [] => d
  | r :: rest =>
      store_results (S n) rest (snd (insert_result (isoformat env n) r d))
  end.

(** [evaluate_repository]: the list it returns and the store
    afterwards.  The call of [clone_repository] is under no [try], and
    the results are stored only at the end, so an exception that leaves
    [clone_repository] leaves the pass before any row is written. *)
Definition evaluate_repository (repo_data : repo_row) (d : database)
  : exc (list result_data) * database :=
  match clone_escapes env with
  | Some e => (Raised e, d)
  | None =>
      let results :=
        (repository_results repo_data ++ pages_results repo_data)%list in
      (Ok results, store_results 0 results d)
  end.

End Checks.

End Evaluate.

(* ================================================================== *)
(** * student_api/app.py: the notifier *)
(* ================================================================== *)

Module StudentApi.

(** The [notification_data] dictionary of [build_application];
    [evaluation_url] is what [data.get('evaluation_url')] returns. *)
Record notification_data := mk_notification_data {
  email          : string;
  task           : string;
  round          : Z;
  nonce          : string;
  repo_url       : string;
  commit_sha     : string;
  pages_url      : string;
  evaluation_url : option string
}.

(** The JSON body posted to the evaluation API. *)
Record payload := mk_payload {
  p_email      : string;
  p_task       : string;
  p_round      : Z;
  p_nonce      : string;
  p_repo_url   : string;
  p_commit_sha : string;
  p_pages_url  : string
}.

Inductive event :=
| Post (attempt : Z) (url : string) (body : payload)
| Sleep (seconds : Z).

Section Notifier.
(** The answer to the request of a given attempt: the status code, or
    [None] when [requests.post] raised. *)
Variable post : Z -> option Z.

Definition is_200 (answer : option Z) : bool :=
  match answer with
  | Some status_code => Z.eqb status_code 200
  | None => false
  end.

(** The [for attempt in range(max_retries)] loop from [attempt] on, with
    [remaining] iterations to go. *)
Fixpoint attempts (evaluation_url : string) (body : payload)
         (max_retries attempt : Z) (remaining : nat) : bool * list event :=
  match remaining with
  | O => (false, [])
  | S remaining =>
      if is_200 (post attempt)
      then (true, [Post attempt evaluation_url body])
      else
        let waited :=
          if Z.ltb attempt (max_retries - 1)
          then [Sleep (2 ^ attempt)]   (* 1, 2, 4, 8, 16 seconds *)
          else [] in
        let (sent, later) :=
          attempts evaluation_url body max_retries (attempt + 1) remaining in
        (sent, Post attempt evaluation_url body :: waited ++ later)
  end.

(** [notify_evaluation_api(data, max_retries)]: the value returned and
    what was done on the way. *)
Definition notify_evaluation_api (data : notification_data) (max_retries : Z)
  : bool * list event :=
  match evaluation_url data with
  | None => (false, [])
  | Some url =>
      if negb (Py.truthy_str url) then (false, [])
      else
        let body :=
          {| p_email := email data; p_task := task data;
             p_round := round data; p_nonce := nonce data;
             p_repo_url := repo_url data; p_commit_sha := commit_sha data;
             p_pages_url := pages_url data |} in
        attempts url body max_retries 0 (Z.to_nat max_retries)
  end.

(** The default of the keyword argument. *)
Definition default_max_retries : Z := 5.

End Notifier.

(** The requests of a trace, and its waits. *)
Definition posts (tr : list event) : list Z :=
  flat_map (fun e => match e with Post a _ _ => [a] | Sleep _ => [] end) tr.

Definition sleeps (tr : list event) : list Z :=
  flat_map (fun e => match e with Sleep s => [s] | Post _ _ _ => [] end) tr.

End StudentApi.

(* ================================================================== *)
(** * The vocabulary of the properties *)
(* ================================================================== *)

Module Props.
Import Database.

(** The number of Task rows that carry a given unique key. *)
Definition task_count (e t : string) (r : Z) (d : database) : nat :=
  List.length (filter (task_has_key e t r) (tasks d)).

(** At most one Task row per (email, task, round). *)
Definition tasks_unique (d : database) : Prop :=
  forall e t r, (task_count e t r d <= 1)%nat.

(** An issued Task row with the given student, task, round and nonce. *)
Definition issued (e t : string) (r : Z) (n : string) (d : database) : Prop :=
  exists row, In row (tasks d)
              /\ t_email row = e /\ t_task row = t
              /\ to_Z (t_round row) = r /\ t_nonce row = n.

(** A Submission row with the given student, task, round and nonce. *)
Definition submitted (e t : string) (r : Z) (n : string) (d : database)
  : Prop :=
  exists row, In row (repos d)
              /\ r_email row = e /\ r_task row = t
              /\ to_Z (r_round row) = r /\ r_nonce row = n.


(** A computation of the issuer scripts keeps a property of the store. *)
Definition preserves {A : Type} (P : database -> Prop) (m : World.io A)
  : Prop :=
  forall s, P (World.db s) -> P (World.db (snd (m s))).

(** The operations that touch the store, for statements about every
    sequence of them. *)
Inductive operation :=
| Upsert (now : string) (td : task_data)
| Notify (now : string) (data : option EvaluationApi.notification)
| Round1Sweep (world : World.oracle) (evaluation_url : string)
              (file : option (list Round1.csv_row))
| Round2Sweep (world : World.oracle) (evaluation_url : string)
| Round2Retry (world : World.oracle) (max_retries : Z).

Definition start (d : database) : World.state :=
  {| World.db := d; World.step := 0; World.trace := [] |}.

Definition perform (d : database) (o : operation) : database :=
  match o with
  | Upsert now td => snd (insert_task now td d)
  | Notify now data => snd (EvaluationApi.receive_notification now data d)
  | Round1Sweep world url file =>
      World.db (snd (Round1.process_submissions world url file (start d)))
  | Round2Sweep world url =>
      World.db (snd (Round2.process_round1_completions world url (start d)))
  | Round2Retry world max_retries =>
      World.db
        (snd (Round2.retry_failed_round2_tasks world max_retries (start d)))
  end.

Definition perform_all (ops : list operation) (d : database) : database :=
  fold_left perform ops d.

(** The deliveries and the nonces recorded in a trace. *)
Definition deliveries (tr : list World.event)
  : list (string * World.payload) :=
  flat_map (fun e => match e with
                     | World.Post endpoint body _ => [(endpoint, body)]
                     | _ => []
                     end) tr.

Definition minted (tr : list World.event) : list string :=
  flat_map (fun e => match e with
                     | World.Uuid4 nonce => [nonce]
                     | _ => []
                     end) tr.

(** The Task rows the round-2 retry sweep selects. *)
Definition selected_for_retry (d : database) : list task_row :=
  filter (fun task => negb (Round2.is_200 (t_statuscode task)))
         (filter (fun task => Z.eqb (t_round task) 2) (tasks d)).


(** The names of the checks in a list of results. *)
Definition check_names (rs : list result_data) : list string :=
  flat_map (fun r => match ed_check_name r with
                     | Some name => [name]
                     | None => []
                     end) rs.

(** ** The dynamic check, as the specification words it *)

Definition contribution (points : float) (passed : bool) : float :=
  if passed then points else 0%float.

(** 0.3 for the title, 0.3 for the content, 0.4 for the family probe,
    clamped at 1.0. *)
Definition probe_sum (title content family : bool) : float :=
  Py.min (contribution 0.3 title + contribution 0.3 content
          + contribution 0.4 family)%float 1%float.

(** The three sub-probes read off the world of a run. *)
Definition title_present (p : Evaluate.page) : bool :=
  match Evaluate.title p with
  | Evaluate.Ok t => Py.truthy_str (Py.strip t)
  | Evaluate.Raised _ => false
  end.

Definition content_present (p : Evaluate.page) : bool :=
  match Evaluate.inner_text p with
  | Evaluate.Ok b => Z.ltb 50 (Py.len (Py.strip b))
  | Evaluate.Raised _ => false
  end.

Definition echoes (env : Evaluate.run) (test_url needle : string) : bool :=
  match Evaluate.goto env test_url with
  | Evaluate.Ok p =>
      match Evaluate.inner_text p with
      | Evaluate.Ok b => Py.contains needle (Py.lower b)
      | Evaluate.Raised _ => false
      end
  | Evaluate.Raised _ => false
  end.

Definition has_controls (p : Evaluate.page) : bool :=
  match Evaluate.inputs p, Evaluate.buttons p with
  | Evaluate.Ok i, Evaluate.Ok b => (negb (Nat.eqb i 0) && negb (Nat.eqb b 0))%bool
  | _, _ => false
  end.

Definition family_probe (env : Evaluate.run) (pages_url task : string)
           (p : Evaluate.page) : bool :=
  let family := Py.split_head "-" task in
  if String.eqb family "captcha" then echoes env (pages_url ++ "?url=test") "test"
  else if String.eqb family "weather"
       then echoes env (pages_url ++ "?city=London") "london"
  else if String.eqb family "todo" then has_controls p
  else false.

(** ** The license check, as the specification words it *)




End Props.

(* ================================================================== *)
(** * Sample data *)
(* ================================================================== *)

Module Sample.
Import Database.

(** The task of the example scenario: student [a@x.edu], family
    [todo-manager], nonce [N1], delivered with status 200. *)
Definition issued_task : task_data :=
  {| td_email := Some "a@x.edu";
     td_secret := Some "s3cret";
     td_task := Some "todo-manager-abc12";
     td_round := Some 1;
     td_nonce := Some "N1";
     td_brief := Some "Create a todo manager";
     td_checks := ["Repo has MIT license"];
     td_evaluation_url := Some "http://eval/api/notify";
     td_attachments := [];
     td_endpoint := Some "http://student/api/build";
     td_statuscode := Some 200 |}.

(** The same task issued again under a fresh nonce. *)
Definition reissued_task : task_data :=
  {| td_email := Some "a@x.edu";
     td_secret := Some "s3cret";
     td_task := Some "todo-manager-abc12";
     td_round := Some 1;
     td_nonce := Some "N2";
     td_brief := Some "Create a todo manager";
     td_checks := ["Repo has MIT license"];
     td_evaluation_url := Some "http://eval/api/notify";
     td_attachments := [];
     td_endpoint := Some "http://student/api/build";
     td_statuscode := None |}.

Definition reissued_row : task_row :=
  {| t_id := 2; t_timestamp := "2025-10-01T11:00:00";
     t_email := "a@x.edu"; t_task := "todo-manager-abc12"; t_round := mk_int64 1 eq_refl;
     t_nonce := "N2"; t_brief := "Create a todo manager";
     t_attachments := Some []; t_checks := Some ["Repo has MIT license"];
     t_evaluation_url := "http://eval/api/notify";
     t_endpoint := "http://student/api/build";
     t_statuscode := None; t_secret := "s3cret" |}.

(** A store holding that one task. *)
Definition store : database :=
  snd (insert_task "2025-10-01T10:00:00" issued_task init_database).

(** A notification for the issued task from its student ... *)
Definition honest : EvaluationApi.notification :=
  {| EvaluationApi.n_email := EvaluationApi.Val "a@x.edu";
     EvaluationApi.n_task := EvaluationApi.Val "todo-manager-abc12";
     EvaluationApi.n_round := EvaluationApi.Val 1;
     EvaluationApi.n_nonce := EvaluationApi.Val "N1";
     EvaluationApi.n_repo_url := EvaluationApi.Val "https://github.com/a/todo";
     EvaluationApi.n_commit_sha := EvaluationApi.Val "0a1b2c3";
     EvaluationApi.n_pages_url := EvaluationApi.Val "https://a.github.io/todo/";
     EvaluationApi.n_other := false |}.

(** ... the same with the empty string for the email ... *)
Definition no_email : EvaluationApi.notification :=
  {| EvaluationApi.n_email := EvaluationApi.Val "";
     EvaluationApi.n_task := EvaluationApi.Val "todo-manager-abc12";
     EvaluationApi.n_round := EvaluationApi.Val 1;
     EvaluationApi.n_nonce := EvaluationApi.Val "N1";
     EvaluationApi.n_repo_url := EvaluationApi.Val "https://github.com/m/todo";
     EvaluationApi.n_commit_sha := EvaluationApi.Val "0a1b2c3";
     EvaluationApi.n_pages_url := EvaluationApi.Val "https://m.github.io/todo/";
     EvaluationApi.n_other := false |}.

(** ... and the same for round 0, which was never issued. *)
Definition round_zero : EvaluationApi.notification :=
  {| EvaluationApi.n_email := EvaluationApi.Val "a@x.edu";
     EvaluationApi.n_task := EvaluationApi.Val "todo-manager-abc12";
     EvaluationApi.n_round := EvaluationApi.Val 0;
     EvaluationApi.n_nonce := EvaluationApi.Val "N1";
     EvaluationApi.n_repo_url := EvaluationApi.Val "https://github.com/a/todo";
     EvaluationApi.n_commit_sha := EvaluationApi.Val "0a1b2c3";
     EvaluationApi.n_pages_url := EvaluationApi.Val "https://a.github.io/todo/";
     EvaluationApi.n_other := false |}.

(** An outside world for a sweep: the student endpoint answers 200, the
    seeded pick is the third template and the next nonce is [N2]. *)
Definition world : World.oracle :=
  {| World.isoformat := fun _ => "2025-10-01T12:00:00";
     World.strftime := fun _ => "2025-10-01-12";
     World.uuid4 := fun _ => "N2";
     World.post := fun _ _ _ => Some 200;
     World.seeded := fun _ => 2%nat;
     World.choice := fun _ => 0%nat;
     World.md5 := fun _ _ => "abc12" |}.

(** The submissions CSV with the one line of student [a@x.edu]. *)
Definition submissions : option (list Round1.csv_row) :=
  Some [ {| Round1.c_email := Some "a@x.edu";
            Round1.c_endpoint := Some "http://student/api/build";
            Round1.c_secret := Some "s3cret" |} ].

(** The payload the sweep builds for that line in that world. *)
Definition second_issue : World.payload :=
  {| World.p_email := "a@x.edu";
     World.p_secret := "s3cret";
     World.p_task := "todo-manager-abc12";
     World.p_round := 1;
     World.p_nonce := "N2";
     World.p_brief := "Create a todo manager that supports adding, editing, deleting, and marking tasks as complete. Use localStorage for persistence.";
     World.p_checks := [ "Repo has MIT license";
                         "README.md is professional";
                         "Add, edit, delete functionality works";
                         "Mark tasks as complete/incomplete";
                         "Data persists using localStorage" ];
     World.p_evaluation_url := "http://eval/api/notify";
     World.p_attachments := [] |}.

(** A run of the evaluator over a given working tree and a given answer
    of the deployed page; no chat model, no browser session. *)
Definition run_of (t : Evaluate.tree) (status : Evaluate.exc Z)
  : Evaluate.run :=
  {| Evaluate.clone_escapes := None;
     Evaluate.clone_repository := true;
     Evaluate.files := t;
     Evaluate.chat_readme := fun _ => Evaluate.Failed "no chat model";
     Evaluate.chat_code := fun _ => Evaluate.Failed "no chat model";
     Evaluate.get := status;
     Evaluate.goto := fun _ => Evaluate.Raised "no browser";
     Evaluate.close := Evaluate.Ok tt;
     Evaluate.isoformat := fun _ => "2025-10-03T08:00:00" |}.



(** ... and one with nothing but a README. *)
Definition readme_only : Evaluate.tree :=
  [ ("README.md", Evaluate.Ok "# Todo manager") ].

(** An evaluator without a chat model and without Playwright, and one
    with both. *)
Definition bare : Evaluate.evaluator :=
  {| Evaluate.openai_available := false;
     Evaluate.playwright_available := false |}.


(** The Submission of the example scenario, as [get_repos] returns it. *)
Definition submission : repo_row :=
  {| r_id := 1; r_timestamp := "2025-10-02T09:00:00";
     r_email := "a@x.edu"; r_task := "todo-manager-abc12"; r_round := mk_int64 1 eq_refl;
     r_nonce := "N1"; r_repo_url := "https://github.com/a/todo";
     r_commit_sha := "0a1b2c3";
     r_pages_url := "https://a.github.io/todo/" |}.

(** The notification of a finished build, and the same without a
    usable evaluation URL. *)
Definition built : StudentApi.notification_data :=
  {| StudentApi.email := "a@x.edu";
     StudentApi.task := "todo-manager-abc12";
     StudentApi.round := 1;
     StudentApi.nonce := "N1";
     StudentApi.repo_url := "https://github.com/a/todo";
     StudentApi.commit_sha := "0a1b2c3";
     StudentApi.pages_url := "https://a.github.io/todo/";
     StudentApi.evaluation_url := Some "http://eval/api/notify" |}.

Definition built_nowhere : StudentApi.notification_data :=
  {| StudentApi.email := "a@x.edu";
     StudentApi.task := "todo-manager-abc12";
     StudentApi.round := 1;
     StudentApi.nonce := "N1";
     StudentApi.repo_url := "https://github.com/a/todo";
     StudentApi.commit_sha := "0a1b2c3";
     StudentApi.pages_url := "https://a.github.io/todo/";
     StudentApi.evaluation_url := Some "" |}.

(** An evaluator that always answers 200, one that is down, and one
    that comes back for the third request. *)
Definition up : Z -> option Z := fun _ => Some 200.
Definition down : Z -> option Z := fun _ => None.
Definition back_at_third : Z -> option Z :=
  fun attempt => if Z.eqb attempt 2 then Some 200 else Some 503.

End Sample.

(* ================================================================== *)
(** * database/database.py: the remaining queries and the form table *)
(* ================================================================== *)

Module Queries.
Import Database.

(** [get_results(email, task)]: like [get_tasks], each filter is added
    only for a truthy argument. *)
Definition get_results (email task : option string) (db : database)
  : list result_row :=
  filter
    (fun row =>
       (if Py.truthy_opt Py.truthy_str email
        then sql_where (sql_eq String.eqb (e_email row) email) else true)
       &&
       (if Py.truthy_opt Py.truthy_str task
        then sql_where (sql_eq String.eqb (e_task row) task) else true))%bool
    (results db).

End Queries.

Module Forms.

(** A row of the [submissions] table (the Google Form entries). *)
Record submission_row := mk_submission_row {
  s_id        : Z;
  s_timestamp : string;
  s_email     : string;
  s_endpoint  : string;
  s_secret    : string;
  s_repo_url  : option string
}.

(** The table with its AUTOINCREMENT counter. *)
Record table := mk_table {
  submissions     : list submission_row;
  seq_submissions : Z
}.

Definition empty : table := {| submissions := []; seq_submissions := 0 |}.

(** The dictionary given to [insert_submission]; [sd_repo_url] is
    [None] when the key is missing, [Some None] when it holds [None]. *)
Record submission_data := mk_submission_data {
  sd_email    : option string;
  sd_endpoint : option string;
  sd_secret   : option string;
  sd_repo_url : option (option string)
}.

(** [submission_data.get('repo_url', '')] *)
Definition repo_url_or_empty (v : option (option string)) : option string :=
  match v with
  | None => Some ""
  | Some x => x
  end.

Definition submission_row_of (now : string) (id : Z) (sd : submission_data)
  : option submission_row :=
  Database.not_null (sd_email sd) (fun email =>
  Database.not_null (sd_endpoint sd) (fun endpoint =>
  Database.not_null (sd_secret sd) (fun secret =>
  Some {| s_id := id; s_timestamp := now; s_email := email;
          s_endpoint := endpoint; s_secret := secret;
          s_repo_url := repo_url_or_empty (sd_repo_url sd) |}))).

(** [insert_submission]: INSERT OR REPLACE under [UNIQUE(email)]. *)
Definition insert_submission (now : string) (sd : submission_data)
           (t : table) : bool * table :=
  match submission_row_of now (seq_submissions t + 1) sd with
  | Some row =>
      (true,
       {| submissions :=
            filter (fun old => negb (String.eqb (s_email old) (s_email row)))
                   (submissions t) ++ [row];
          seq_submissions := seq_submissions t + 1 |})
  | None => (false, t)
  end.

(** [get_submissions]: [SELECT * FROM submissions]. *)
Definition get_submissions (t : table) : list submission_row :=
  submissions t.

End Forms.

(* ================================================================== *)
(** * evaluation_system/evaluate.py: the loop over all repositories *)
(* ================================================================== *)

Module Pipeline.
Import Database Evaluate.



End Pipeline.

(* ================================================================== *)
(** * More Python built-ins, for the text the student API generates *)
(* ================================================================== *)

Module PyText.

(** The double quote. *)
Definition dq : string := String (ascii_of_nat 34) EmptyString.

(** The lines of a triple-quoted literal, joined again. *)
Definition lines (l : list string) : string := String.concat Py.nl l.

Definition is_lower (c : ascii) : bool :=
  let n := nat_of_ascii c in (Nat.leb 97 n && Nat.leb n 122)%bool.

Definition is_upper (c : ascii) : bool :=
  let n := nat_of_ascii c in (Nat.leb 65 n && Nat.leb n 90)%bool.

Definition upper_ascii (c : ascii) : ascii :=
  if is_lower c then ascii_of_nat (nat_of_ascii c - 32) else c.

(** [s.title()]: a cased character is put in upper case when the
    character before it is not cased, in lower case when it is. *)
Fixpoint title_from (previous_is_cased : bool) (s : string) : string :=
  match s with
  | EmptyString => EmptyString
  | String c rest =>
      if is_lower c then
        String (if previous_is_cased then c else upper_ascii c)
               (title_from true rest)
      else if is_upper c then
        String (if previous_is_cased then Py.lower_ascii c else c)
               (title_from true rest)
      else String c (title_from false rest)
  end.

Definition title (s : string) : string := title_from false s.

(** [s.replace(old, new, count)] for a non-empty [old], scanning from
    the left; [count] is [None] when the argument is not given, and
    [skip] counts the characters of a match still to be dropped. *)
Fixpoint replace_from (old new : string) (count : option nat) (skip : nat)
         (s : string) : string :=
  match s with
  | EmptyString => EmptyString
  | String c rest =>
      match skip with
      | S k => replace_from old new count k rest
      | O =>
          let allowed :=
            match count with
            | Some O => false
            | _ => true
            end in
          if (allowed && String.prefix old s)%bool then
            new ++ replace_from old new (option_map Nat.pred count)
                                (String.length old - 1) rest
          else String c (replace_from old new count 0 rest)
      end
  end.

(** With an empty [old], [new] goes before every character and at the
    end, as many times as [count] allows. *)
Fixpoint replace_empty (new : string) (count : option nat) (s : string)
  : string :=
  match count with
  | Some O => s
  | _ =>
      match s with
      | EmptyString => new
      | String c rest =>
          new ++ String c (replace_empty new (option_map Nat.pred count) rest)
      end
  end.

Definition replace (old new : string) (count : option nat) (s : string)
  : string :=
  match old with
  | EmptyString => replace_empty new count s
  | _ => replace_from old new count 0 s
  end.

(** [s.split(sep, 1)] for a one-character [sep]: the text before the
    first separator and the text after it, [None] when there is no
    separator (the list then has one element). *)
Fixpoint split_once (sep : ascii) (s : string) : option (string * string) :=
  match s with
  | EmptyString => None
  | String c rest =>
      if Ascii.eqb c sep then Some (EmptyString, rest)
      else match split_once sep rest with
           | Some (before, after) => Some (String c before, after)
           | None => None
           end
  end.

End PyText.

(* ================================================================== *)
(** * student_api/app.py: the build endpoint *)
(* ================================================================== *)

Module Build.
Import Evaluate.

(** [AppGenerator._generate_fallback_app]: the page served when no chat
    model is configured or the call to it fails. *)
Definition _generate_fallback_app (brief : string) : string :=
  PyText.lines
    [ "<!DOCTYPE html>";
      ("<html lang=" ++ PyText.dq ++ "en" ++ PyText.dq ++ ">")%string;
      "<head>";
      ("    <meta charset=" ++ PyText.dq ++ "UTF-8" ++ PyText.dq ++ ">")%string;
      ("    <meta name=" ++ PyText.dq ++ "viewport" ++ PyText.dq ++ " content=" ++ PyText.dq ++ "width=device-width, initial-scale=1.0" ++ PyText.dq ++ ">")%string;
      "    <title>Generated App</title>";
      "    <style>";
      "        body {";
      "            font-family: Arial, sans-serif;";
      "            max-width: 800px;";
      "            margin: 0 auto;";
      "            padding: 20px;";
      "            background-color: #f5f5f5;";
      "        }";
      "        .container {";
      "            background: white;";
      "            padding: 30px;";
      "            border-radius: 10px;";
      "            box-shadow: 0 2px 10px rgba(0,0,0,0.1);";
      "        }";
      "        h1 {";
      "            color: #333;";
      "            text-align: center;";
      "        }";
      "        .brief {";
      "            background: #e9f7ef;";
      "            padding: 15px;";
      "            border-left: 4px solid #27ae60;";
      "            margin: 20px 0;";
      "        }";
      "        .status {";
      "            padding: 10px;";
      "            background: #d4edda;";
      "            border: 1px solid #c3e6cb;";
      "            border-radius: 5px;";
      "            margin: 10px 0;";
      "        }";
      "    </style>";
      "</head>";
      "<body>";
      ("    <div class=" ++ PyText.dq ++ "container" ++ PyText.dq ++ ">")%string;
      "        <h1>Auto-Generated Application</h1>";
      ("        <div class=" ++ PyText.dq ++ "brief" ++ PyText.dq ++ ">")%string;
      "            <h3>Project Brief:</h3>";
      ("            <p>" ++ brief ++ "</p>")%string;
      "        </div>";
      ("        <div class=" ++ PyText.dq ++ "status" ++ PyText.dq ++ ">")%string;
      "            <strong>Status:</strong> Application generated successfully!";
      "        </div>";
      ("        <div id=" ++ PyText.dq ++ "app-content" ++ PyText.dq ++ ">")%string;
      "            <h3>Application Features:</h3>";
      "            <ul>";
      "                <li>Responsive design</li>";
      "                <li>Professional layout</li>";
      "                <li>Based on provided brief</li>";
      "                <li>Ready for deployment</li>";
      "            </ul>";
      "        </div>";
      "    </div>";
      "    <script>";
      "        console.log('App loaded successfully');";
      "        // Add your application logic here";
      "    </script>";
      "</body>";
      "</html>" ].

(** [generate_mit_license]; [year] is [datetime.now().year]. *)
Definition generate_mit_license (year : Z) : string :=
  PyText.lines
    [ "MIT License";
      "";
      ("Copyright (c) " ++ Py.str year ++ " Student")%string;
      "";
      "Permission is hereby granted, free of charge, to any person obtaining a copy";
      ("of this software and associated documentation files (the " ++ PyText.dq ++ "Software" ++ PyText.dq ++ "), to deal")%string;
      "in the Software without restriction, including without limitation the rights";
      "to use, copy, modify, merge, publish, distribute, sublicense, and/or sell";
      "copies of the Software, and to permit persons to whom the Software is";
      "furnished to do so, subject to the following conditions:";
      "";
      "The above copyright notice and this permission notice shall be included in all";
      "copies or substantial portions of the Software.";
      "";
      ("THE SOFTWARE IS PROVIDED " ++ PyText.dq ++ "AS IS" ++ PyText.dq ++ ", WITHOUT WARRANTY OF ANY KIND, EXPRESS OR")%string;
      "IMPLIED, INCLUDING BUT NOT LIMITED TO THE WARRANTIES OF MERCHANTABILITY,";
      "FITNESS FOR A PARTICULAR PURPOSE AND NONINFRINGEMENT. IN NO EVENT SHALL THE";
      "AUTHORS OR COPYRIGHT HOLDERS BE LIABLE FOR ANY CLAIM, DAMAGES OR OTHER";
      "LIABILITY, WHETHER IN AN ACTION OF CONTRACT, TORT OR OTHERWISE, ARISING FROM,";
      "OUT OF OR IN CONNECTION WITH THE SOFTWARE OR THE USE OR OTHER DEALINGS IN THE";
      "SOFTWARE.";
      "" ].

(** [generate_readme] *)
Definition generate_readme (task brief repo_url : string) : string :=
  PyText.lines
    [ ("# " ++ PyText.title (PyText.replace "-" " " None task))%string;
      "";
      "## Summary";
      "";
      "This application was automatically generated based on the following brief:";
      "";
      ("> " ++ brief)%string;
      "";
      "## Setup";
      "";
      "1. Clone the repository:";
      "   ```bash";
      ("   git clone " ++ repo_url)%string;
      ("   cd " ++ Py.basename repo_url)%string;
      "   ```";
      "";
      "2. Open `index.html` in your web browser or serve it using a simple HTTP server:";
      "   ```bash";
      "   python -m http.server 8000";
      "   ```";
      "";
      "## Usage";
      "";
      "Open the application in your web browser. The application is designed to be intuitive and user-friendly.";
      "";
      "## Code Explanation";
      "";
      "This application consists of:";
      "";
      "- **HTML Structure**: Semantic HTML5 markup for accessibility and SEO";
      "- **CSS Styling**: Responsive design that works on all devices";
      "- **JavaScript Logic**: Interactive functionality as specified in the brief";
      "";
      "### Key Features";
      "";
      "- Responsive design";
      "- Professional styling";
      "- Error handling";
      "- Cross-browser compatibility";
      "";
      "## License";
      "";
      "This project is licensed under the MIT License - see the [LICENSE](LICENSE) file for details.";
      "";
      "## Deployment";
      "";
      "This application is automatically deployed to GitHub Pages and accessible at:";
      PyText.replace "/" "/" (Some 1%nat) (PyText.replace "github.com" "github.io" None repo_url);
      "";
      "---";
      "";
      "*This application was generated automatically as part of the IITM application development project.*";
      "" ].

(** An entry of the request's [attachments] list; a field is [None]
    when the dictionary has no such key. *)
Record attachment := mk_attachment {
  a_name : option string;
  a_url  : option string
}.

(** The body of [POST /api/build] when it is a JSON object.  A field is
    [None] when the key is missing; the values are read at the types of
    the wire protocol, the secret also as JSON [null] (the inner
    [None]).  [q_other] says whether the object has further keys. *)
Record request := mk_request {
  q_email          : option string;
  q_secret         : option (option string);
  q_task           : option string;
  q_round          : option Z;
  q_nonce          : option string;
  q_brief          : option string;
  q_evaluation_url : option string;
  q_attachments    : option (list attachment);
  q_other          : bool
}.

(** The process environment. *)
Record config := mk_config {
  GITHUB_TOKEN   : option string;
  OPENAI_API_KEY : option string;
  STUDENT_SECRET : option string
}.

(** A repository as PyGithub returns it. *)
Record repository := mk_repository {
  html_url  : string;
  full_name : string
}.

(** The answers of GitHub, the chat model, the libraries and the clock. *)
Record world := mk_world {
  manager     : exc unit;                     (* GitHubManager(GITHUB_TOKEN) *)
  create_repo : string -> string -> exc repository;
  create_file : string -> string -> exc unit; (* repo.create_file(path, content) *)
  pages       : exc Z;                        (* the status of the Pages request *)
  get_commits : exc (list string);            (* the shas of repo.get_commits() *)
  login       : exc string;                   (* github_client.get_user().login *)
  chat        : string -> exc string;         (* ChatCompletion for a brief *)
  md5         : string -> string;             (* hexdigest()[:8] of the email *)
  b64decode   : string -> exc string;         (* b64decode(...).decode('utf-8',
                                                 errors='ignore') *)
  year        : Z;                            (* datetime.now().year *)
  post        : Z -> option Z                 (* the evaluator's answers *)
}.

(** The calls that change something outside the process, successful or
    not, in the order they are made. *)
Inductive event :=
| CreateRepo (name description : string)
| CreateFile (path content : string)
| EnablePages (repo : string)
| Notifier (e : StudentApi.event).

Inductive body :=
| Error (message : string)
| Built (repo_url pages_url commit_sha : string)
        (pages_enabled evaluation_notified : bool).

Definition response := (body * Z)%type.

Section Endpoint.
Variable env : config.
Variable w : world.

(** [github_client = Github(GITHUB_TOKEN) if GITHUB_TOKEN else None] *)
Definition github_client : bool := Py.truthy_opt Py.truthy_str (GITHUB_TOKEN env).

(** [verify_secret]: [provided_secret == STUDENT_SECRET], where either
    side may be [None]. *)
Definition verify_secret (provided_secret : option string) : bool :=
  match provided_secret, STUDENT_SECRET env with
  | Some provided, Some secret => String.eqb provided secret
  | None, None => true
  | _, _ => false
  end.

(** [AppGenerator.generate_app]: the answer of the chat model when a key
    is configured and the call works, the fallback page otherwise. *)
Definition generate_app (brief : string) : string :=
  if Py.truthy_opt Py.truthy_str (OPENAI_API_KEY env) then
    match chat w brief with
    | Ok content => content
    | Raised _ => _generate_fallback_app brief
    end
  else _generate_fallback_app brief.

(** [GitHubManager.enable_pages]: 201, or 409 when already enabled. *)
Definition enable_pages : bool :=
  match pages w with
  | Ok status_code => (Z.eqb status_code 201 || Z.eqb status_code 409)%bool
  | Raised _ => false
  end.

(** [files[key] = value] on the dictionary of files, kept in insertion
    order. *)
Fixpoint assign (key value : string) (files : list (string * string))
  : list (string * string) :=
  match files with
  | [] => [(key, value)]
  | (k, v) :: rest =>
      if String.eqb k key then (k, value) :: rest
      else (k, v) :: assign key value rest
  end.

(** The loop over [data['attachments']]: data URIs are decoded into
    files; an URI without a comma, undecodable data or an attachment
    without a name raise. *)
Fixpoint add_attachments (attachments : list attachment)
         (files : list (string * string)) : exc (list (string * string)) :=
  match attachments with
  | [] => Ok files
  | attachment :: rest =>
      match a_url attachment with
      | Some url =>
          if (Py.truthy_str url && String.prefix "data:" url)%bool then
            match PyText.split_once "," url with
            | None => Raised "not enough values to unpack (expected 2, got 1)"
            | Some (header, encoded) =>
                match b64decode w encoded with
                | Raised e => Raised e
                | Ok file_data =>
                    match a_name attachment with
                    | None => Raised "'name'"
                    | Some name =>
                        add_attachments rest (assign name file_data files)
                    end
                end
            end
          else add_attachments rest files
      | None => add_attachments rest files
      end
  end.

(** [GitHubManager.upload_files]: one [create_file] per entry, up to
    the first that raises. *)
Fixpoint upload_files (files : list (string * string))
  : exc unit * list event :=
  match files with
  | [] => (Ok tt, [])
  | (file_path, content) :: rest =>
      match create_file w file_path content with
      | Raised e => (Raised e, [CreateFile file_path content])
      | Ok _ =>
          let (outcome, done) := upload_files rest in
          (outcome, CreateFile file_path content :: done)
      end
  end.

(** [not data] *)
Definition empty (d : request) : bool :=
  match q_email d, q_secret d, q_task d, q_round d, q_nonce d, q_brief d,
        q_evaluation_url d, q_attachments d with
  | None, None, None, None, None, None, None, None => negb (q_other d)
  | _, _, _, _, _, _, _, _ => false
  end.

(** The loop over [required_fields]: the first missing key, if any. *)
Definition first_missing (d : request) : option string :=
  match q_email d with None => Some "email" | Some _ =>
  match q_secret d with None => Some "secret" | Some _ =>
  match q_task d with None => Some "task" | Some _ =>
  match q_round d with None => Some "round" | Some _ =>
  match q_nonce d with None => Some "nonce" | Some _ =>
  match q_brief d with None => Some "brief" | Some _ =>
  match q_evaluation_url d with None => Some "evaluation_url" | Some _ =>
  None end end end end end end end.

(** [f'Internal server error: {str(e)}', 500] *)
Definition internal (e : string) : response :=
  (Error ("Internal server error: " ++ e), 500).

(** The part of [build_application] after the checks of the request. *)
Definition build (email task : string) (round : Z)
           (nonce brief evaluation_url : string)
           (attachments : option (list attachment))
  : response * list event :=
  let repo_name := task ++ "-" ++ md5 w email in
  match manager w with
  | Raised e => (internal e, [])
  | Ok _ =>
      let app_code := generate_app brief in
      let created := [CreateRepo repo_name ("Auto-generated app: " ++ task)] in
      match create_repo w repo_name ("Auto-generated app: " ++ task) with
      | Raised e => (internal e, created)
      | Ok repo =>
          let files :=
            [ ("index.html", app_code);
              ("LICENSE", generate_mit_license (year w));
              ("README.md", generate_readme task brief (html_url repo)) ] in
          let with_attachments :=
            match attachments with
            | Some (a :: l) => add_attachments (a :: l) files
            | _ => Ok files
            end in
          match with_attachments with
          | Raised e => (internal e, created)
          | Ok files =>
              let (uploaded, uploads) := upload_files files in
              match uploaded with
              | Raised e => (internal e, (created ++ uploads)%list)
              | Ok _ =>
                  let pages_enabled := enable_pages in
                  let done :=
                    (created ++ uploads ++ [EnablePages (full_name repo)])%list
                  in
                  match get_commits w with
                  | Raised e => (internal e, done)
                  | Ok commits =>
                      let commit_sha :=
                        match commits with
                        | sha :: _ => sha
                        | [] => "unknown"
                        end in
                      match login w with
                      | Raised e => (internal e, done)
                      | Ok user =>
                          let pages_url :=
                            "https://" ++ user ++ ".github.io/" ++ repo_name
                            ++ "/" in
                          let notification_data :=
                            {| StudentApi.email := email;
                               StudentApi.task := task;
                               StudentApi.round := round;
                               StudentApi.nonce := nonce;
                               StudentApi.repo_url := html_url repo;
                               StudentApi.commit_sha := commit_sha;
                               StudentApi.pages_url := pages_url;
                               StudentApi.evaluation_url :=
                                 Some evaluation_url |} in
                          let (notification_success, sent) :=
                            StudentApi.notify_evaluation_api
                              (post w) notification_data
                              StudentApi.default_max_retries in
                          ((Built (html_url repo) pages_url commit_sha
                                  pages_enabled notification_success, 200),
                           (done ++ map Notifier sent)%list)
                      end
                  end
              end
          end
      end
  end.

(** [build_application]: the answer and what was done on the way.
    [data] is what [get_json()] returned: an object, or [None] for a
    body that is [null]. *)
Definition build_application (data : option request)
  : response * list event :=
  match data with
  | None => ((Error "No JSON data provided", 400), [])
  | Some d =>
      if empty d then ((Error "No JSON data provided", 400), [])
      else
        match first_missing d with
        | Some field => ((Error ("Missing required field: " ++ field), 400), [])
        | None =>
            match q_email d, q_secret d, q_task d, q_round d, q_nonce d,
                  q_brief d, q_evaluation_url d with
            | Some email, Some secret, Some task, Some round, Some nonce,
              Some brief, Some evaluation_url =>
                if negb (verify_secret secret)
                then ((Error "Invalid secret", 401), [])
                else if negb github_client
                then ((Error "GitHub integration not configured", 500), [])
                else build email task round nonce brief evaluation_url
                           (q_attachments d)
            | _, _, _, _, _, _, _ =>
                (* not reached: [first_missing] found every key *)
                ((Error "Missing required field: ", 400), [])
            end
        end
  end.

End Endpoint.

End Build.

(* ================================================================== *)
(** * The JSON bodies on the wire *)
(* ================================================================== *)

Module Wire.

(** The task delivery posted by an issuer script, as the build endpoint
    reads it: [requests.post(json=task_data)] then [get_json()]. *)
Definition build_request (p : World.payload) : Build.request :=
  {| Build.q_email := Some (World.p_email p);
     Build.q_secret := Some (Some (World.p_secret p));
     Build.q_task := Some (World.p_task p);
     Build.q_round := Some (World.p_round p);
     Build.q_nonce := Some (World.p_nonce p);
     Build.q_brief := Some (World.p_brief p);
     Build.q_evaluation_url := Some (World.p_evaluation_url p);
     Build.q_attachments :=
       Some (map (fun a => {| Build.a_name := Some (Database.att_name a);
                              Build.a_url := Some (Database.att_url a) |})
                 (World.p_attachments p));
     Build.q_other := true |}.

(** The notification posted by the notifier, as the gate reads it. *)
Definition notification (b : StudentApi.payload) : EvaluationApi.notification :=
  {| EvaluationApi.n_email := EvaluationApi.Val (StudentApi.p_email b);
     EvaluationApi.n_task := EvaluationApi.Val (StudentApi.p_task b);
     EvaluationApi.n_round := EvaluationApi.Val (StudentApi.p_round b);
     EvaluationApi.n_nonce := EvaluationApi.Val (StudentApi.p_nonce b);
     EvaluationApi.n_repo_url := EvaluationApi.Val (StudentApi.p_repo_url b);
     EvaluationApi.n_commit_sha :=
       EvaluationApi.Val (StudentApi.p_commit_sha b);
     EvaluationApi.n_pages_url := EvaluationApi.Val (StudentApi.p_pages_url b);
     EvaluationApi.n_other := false |}.

End Wire.

(* ================================================================== *)
(** * security.py: the sanitizer and the rate limiter *)
(* ================================================================== *)

Module Security.

(** ** SecurityValidator.sanitize_string *)

(** [ord(char) >= 32 or char in '\n\r\t'] *)
Definition printable (char : ascii) : bool :=
  let n := nat_of_ascii char in
  (Nat.leb 32 n || Nat.eqb n 10 || Nat.eqb n 13 || Nat.eqb n 9)%bool.

(** [''.join(char for char in text if keep(char))] *)
Fixpoint join_if (keep : ascii -> bool) (text : string) : string :=
  match text with
  | EmptyString => EmptyString
  | String char rest =>
      if keep char then String char (join_if keep rest)
      else join_if keep rest
  end.

(** [text[:n]], also for a negative [n], which counts from the end. *)
Definition slice_to (n : Z) (text : string) : string :=
  Py.take (Z.to_nat (if Z.ltb n 0 then Py.len text + n else n)) text.

(** [sanitize_string(text, max_length)]; [text] is [None] for a value
    that is not a [str]. *)
Definition sanitize_string (text : option string) (max_length : Z) : string :=
  match text with
  | None => ""
  | Some text =>
      let text := join_if printable text in
      let text :=
        if Z.ltb max_length (Py.len text) then slice_to max_length text
        else text in
      Py.strip text
  end.

Definition default_max_length : Z := 1000.

(** ** RateLimiter *)

(** [self.requests]: the timestamps kept for an email; an email that is
    not a key has none, and the first thing [is_allowed] does with such
    an email is to give it the empty list. *)
Definition requests := string -> list float.

(** [__init__] *)
Definition init : requests := fun _ => [].

Definition max_requests_per_hour : nat := 10.
Definition max_requests_per_minute : nat := 2.

(** [is_allowed(email)] at [time.time() = current_time]: the pair it
    returns and the limiter afterwards. *)
Definition is_allowed (current_time : float) (email : string)
           (self : requests) : (bool * string) * requests :=
  let last_hour :=
    filter (fun req_time =>
              PrimFloat.ltb (PrimFloat.sub current_time req_time) 3600%float)
           (self email) in
  let recent_requests :=
    filter (fun req_time =>
              PrimFloat.ltb (PrimFloat.sub current_time req_time) 60%float)
           last_hour in
  let cleaned : requests :=
    fun e => if String.eqb e email then last_hour else self e in
  if Nat.leb max_requests_per_minute (List.length recent_requests)
  then ((false, "Too many requests per minute"), cleaned)
  else if Nat.leb max_requests_per_hour (List.length last_hour)
  then ((false, "Too many requests per hour"), cleaned)
  else ((true, "Request allowed"),
        fun e => if String.eqb e email
                 then (last_hour ++ [current_time])%list
                 else self e).

(** A series of requests, each with the time it arrives at: the
    answers, and the limiter afterwards. *)
Fixpoint serve (calls : list (float * string)) (self : requests)
  : list (bool * string) * requests :=
  match calls with
  | [] => ([], self)
  | (current_time, email) :: rest =>
      let (answer, self) := is_allowed current_time email self in
      let (answers, self) := serve rest self in
      (answer :: answers, self)
  end.

End Security.

(* ================================================================== *)
(** * More vocabulary for properties *)
(* ================================================================== *)

Module More.
Import Database.

(** The number of Submission rows that carry a given unique key. *)
Definition repo_count (e t : string) (r : Z) (d : database) : nat :=
  List.length (filter (repo_has_key e t r) (repos d)).

(** At most one Submission row per (email, task, round). *)
Definition repos_unique (d : database) : Prop :=
  forall e t r, (repo_count e t r d <= 1)%nat.

(** A result dictionary whose score SQLite can store. *)
Definition storable (ed : result_data) : bool :=
  match ed_score ed with
  | Some f => negb (PrimFloat.is_nan f)
  | None => false
  end.

(** A CSV line with all three columns. *)
Definition complete (row : Round1.csv_row) : bool :=
  match Round1.c_email row, Round1.c_endpoint row, Round1.c_secret row with
  | Some _, Some _, Some _ => true
  | _, _, _ => false
  end.

(** The pauses recorded in a trace of an issuer script. *)
Definition pauses (tr : list World.event) : list Z :=
  flat_map (fun e => match e with
                     | World.Sleep seconds => [seconds]
                     | _ => []
                     end) tr.

(** The sum of a list of durations. *)
Definition total (l : list Z) : Z := fold_right Z.add 0 l.

(** At most one form entry per email. *)
Definition forms_unique (t : Forms.table) : Prop :=
  forall email,
    (List.length (filter (fun row => String.eqb (Forms.s_email row) email)
                         (Forms.submissions t)) <= 1)%nat.

(** The requests of a trace that were answered 200. *)
Definition answered_200 (tr : list World.event) : nat :=
  List.length
    (filter (fun e => match e with
                      | World.Post _ _ answer => Round2.is_200 answer
                      | _ => false
                      end) tr).

(** An attachment the build endpoint cannot take in: a data URI without
    a comma, with data that does not decode, or without a name. *)
Definition malformed (w : Build.world) (a : Build.attachment) : bool :=
  match Build.a_url a with
  | Some url =>
      (Py.truthy_str url && String.prefix "data:" url
       && match PyText.split_once "," url with
          | None => true
          | Some (_, encoded) =>
              match Build.b64decode w encoded with
              | Evaluate.Raised _ => true
              | Evaluate.Ok _ =>
                  match Build.a_name a with
                  | None => true
                  | Some _ => false
                  end
              end
          end)%bool
  | None => false
  end.

(** The status code of an answer of the build endpoint. *)
Definition status (out : Build.response * list Build.event) : Z :=
  snd (fst out).

(** The same world with another answer to the Pages request and other
    answers of the evaluator. *)
Definition with_outcomes (w : Build.world) (pages_answer : Evaluate.exc Z)
           (evaluator : Z -> option Z) : Build.world :=
  {| Build.manager := Build.manager w;
     Build.create_repo := Build.create_repo w;
     Build.create_file := Build.create_file w;
     Build.pages := pages_answer;
     Build.get_commits := Build.get_commits w;
     Build.login := Build.login w;
     Build.chat := Build.chat w;
     Build.md5 := Build.md5 w;
     Build.b64decode := Build.b64decode w;
     Build.year := Build.year w;
     Build.post := evaluator |}.


End More.

(* ================================================================== *)
(** * More of the example scenario *)
(* ================================================================== *)

Module Fixtures.
Import Database.

(** The Task row of the example scenario. *)
Definition issued_row : task_row :=
  {| t_id := 1; t_timestamp := "2025-10-01T10:00:00";
     t_email := "a@x.edu"; t_task := "todo-manager-abc12"; t_round := mk_int64 1 eq_refl;
     t_nonce := "N1"; t_brief := "Create a todo manager";
     t_attachments := Some []; t_checks := Some ["Repo has MIT license"];
     t_evaluation_url := "http://eval/api/notify";
     t_endpoint := "http://student/api/build";
     t_statuscode := Some 200; t_secret := "s3cret" |}.

(** The first integer SQLite cannot hold, and the example task issued
    for that round. *)
Definition wide : Z := 9223372036854775808.

Definition wide_task : task_data :=
  {| td_email := Some "a@x.edu";
     td_secret := Some "s3cret";
     td_task := Some "todo-manager-abc12";
     td_round := Some wide;
     td_nonce := Some "N1";
     td_brief := Some "Create a todo manager";
     td_checks := ["Repo has MIT license"];
     td_evaluation_url := Some "http://eval/api/notify";
     td_attachments := [];
     td_endpoint := Some "http://student/api/build";
     td_statuscode := Some 200 |}.

(** A result for that round. *)
Definition wide_result : result_data :=
  {| ed_email := Some "a@x.edu"; ed_task := Some "todo-manager-abc12";
     ed_round := Some wide;
     ed_repo_url := Some "https://github.com/a/todo";
     ed_commit_sha := Some "0a1b2c3";
     ed_pages_url := Some "https://a.github.io/todo/";
     ed_check_name := Some "MIT License"; ed_score := Some 1%float;
     ed_reason := Some "MIT license found"; ed_logs := Some "" |}.

(** Three bodies the gate refuses: an object without keys, the honest
    notification without its nonce, and the honest notification for a
    round SQLite cannot hold. *)
Definition keyless : EvaluationApi.notification :=
  {| EvaluationApi.n_email := EvaluationApi.Absent;
     EvaluationApi.n_task := EvaluationApi.Absent;
     EvaluationApi.n_round := EvaluationApi.Absent;
     EvaluationApi.n_nonce := EvaluationApi.Absent;
     EvaluationApi.n_repo_url := EvaluationApi.Absent;
     EvaluationApi.n_commit_sha := EvaluationApi.Absent;
     EvaluationApi.n_pages_url := EvaluationApi.Absent;
     EvaluationApi.n_other := false |}.

Definition no_nonce : EvaluationApi.notification :=
  {| EvaluationApi.n_email := EvaluationApi.Val "a@x.edu";
     EvaluationApi.n_task := EvaluationApi.Val "todo-manager-abc12";
     EvaluationApi.n_round := EvaluationApi.Val 1;
     EvaluationApi.n_nonce := EvaluationApi.Absent;
     EvaluationApi.n_repo_url := EvaluationApi.Val "https://github.com/a/todo";
     EvaluationApi.n_commit_sha := EvaluationApi.Val "0a1b2c3";
     EvaluationApi.n_pages_url := EvaluationApi.Val "https://a.github.io/todo/";
     EvaluationApi.n_other := false |}.

Definition wide_round : EvaluationApi.notification :=
  {| EvaluationApi.n_email := EvaluationApi.Val "a@x.edu";
     EvaluationApi.n_task := EvaluationApi.Val "todo-manager-abc12";
     EvaluationApi.n_round := EvaluationApi.Val wide;
     EvaluationApi.n_nonce := EvaluationApi.Val "N1";
     EvaluationApi.n_repo_url := EvaluationApi.Val "https://github.com/a/todo";
     EvaluationApi.n_commit_sha := EvaluationApi.Val "0a1b2c3";
     EvaluationApi.n_pages_url := EvaluationApi.Val "https://a.github.io/todo/";
     EvaluationApi.n_other := false |}.

(** The store after the student has notified the gate. *)
Definition submitted_store : database :=
  snd (EvaluationApi.receive_notification "2025-10-02T09:00:00"
         (Some Sample.honest) Sample.store).

(** A second notification of the same student for the same task, from
    another repository. *)
Definition second_notification : EvaluationApi.notification :=
  {| EvaluationApi.n_email := EvaluationApi.Val "a@x.edu";
     EvaluationApi.n_task := EvaluationApi.Val "todo-manager-abc12";
     EvaluationApi.n_round := EvaluationApi.Val 1;
     EvaluationApi.n_nonce := EvaluationApi.Val "N1";
     EvaluationApi.n_repo_url := EvaluationApi.Val "https://github.com/a/todo2";
     EvaluationApi.n_commit_sha := EvaluationApi.Val "4d5e6f7";
     EvaluationApi.n_pages_url := EvaluationApi.Val "https://a.github.io/todo2/";
     EvaluationApi.n_other := false |}.

Definition resubmission : repo_data :=
  {| rd_email := Some "a@x.edu"; rd_task := Some "todo-manager-abc12";
     rd_round := Some 1; rd_nonce := Some "N1";
     rd_repo_url := Some "https://github.com/a/todo2";
     rd_commit_sha := Some "4d5e6f7";
     rd_pages_url := Some "https://a.github.io/todo2/" |}.

Definition resubmission_row : repo_row :=
  {| r_id := 2; r_timestamp := "2025-10-02T10:00:00";
     r_email := "a@x.edu"; r_task := "todo-manager-abc12"; r_round := mk_int64 1 eq_refl;
     r_nonce := "N1"; r_repo_url := "https://github.com/a/todo2";
     r_commit_sha := "4d5e6f7";
     r_pages_url := "https://a.github.io/todo2/" |}.

(** The line of the submissions CSV, and a line without a secret. *)
Definition line : Round1.csv_row :=
  {| Round1.c_email := Some "a@x.edu";
     Round1.c_endpoint := Some "http://student/api/build";
     Round1.c_secret := Some "s3cret" |}.

Definition no_secret : Round1.csv_row :=
  {| Round1.c_email := Some "b@x.edu";
     Round1.c_endpoint := Some "http://other/api/build";
     Round1.c_secret := None |}.

(** The form entry of the student. *)
Definition form_entry : Forms.submission_data :=
  {| Forms.sd_email := Some "a@x.edu";
     Forms.sd_endpoint := Some "http://student/api/build";
     Forms.sd_secret := Some "s3cret";
     Forms.sd_repo_url := None |}.

(** The environment of the student API, and the same without a secret. *)
Definition student : Build.config :=
  {| Build.GITHUB_TOKEN := Some "ghp_token";
     Build.OPENAI_API_KEY := None;
     Build.STUDENT_SECRET := Some "s3cret" |}.

Definition unprotected : Build.config :=
  {| Build.GITHUB_TOKEN := Some "ghp_token";
     Build.OPENAI_API_KEY := None;
     Build.STUDENT_SECRET := None |}.

(** A GitHub account where every call works, and an evaluator that
    answers 200. *)
Definition github : Build.world :=
  {| Build.manager := Evaluate.Ok tt;
     Build.create_repo :=
       fun name _ =>
         Evaluate.Ok {| Build.html_url := "https://github.com/a/" ++ name;
                        Build.full_name := "a/" ++ name |};
     Build.create_file := fun _ _ => Evaluate.Ok tt;
     Build.pages := Evaluate.Ok 201;
     Build.get_commits := Evaluate.Ok ["0a1b2c3"];
     Build.login := Evaluate.Ok "a";
     Build.chat := fun _ => Evaluate.Raised "no chat model";
     Build.md5 := fun _ => "1f2e3d4c";
     Build.b64decode := fun encoded => Evaluate.Ok encoded;
     Build.year := 2025;
     Build.post := Sample.up |}.

(** The task delivery of the example sweep as a build request, the
    same with [null] for the secret, and the same with a data URI that
    has no comma. *)
Definition request : Build.request := Wire.build_request Sample.second_issue.

Definition null_secret : Build.request :=
  {| Build.q_email := Some "a@x.edu";
     Build.q_secret := Some None;
     Build.q_task := Some "todo-manager-abc12";
     Build.q_round := Some 1;
     Build.q_nonce := Some "N2";
     Build.q_brief := Some "Create a todo manager";
     Build.q_evaluation_url := Some "http://eval/api/notify";
     Build.q_attachments := Some [];
     Build.q_other := true |}.

Definition broken_attachment : Build.request :=
  {| Build.q_email := Some "a@x.edu";
     Build.q_secret := Some (Some "s3cret");
     Build.q_task := Some "todo-manager-abc12";
     Build.q_round := Some 1;
     Build.q_nonce := Some "N2";
     Build.q_brief := Some "Create a todo manager";
     Build.q_evaluation_url := Some "http://eval/api/notify";
     Build.q_attachments :=
       Some [ {| Build.a_name := Some "sample.png";
                 Build.a_url := Some "data:image/png;base64" |} ];
     Build.q_other := true |}.

(** The working tree of a repository the build endpoint has filled. *)
Definition generated_tree : Evaluate.tree :=
  [ ("index.html",
     Evaluate.Ok (Build._generate_fallback_app "Create a todo manager"));
    ("LICENSE", Evaluate.Ok (Build.generate_mit_license 2025));
    ("README.md",
     Evaluate.Ok (Build.generate_readme "todo-manager-abc12"
                                        "Create a todo manager"
                                        "https://github.com/a/todo")) ].


(** The same account when the Pages request is refused and the
    evaluator cannot be reached. *)
Definition offline : Build.world :=
  More.with_outcomes github (Evaluate.Raised "404 Not Found") Sample.down.

(** A limiter that has seen three requests of one email: one long ago
    and two just now. *)
Definition history : Security.requests :=
  fun email =>
    if String.eqb email "a@x.edu" then [10%float; 4000%float; 4010%float]
    else [].

(** Three requests of one email at the same second. *)
Definition burst : list (float * string) :=
  [ (100%float, "a@x.edu"); (100%float, "a@x.edu"); (100%float, "a@x.edu") ].

(** A text with a bell, a DEL and blanks around it, and what is left of
    it. *)
Definition raw_text : string :=
  String " " (String "h" (String "i" (String (ascii_of_nat 7)
    (String (ascii_of_nat 127)
       (String " " (String "y" (String "o" (String "u" (String " "
          EmptyString))))))))).

Definition clean_text : string :=
  String "h" (String "i" (String (ascii_of_nat 127) EmptyString)).

End Fixtures.

(* ================================================================== *)
(** * Facts about the store *)
(* ================================================================== *)

Section DatabaseFacts.
Import Database Props.

(** Two stored integers with the same value are the same. *)
Lemma int64_eq (a b : int64) : to_Z a = to_Z b -> a = b.
Proof.
  destruct a as [x Hx], b as [y Hy]; simpl; intros ->.
  f_equal; apply Eqdep_dec.UIP_dec, Bool.bool_dec.
Qed.

Lemma bind_int_spec (z : Z) :
  match bind_int z with
  | Some i => to_Z i = z
  | None => fits z = false
  end.
Proof.
  unfold bind_int.
  assert (forall b (e : fits z = b),
             match (if b as b0 return (fits z = b0 -> option int64)
                    then fun H => Some (mk_int64 z H)
                    else fun _ => None) e with
             | Some i => to_Z i = z
             | None => fits z = false
             end) as H
      by (intros [|] e; simpl; [reflexivity|exact e]).
  apply H.
Qed.

Lemma bind_int_to_Z (i : int64) : bind_int (to_Z i) = Some i.
Proof.
  pose proof (bind_int_spec (to_Z i)) as H.
  destruct (bind_int (to_Z i)) as [j|].
  - f_equal; apply int64_eq, H.
  - rewrite (in_range i) in H; discriminate H.
Qed.

Lemma bind_int_fits (z : Z) :
  fits z = true -> exists i, bind_int z = Some i /\ to_Z i = z.
Proof.
  intros Hz; pose proof (bind_int_spec z) as H.
  destruct (bind_int z) as [i|]; [eauto|congruence].
Qed.

Lemma bind_int_overflow (z : Z) : fits z = false -> bind_int z = None.
Proof.
  intros Hz; pose proof (bind_int_spec z) as H.
  destruct (bind_int z) as [i|]; [|reflexivity].
  rewrite <- H, (in_range i) in Hz; discriminate Hz.
Qed.

Lemma key_eqb_true (e1 t1 : string) (r1 : Z) (e2 t2 : string) (r2 : Z) :
  key_eqb e1 t1 r1 e2 t2 r2 = true <-> e1 = e2 /\ t1 = t2 /\ r1 = r2.
Proof.
  unfold key_eqb.
  rewrite !andb_true_iff, !String.eqb_eq, Z.eqb_eq.
  tauto.
Qed.

Lemma key_eqb_refl (e t : string) (r : Z) : key_eqb e t r e t r = true.
Proof. apply key_eqb_true; auto. Qed.

(** A comparison with NULL never selects a row, whatever the other
    conjuncts of the condition are. *)
Lemma sql_where_null_conjunct (a c : option bool) :
  sql_where (sql_and (sql_and a None) c) = false.
Proof. destruct a as [[|]|], c as [[|]|]; reflexivity. Qed.

Lemma filter_none {A : Type} (f : A -> bool) (l : list A) :
  (forall x, f x = false) -> filter f l = [].
Proof.
  intros Hf; induction l as [|x l IH]; simpl; [reflexivity|].
  rewrite Hf; exact IH.
Qed.

Lemma task_exists_null_task (email : option string) (round_num : option Z)
      (d : database) :
  task_exists email None round_num d
  = if binds round_num then Returned false else OverflowError.
Proof.
  unfold task_exists.
  destruct (binds round_num); [simpl|reflexivity].
  rewrite filter_none; [reflexivity|].
  intros row; apply sql_where_null_conjunct.
Qed.

(** The question of the round-1 sweep. *)
Lemma task_exists_round1 (email : option string) (d : database) :
  task_exists email None (Some 1) d = Returned false.
Proof. rewrite task_exists_null_task; reflexivity. Qed.

(** The rows left by the delete half of a REPLACE do not hold its key. *)
Lemma count_after_delete (e t : string) (r : Z) (l : list task_row) :
  filter (task_has_key e t r)
         (filter (fun old => negb (task_has_key e t r old)) l) = [].
Proof.
  induction l as [|x l IH]; simpl; [reflexivity|].
  destruct (task_has_key e t r x) eqn:Hx; simpl; [exact IH|].
  rewrite Hx; exact IH.
Qed.

(** The tasks table after an [insert_task], in both outcomes. *)
Lemma insert_task_tasks (now : string) (td : task_data) (d : database) :
  match task_row_of now (seq_tasks d + 1) td with
  | Some row =>
      insert_task now td d
      = (true,
          {| tasks :=
               filter (fun old =>
                         negb (task_has_key (t_email row) (t_task row)
                                            (t_round row) old))
                      (tasks d) ++ [row];
             repos := repos d; results := results d;
             seq_tasks := seq_tasks d + 1; seq_repos := seq_repos d;
             seq_results := seq_results d |})
  | None => insert_task now td d = (false, d)
  end.
Proof.
  unfold insert_task.
  destruct (task_row_of now (seq_tasks d + 1) td); reflexivity.
Qed.

(** ... and the rows of every other key are all still there. *)
Lemma other_keys_after_delete (e t : string) (r : Z) (e' t' : string)
      (r' : Z) (l : list task_row) :
  key_eqb e t r e' t' r' = false ->
  filter (task_has_key e' t' r')
         (filter (fun old => negb (task_has_key e t r old)) l)
  = filter (task_has_key e' t' r') l.
Proof.
  intros Hk; induction l as [|x l IH]; simpl; [reflexivity|].
  destruct (task_has_key e t r x) eqn:Hx; simpl.
  - assert (task_has_key e' t' r' x = false) as ->; [|exact IH].
    unfold task_has_key in *.
    apply key_eqb_true in Hx; destruct Hx as (-> & -> & ->).
    exact Hk.
  - destruct (task_has_key e' t' r' x); simpl; rewrite IH; reflexivity.
Qed.

Lemma task_count_after_insert (now : string) (td : task_data) (d : database)
      (row : task_row) (e t : string) (r : Z) :
  task_row_of now (seq_tasks d + 1) td = Some row ->
  task_count e t r (snd (insert_task now td d))
  = if key_eqb (t_email row) (t_task row) (t_round row) e t r
    then 1%nat
    else task_count e t r d.
Proof.
  intros Hrow.
  pose proof (insert_task_tasks now td d) as H; rewrite Hrow in H.
  rewrite H; unfold task_count; simpl.
  rewrite filter_app, length_app; simpl.
  change (task_has_key e t r row)
    with (key_eqb (t_email row) (t_task row) (t_round row) e t r).
  destruct (key_eqb (t_email row) (t_task row) (t_round row) e t r) eqn:Hk.
  - apply key_eqb_true in Hk; destruct Hk as (-> & -> & ->).
    rewrite count_after_delete; reflexivity.
  - rewrite (other_keys_after_delete _ _ _ _ _ _ _ Hk); simpl; lia.
Qed.

Lemma insert_task_unique (now : string) (td : task_data) (d : database) :
  tasks_unique d -> tasks_unique (snd (insert_task now td d)).
Proof.
  intros Hd e t r.
  destruct (task_row_of now (seq_tasks d + 1) td) as [row|] eqn:Hrow.
  - rewrite (task_count_after_insert _ _ _ e t r Hrow).
    destruct (key_eqb _ _ _ e t r); [lia | apply Hd].
  - pose proof (insert_task_tasks now td d) as H; rewrite Hrow in H.
    rewrite H; apply Hd.
Qed.

End DatabaseFacts.

(* ================================================================== *)
(** * Facts about the issuer scripts as store transformers *)
(* ================================================================== *)

Section IoFacts.
Import Database World Props.
Local Open Scope io_scope.

Variable P : database -> Prop.

Lemma preserves_ret {A : Type} (a : A) : preserves P (ret a).
Proof. intros s Hs; exact Hs. Qed.

Lemma preserves_bind {A B : Type} (m : io A) (k : A -> io B) :
  preserves P m -> (forall a, preserves P (k a)) -> preserves P (bind m k).
Proof.
  intros Hm Hk s Hs; unfold bind.
  specialize (Hm s Hs).
  destruct (m s) as [a s']; simpl in Hm.
  apply Hk; exact Hm.
Qed.

Lemma preserves_tick : preserves P tick.
Proof. intros s Hs; exact Hs. Qed.

Lemma preserves_emit (e : event) : preserves P (emit e).
Proof. intros s Hs; exact Hs. Qed.

Lemma preserves_query {A : Type} (q : database -> A) : preserves P (query q).
Proof. intros s Hs; exact Hs. Qed.

Lemma preserves_update {A : Type} (u : database -> A * database) :
  (forall d, P d -> P (snd (u d))) -> preserves P (update u).
Proof.
  intros Hu s Hs; unfold update.
  specialize (Hu (db s) Hs).
  destruct (u (db s)) as [a d]; exact Hu.
Qed.

End IoFacts.

Create HintDb store discriminated.
#[local] Hint Resolve preserves_ret preserves_tick preserves_emit
  preserves_query : store.

(** Split a computation at its binds and close the read-only leaves. *)
Ltac preserve :=
  repeat first
    [ apply preserves_bind; [|intros ?]
    | solve [auto with store] ].

Section SweepFacts.
Import Database World Props.

Variable world : oracle.
Variable evaluation_url : string.

Lemma round1_generate_task_preserves (P : database -> Prop)
      (email endpoint secret : string) :
  preserves P (Round1.generate_task world evaluation_url email endpoint secret).
Proof.
  unfold Round1.generate_task.
  apply preserves_bind; [auto with store|intros n].
  destruct (Round1.select_template world email (strftime world n))
    as [[template_id round1_template]|]; preserve.
Qed.

Lemma send_task_preserves (P : database -> Prop) (endpoint : string)
      (task_data : payload) :
  preserves P (Round1.send_task world endpoint task_data).
Proof. unfold Round1.send_task; preserve. Qed.

Lemma log_task_unique (task_data : payload) (endpoint : string)
      (status_code : option Z) :
  preserves tasks_unique (Round1.log_task world task_data endpoint status_code).
Proof.
  unfold Round1.log_task.
  apply preserves_bind; [auto with store|intros n].
  apply preserves_update; intros d; apply insert_task_unique.
Qed.

Lemma process_rows_unique (rows : list Round1.csv_row) (c : Round1.counts) :
  preserves tasks_unique (Round1.process_rows world evaluation_url rows c).
Proof.
  revert c; induction rows as [|row rows IH]; intros c; simpl.
  - auto with store.
  - destruct (Round1.c_email row), (Round1.c_endpoint row),
      (Round1.c_secret row); auto with store.
    apply preserves_bind; [auto with store|intros seen].
    destruct seen as [[|]|]; [apply IH| |auto with store].
    apply preserves_bind; [apply round1_generate_task_preserves|].
    intros [task_data|]; [|apply IH].
    apply preserves_bind; [apply send_task_preserves|intros status_code].
    apply preserves_bind; [apply log_task_unique|intros success].
    apply preserves_bind; [unfold sleep; auto with store|intros _].
    apply IH.
Qed.

Lemma process_submissions_unique (file : option (list Round1.csv_row)) :
  preserves tasks_unique
            (Round1.process_submissions world evaluation_url file).
Proof.
  destruct file as [rows|]; simpl;
    [apply process_rows_unique | auto with store].
Qed.

Lemma round2_generate_task_preserves (P : database -> Prop)
      (repo : repo_row) (original_task : task_row) :
  preserves P (Round2.generate_round2_task world evaluation_url repo
                                           original_task).
Proof.
  unfold Round2.generate_round2_task.
  destruct (Round2.lookup _ _) as [templates|]; [|auto with store].
  apply preserves_bind; [auto with store|intros n].
  destruct (nth_error templates _); preserve.
Qed.

Lemma process_repos_unique (round1_repos : list repo_row)
      (c : Round1.counts) :
  preserves tasks_unique
            (Round2.process_repos world evaluation_url round1_repos c).
Proof.
  revert c; induction round1_repos as [|repo rest IH]; intros c; simpl.
  - auto with store.
  - apply preserves_bind; [auto with store|intros seen].
    destruct seen as [[|]|]; [apply IH| |auto with store].
    apply preserves_bind; [auto with store|intros round1_tasks].
    destruct round1_tasks as [round1_tasks|]; [|auto with store].
    destruct (find _ round1_tasks) as [original_task|]; [|apply IH].
    apply preserves_bind; [apply round2_generate_task_preserves|].
    intros [round2_task|]; [|apply IH].
    apply preserves_bind; [apply send_task_preserves|intros status_code].
    apply preserves_bind; [apply log_task_unique|intros success].
    apply preserves_bind; [unfold sleep; auto with store|intros _].
    apply IH.
Qed.

Lemma process_round1_completions_unique :
  preserves tasks_unique
            (Round2.process_round1_completions world evaluation_url).
Proof.
  unfold Round2.process_round1_completions.
  apply preserves_bind; [auto with store|intros round1_repos].
  destruct round1_repos as [[|repo rest]|]; [auto with store| |auto with store].
  apply preserves_bind; [apply process_repos_unique|auto with store].
Qed.

(** The retry sweep only reads the store: it keeps every property. *)
Lemma retry_tasks_preserves (P : database -> Prop)
      (failed_tasks : list task_row) (retry_count : Z) :
  preserves P (Round2.retry_tasks world failed_tasks retry_count).
Proof.
  revert retry_count; induction failed_tasks as [|task rest IH];
    intros retry_count; simpl.
  - auto with store.
  - apply preserves_bind; [apply send_task_preserves|intros status_code].
    apply preserves_bind; [unfold sleep; auto with store|intros _].
    apply IH.
Qed.

Lemma retry_failed_preserves (P : database -> Prop) (max_retries : Z) :
  preserves P (Round2.retry_failed_round2_tasks world max_retries).
Proof.
  unfold Round2.retry_failed_round2_tasks.
  apply preserves_bind; [auto with store|intros all_round2_tasks].
  destruct all_round2_tasks as [all_round2_tasks|]; [|auto with store].
  destruct (filter _ all_round2_tasks) as [|task rest]; [auto with store|].
  apply preserves_bind; [apply retry_tasks_preserves|auto with store].
Qed.

End SweepFacts.

(* ================================================================== *)
(** * The Task table: uniqueness and the dedup query *)
(* ================================================================== *)

Section TaskTable.
Import Database Props.

Lemma tasks_unique_ext (d d' : database) :
  tasks d' = tasks d -> tasks_unique d -> tasks_unique d'.
Proof.
  intros Heq Hd e t r; unfold task_count; rewrite Heq; apply Hd.
Qed.

Lemma insert_repo_tasks (now : string) (rd : repo_data) (d : database) :
  tasks (snd (insert_repo now rd d)) = tasks d.
Proof.
  unfold insert_repo; destruct (repo_row_of _ _ rd); reflexivity.
Qed.

Lemma receive_notification_tasks (now : string)
      (data : option EvaluationApi.notification) (d : database) :
  tasks (snd (EvaluationApi.receive_notification now data d)) = tasks d.
Proof.
  unfold EvaluationApi.receive_notification.
  destruct data as [n|]; [|reflexivity].
  destruct (EvaluationApi.empty n); [reflexivity|].
  destruct (EvaluationApi.first_missing n); [reflexivity|].
  destruct (get_tasks _ _ d) as [rows|]; [|reflexivity].
  destruct (EvaluationApi.matching_task _ _); [|reflexivity].
  match goal with
  | |- context [insert_repo ?a ?b ?c] =>
      pose proof (insert_repo_tasks a b c) as H;
      destruct (insert_repo a b c) as [[|] d']
  end; exact H.
Qed.

Lemma perform_unique (d : database) (o : operation) :
  tasks_unique d -> tasks_unique (perform d o).
Proof.
  intros Hd; destruct o as [now td|now data|w url file|w url|w n]; simpl.
  - apply insert_task_unique; exact Hd.
  - eapply tasks_unique_ext; [apply receive_notification_tasks|exact Hd].
  - apply (process_submissions_unique w url file (start d)); exact Hd.
  - apply (process_round1_completions_unique w url (start d)); exact Hd.
  - apply (retry_failed_preserves w tasks_unique n (start d)); exact Hd.
Qed.

Lemma perform_all_unique (ops : list operation) (d : database) :
  tasks_unique d -> tasks_unique (perform_all ops d).
Proof.
  revert d; induction ops as [|o ops IH]; intros d Hd; simpl;
    [exact Hd | apply IH, perform_unique, Hd].
Qed.

Lemma init_database_unique : tasks_unique init_database.
Proof. intros e t r; unfold task_count; simpl; lia. Qed.

(** C3: whatever sequence of issuer sweeps, notifications and task
    upserts has run on a fresh store, the store holds at most one Task
    row per (email, task, round), and a further [insert_task] keeps it
    so.  When that [insert_task] stores its row, the rows that held the
    row's key are deleted and the row is added: exactly one row carries
    the key afterwards, so the count for a key that was already taken
    does not grow. *)
Theorem one_task_per_key (ops : list operation) (now : string)
        (td : task_data) :
  let d := perform_all ops init_database in
  let d' := snd (insert_task now td d) in
  tasks_unique d
  /\ tasks_unique d'
  /\ forall row,
       task_row_of now (seq_tasks d + 1) td = Some row ->
       tasks d'
       = (filter (fun old => negb (task_has_key (t_email row) (t_task row)
                                                (t_round row) old))
                 (tasks d) ++ [row])%list
       /\ task_count (t_email row) (t_task row) (t_round row) d' = 1%nat
       /\ ((1 <= task_count (t_email row) (t_task row) (t_round row) d)%nat ->
           task_count (t_email row) (t_task row) (t_round row) d'
           = task_count (t_email row) (t_task row) (t_round row) d).
Proof.
  intros d d'.
  assert (tasks_unique d) as Hd
      by (apply perform_all_unique, init_database_unique).
  split; [exact Hd|].
  split; [apply insert_task_unique; exact Hd|].
  intros row Hrow.
  assert (task_count (t_email row) (t_task row) (t_round row) d' = 1%nat)
    as Hone.
  { unfold d'; rewrite (task_count_after_insert _ _ _ _ _ _ Hrow).
    rewrite key_eqb_refl; reflexivity. }
  split; [|split].
  - unfold d'.
    pose proof (insert_task_tasks now td d) as H; rewrite Hrow in H.
    rewrite H; reflexivity.
  - exact Hone.
  - intros Hsome; rewrite Hone.
    specialize (Hd (t_email row) (t_task row) (t_round row)); lia.
Qed.

(** The gate of the round-1 sweep never closes: no row is ever counted
    as skipped. *)
Lemma round1_never_skips (world : World.oracle) (evaluation_url : string)
      (rows : list Round1.csv_row) (c : Round1.counts) (s : World.state) :
  match fst (Round1.process_rows world evaluation_url rows c s) with
  | Some c' => Round1.skipped_count c' = Round1.skipped_count c
  | None => True
  end.
Proof.
  revert c s; induction rows as [|row rows IH]; intros c s; simpl.
  - reflexivity.
  - destruct (Round1.c_email row) as [e|], (Round1.c_endpoint row) as [ep|],
      (Round1.c_secret row) as [sec|]; simpl; try exact I.
    unfold World.bind at 1, World.query.
    rewrite task_exists_round1.
    unfold World.bind.
    destruct (Round1.generate_task _ _ _ _ _ s) as [[task_data|] s1].
    + destruct (Round1.send_task _ _ _ s1) as [status_code s2].
      destruct (Round1.log_task _ _ _ _ s2) as [success s3].
      destruct (World.sleep 1 s3) as [u s4].
      match goal with
      | |- context [Round1.process_rows _ _ rows ?c0 s4] =>
          specialize (IH c0 s4);
          destruct (fst (Round1.process_rows world evaluation_url rows c0 s4))
      end; [|exact I].
      rewrite IH; destruct success; reflexivity.
    + match goal with
      | |- context [Round1.process_rows _ _ rows ?c0 s1] =>
          specialize (IH c0 s1);
          destruct (fst (Round1.process_rows world evaluation_url rows c0 s1))
      end; [|exact I].
      rewrite IH; reflexivity.
Qed.

(** C10, amended: with [None] for the task, [task_exists] answers
    [False] on every store, for every email and every round that fits
    in 64 bits (or is [None]): the condition compares the task column
    with NULL, which no row satisfies.  For a round outside 64 bits the
    call does not return: binding the round raises OverflowError.  With
    the round 1 this is the question the round-1 sweep asks before it
    generates a task, so the sweep never counts a row as skipped. *)
Theorem task_exists_none_is_false (d : database) (email : option string)
        (round_num : option Z) :
  task_exists email None round_num d
  = (if binds round_num then Returned false else OverflowError)
  /\ task_exists email None (Some 1) d = Returned false
  /\ forall (world : World.oracle) (evaluation_url : string)
            (rows : list Round1.csv_row) (c : Round1.counts),
       match fst (Round1.process_rows world evaluation_url rows c (start d))
       with
       | Some c' => Round1.skipped_count c' = Round1.skipped_count c
       | None => True
       end.
Proof.
  split; [apply task_exists_null_task|].
  split; [apply task_exists_round1|intros; apply round1_never_skips].
Qed.

End TaskTable.

Section TaskTableExamples.
Import Database Props.

Lemma one_task_per_key_witness :
  task_row_of "2025-10-01T11:00:00"
              (seq_tasks (perform_all [Upsert "2025-10-01T10:00:00"
                                              Sample.issued_task]
                                      init_database) + 1)
              Sample.reissued_task
  = Some Sample.reissued_row
  /\ tasks (snd (insert_task "2025-10-01T11:00:00" Sample.reissued_task
                             (perform_all [Upsert "2025-10-01T10:00:00"
                                                  Sample.issued_task]
                                          init_database)))
     = [Sample.reissued_row].
Proof.
  split; [reflexivity|].
  pose proof (one_task_per_key
                [Upsert "2025-10-01T10:00:00" Sample.issued_task]
                "2025-10-01T11:00:00" Sample.reissued_task) as H.
  destruct H as (_ & _ & H).
  destruct (H Sample.reissued_row eq_refl) as (Htasks & _).
  rewrite Htasks; reflexivity.
Defined.

(** C10, as stated, fails for a round number that SQLite cannot bind:
    with the round 2^63 the call does not answer [False], it raises
    OverflowError (and the store holds a Task of that email). *)
Lemma task_exists_overflows :
  task_exists (Some "a@x.edu"%string) None (Some 9223372036854775808)
              Sample.store
  = OverflowError
  /\ exists row, In row (tasks Sample.store) /\ t_email row = "a@x.edu"%string.
Proof.
  split; [reflexivity|].
  exists Fixtures.issued_row; split; [left; reflexivity|reflexivity].
Qed.

End TaskTableExamples.

(* ================================================================== *)
(** * The submission gate *)
(* ================================================================== *)

Section Gate.
Import Database Props EvaluationApi.

Lemma truthy_str_true (s : string) : s <> ""%string -> Py.truthy_str s = true.
Proof.
  intros Hs; unfold Py.truthy_str.
  destruct (String.eqb_spec s ""); [contradiction|reflexivity].
Qed.

Lemma truthy_int_true (z : Z) : z <> 0 -> Py.truthy_int z = true.
Proof.
  intros Hz; unfold Py.truthy_int.
  destruct (Z.eqb_spec z 0); [contradiction|reflexivity].
Qed.

(** With a non-empty email and a non-zero round both filters are in the
    query. *)
Lemma get_tasks_filtered (e : string) (r : Z) (d : database) :
  e <> ""%string -> r <> 0 -> fits r = true ->
  get_tasks (Some e) (Some r) d
  = Returned (filter (fun row => (String.eqb (t_email row) e
                                  && Z.eqb (t_round row) r)%bool) (tasks d)).
Proof.
  intros He Hr Hfits; unfold get_tasks; simpl.
  rewrite (truthy_str_true He), (truthy_int_true Hr), Hfits; simpl.
  f_equal; apply filter_ext; intros row.
  destruct (String.eqb (t_email row) e), (Z.eqb (t_round row) r); reflexivity.
Qed.

(** A round outside 64 bits does not get as far as the scan. *)
Lemma get_tasks_overflow (e : option string) (r : Z) (d : database) :
  fits r = false -> get_tasks e (Some r) d = OverflowError.
Proof.
  intros Hfits; unfold get_tasks; simpl; rewrite Hfits.
  assert (Py.truthy_int r = true) as ->; [|reflexivity].
  unfold Py.truthy_int; destruct (Z.eqb_spec r 0) as [->|]; [|reflexivity].
  discriminate Hfits.
Qed.

(** The round of an issued Task fits in 64 bits. *)
Lemma issued_fits (e t : string) (r : Z) (n : string) (db : database) :
  issued e t r n db -> fits r = true.
Proof. intros (row & _ & _ & _ & <- & _); apply in_range. Qed.

(** The scan over the filtered rows finds a row exactly when a Task with
    the four values was issued. *)
Lemma matching_task_issued (d : notification) (e t : string) (r : Z)
      (n : string) (db : database) :
  n_task d = Val t -> n_nonce d = Val n ->
  e <> ""%string -> r <> 0 ->
  (exists rows row,
      get_tasks (Some e) (Some r) db = Returned rows
      /\ matching_task d rows = Some row)
  <-> issued e t r n db.
Proof.
  intros Ht Hn He Hr.
  destruct (fits r) eqn:Hfits.
  2:{ rewrite (@get_tasks_overflow (Some e) r db Hfits).
      split; [intros (rows & row & H & _); discriminate H|].
      intros Hiss; apply issued_fits in Hiss; congruence. }
  rewrite (@get_tasks_filtered e r db He Hr Hfits).
  assert ((exists rows row,
              Returned
                (filter (fun row0 => (String.eqb (t_email row0) e
                                      && Z.eqb (t_round row0) r)%bool)
                        (tasks db)) = Returned rows
              /\ matching_task d rows = Some row)
          <-> (exists row,
                  matching_task d
                    (filter (fun row0 => (String.eqb (t_email row0) e
                                          && Z.eqb (t_round row0) r)%bool)
                            (tasks db)) = Some row)) as ->.
  { split.
    - intros (rows & row & H & Hm); injection H as <-; eauto.
    - intros (row & Hm); eauto. }
  unfold matching_task, issued; rewrite Ht, Hn; simpl.
  split.
  - intros [row Hfind].
    apply find_some in Hfind; destruct Hfind as [Hin Hrow].
    apply filter_In in Hin; destruct Hin as [Hin Hkey].
    apply andb_true_iff in Hrow, Hkey.
    destruct Hrow as [H1 H2], Hkey as [H3 H4].
    apply String.eqb_eq in H1, H2, H3; apply Z.eqb_eq in H4.
    exists row; auto.
  - intros (row & Hin & <- & <- & <- & <-).
    destruct (find _ _) as [found|] eqn:Hfind; [eauto|].
    assert (In row (filter (fun row0 =>
                              (String.eqb (t_email row0) (t_email row)
                               && Z.eqb (t_round row0) (t_round row))%bool)
                           (tasks db))) as Hin'.
    { apply filter_In; split; [exact Hin|].
      rewrite String.eqb_refl, Z.eqb_refl; reflexivity. }
    pose proof (find_none _ _ Hfind row Hin') as Hf; simpl in Hf.
    rewrite !String.eqb_refl in Hf; discriminate Hf.
Qed.

(** A successful [insert_repo] leaves a Submission row with the values
    it was given. *)
Lemma insert_repo_submitted (now e t : string) (r : Z) (n u c p : string)
      (db : database) :
  fits r = true ->
  let out := insert_repo now
               {| rd_email := Some e; rd_task := Some t; rd_round := Some r;
                  rd_nonce := Some n; rd_repo_url := Some u;
                  rd_commit_sha := Some c; rd_pages_url := Some p |} db in
  fst out = true /\ submitted e t r n (snd out).
Proof.
  intros Hfits; destruct (@bind_int_fits _ Hfits) as (i & Hi & Hv).
  unfold insert_repo, repo_row_of, not_null, bind_round; simpl.
  rewrite Hi; simpl; split; [reflexivity|].
  unfold submitted; simpl.
  eexists; split; [apply in_or_app; right; left; reflexivity|].
  simpl; auto.
Qed.

(** The gate on a notification whose email and round are truthy: it is
    accepted exactly when a Task with the same four values was issued. *)
Lemma gate_matches_issued_task (now : string) (d : notification)
      (e t : string) (r : Z) (n u c p : string) (db : database) :
  n_email d = Val e -> n_task d = Val t -> n_round d = Val r ->
  n_nonce d = Val n -> n_repo_url d = Val u -> n_commit_sha d = Val c ->
  n_pages_url d = Val p ->
  e <> ""%string -> r <> 0 -> fits r = true ->
  let out := receive_notification now (Some d) db in
  (issued e t r n db ->
   fst out = (Success "Repo submission received", 200)
   /\ submitted e t r n (snd out))
  /\ (~ issued e t r n db ->
      fst out
      = (Error "No matching task found for the provided email, task, round, and nonce",
         400)
      /\ snd out = db).
Proof.
  intros He Ht Hr Hn Hu Hc Hp Hne Hnr Hfits out.
  pose proof (matching_task_issued d db Ht Hn Hne Hnr) as Hiff.
  subst out; unfold receive_notification, empty, first_missing.
  rewrite He, Ht, Hr, Hn, Hu, Hc, Hp; simpl.
  rewrite (@get_tasks_filtered e r db Hne Hnr Hfits) in *.
  match goal with
  | |- context [matching_task d ?rows] =>
      destruct (matching_task d rows) as [row|] eqn:Hm
  end.
  - split.
    + intros _.
      pose proof (@insert_repo_submitted now e t r n u c p db Hfits)
        as [H1 H2].
      cbv zeta in H1, H2.
      destruct (insert_repo now _ db) as [success db'].
      simpl in H1, H2; subst success.
      split; [reflexivity|exact H2].
    + intros Hno; exfalso; apply Hno, Hiff; eauto.
  - split.
    + intros Hyes; apply Hiff in Hyes.
      destruct Hyes as (rows & row & Hrows & Hrow).
      injection Hrows as <-; congruence.
    + intros _; simpl; auto.
Qed.

(** A [null] among the three stored URLs of an otherwise matching
    notification is a storage failure: 500, nothing written. *)
Lemma gate_storage_failure (now : string) (d : notification)
      (e t : string) (r : Z) (n : string) (db : database) :
  n_email d = Val e -> n_task d = Val t -> n_round d = Val r ->
  n_nonce d = Val n -> first_missing d = None ->
  n_repo_url d = Null \/ n_commit_sha d = Null \/ n_pages_url d = Null ->
  e <> ""%string -> r <> 0 ->
  issued e t r n db ->
  receive_notification now (Some d) db
  = ((Error "Failed to store repo submission", 500), db).
Proof.
  intros He Ht Hr Hn Hall Hnull Hne Hnr Hiss.
  pose proof (@issued_fits _ _ _ _ _ Hiss) as Hfits.
  destruct (@bind_int_fits _ Hfits) as (i & Hi & Hv).
  apply (matching_task_issued d db Ht Hn Hne Hnr) in Hiss.
  destruct Hiss as (rows & row & Hrows & Hrow).
  unfold receive_notification.
  assert (empty d = false) as ->
      by (unfold empty; rewrite He; reflexivity).
  rewrite Hall, He, Hr; simpl; rewrite Hrows, Hrow.
  unfold insert_repo, repo_row_of, not_null, bind_round; simpl.
  rewrite Ht, Hn, Hi; simpl.
  destruct Hnull as [H|[H|H]]; rewrite H; simpl;
    repeat match goal with
           | |- context [value ?f] => destruct f; simpl
           end; reflexivity.
Qed.

End Gate.

Section GateExamples.
Import Database Props EvaluationApi.

(** The honest notification of the example scenario is accepted. *)
Example honest_notification_accepted :
  let out := receive_notification "2025-10-02T09:00:00" (Some Sample.honest)
                                  Sample.store in
  fst out = (Success "Repo submission received", 200)
  /\ submitted "a@x.edu" "todo-manager-abc12" 1 "N1" (snd out).
Proof.
  assert ("a@x.edu"%string <> ""%string) as He by discriminate.
  assert (1 <> 0) as Hr by discriminate.
  apply (proj1 (@gate_matches_issued_task
                  "2025-10-02T09:00:00" Sample.honest "a@x.edu"
                  "todo-manager-abc12" 1 "N1" "https://github.com/a/todo"
                  "0a1b2c3" "https://a.github.io/todo/" Sample.store
                  eq_refl eq_refl eq_refl eq_refl eq_refl eq_refl eq_refl
                  He Hr eq_refl)).
  eexists; split; [left; reflexivity|simpl; auto].
Qed.

Lemma sample_store_tasks (row : task_row) :
  In row (tasks Sample.store)
  -> t_email row = "a@x.edu"%string /\ to_Z (t_round row) = 1.
Proof.
  intros [<-|[]]; split; reflexivity.
Qed.

(** C1: the gate at a notification whose email is the empty string (and
    at one whose round is 0): [get_tasks] drops the filter on a falsy
    value, the scan then compares task and nonce only, and the handler
    answers 200 and records a Submission although no Task was issued
    with that student (that round). *)
Theorem gate_accepts_without_issued_task :
  (let out := receive_notification "2025-10-02T09:00:00"
                                   (Some Sample.no_email) Sample.store in
   fst out = (Success "Repo submission received", 200)
   /\ submitted "" "todo-manager-abc12" 1 "N1" (snd out)
   /\ ~ issued "" "todo-manager-abc12" 1 "N1" Sample.store)
  /\ (let out := receive_notification "2025-10-02T09:00:00"
                                      (Some Sample.round_zero) Sample.store in
      fst out = (Success "Repo submission received", 200)
      /\ submitted "a@x.edu" "todo-manager-abc12" 0 "N1" (snd out)
      /\ ~ issued "a@x.edu" "todo-manager-abc12" 0 "N1" Sample.store).
Proof.
  cbv zeta; split; (split; [reflexivity|split]).
  - eexists; split; [left; reflexivity|simpl; auto].
  - intros (row & Hin & He & _).
    apply sample_store_tasks in Hin; destruct Hin as [He' _].
    rewrite He' in He; discriminate He.
  - eexists; split; [left; reflexivity|simpl; auto].
  - intros (row & Hin & _ & _ & Hr & _).
    apply sample_store_tasks in Hin; destruct Hin as [_ Hr'].
    rewrite Hr' in Hr; discriminate Hr.
Qed.

End GateExamples.

(* ================================================================== *)
(** * The round-1 sweep over a student who already has a task *)
(* ================================================================== *)

Section Round1Examples.
Import Database Props World.

(** C2: student [a@x.edu] already holds a round-1 Task (nonce [N1]).
    The sweep still generates a task for the student, mints the nonce
    [N2], posts the task to the endpoint and writes the store (the old
    row is replaced): nothing is skipped. *)
Theorem round1_sweep_reissues :
  task_exists (Some "a@x.edu"%string) (Some "todo-manager-abc12"%string)
              (Some 1) Sample.store = Returned true
  /\ let out := Round1.process_submissions Sample.world
                  "http://eval/api/notify" Sample.submissions
                  (start Sample.store) in
     fst out = Some {| Round1.processed_count := 1;
                       Round1.skipped_count := 0;
                       Round1.error_count := 0 |}
     /\ trace (snd out)
        = [ Uuid4 "N2";
            Post "http://student/api/build" Sample.second_issue (Some 200);
            Sleep 1 ]
     /\ map t_nonce (tasks (db (snd out))) = ["N2"%string]
     /\ map t_nonce (tasks Sample.store) = ["N1"%string].
Proof.
  vm_compute; repeat split; reflexivity.
Qed.

End Round1Examples.

(* ================================================================== *)
(** * The round-2 retry sweep *)
(* ================================================================== *)

Section Retry.
Import Database Props World.

Variable world : oracle.

Lemma deliveries_app (a b : list event) :
  deliveries (a ++ b) = (deliveries a ++ deliveries b)%list.
Proof. apply flat_map_app. Qed.

Lemma minted_app (a b : list event) :
  minted (a ++ b) = (minted a ++ minted b)%list.
Proof. apply flat_map_app. Qed.

(** What the loop over the failed tasks does to the world: the store is
    as it was, one request per task went out with the payload rebuilt
    from the row, and no nonce was drawn. *)
Lemma retry_tasks_effect (failed_tasks : list task_row) (retry_count : Z)
      (s : state) :
  let s' := snd (Round2.retry_tasks world failed_tasks retry_count s) in
  db s' = db s
  /\ deliveries (trace s')
     = (deliveries (trace s)
        ++ map (fun task => (t_endpoint task, Round2.retry_payload task))
               failed_tasks)%list
  /\ minted (trace s') = minted (trace s).
Proof.
  revert retry_count s.
  induction failed_tasks as [|task rest IH]; intros retry_count s; simpl.
  - rewrite app_nil_r; auto.
  - unfold bind, Round2.send_task, tick, emit, sleep, ret; simpl.
    match goal with
    | |- context [Round2.retry_tasks world rest ?c ?s0] =>
        destruct (IH c s0) as (Hdb & Hdel & Hmint)
    end.
    simpl in Hdb, Hdel, Hmint.
    rewrite Hdb, Hdel, Hmint.
    rewrite !deliveries_app, !minted_app; simpl.
    rewrite !app_nil_r, <- app_assoc; simpl; auto.
Qed.

(** C9: the retry sweep re-delivers every selected Task (round 2,
    stored status code other than 200) with the nonce stored on its row,
    draws no new nonce, and leaves the whole store, and so every Task
    row with its status code, as it found it, whatever the endpoints
    answer. *)
Theorem retry_keeps_nonce_and_store (max_retries : Z) (d : database) :
  let s' := snd (Round2.retry_failed_round2_tasks world max_retries
                                                  (start d)) in
  db s' = d
  /\ minted (trace s') = []
  /\ deliveries (trace s')
     = map (fun task => (t_endpoint task, Round2.retry_payload task))
           (selected_for_retry d)
  /\ map (fun delivery => p_nonce (snd delivery)) (deliveries (trace s'))
     = map t_nonce (selected_for_retry d).
Proof.
  assert (get_tasks None (Some 2) d
          = Returned (filter (fun task => Z.eqb (t_round task) 2) (tasks d)))
    as Hget.
  { unfold get_tasks; simpl; f_equal; apply filter_ext; intros row; simpl.
    destruct (Z.eqb (t_round row) 2); reflexivity. }
  cbv zeta.
  unfold Round2.retry_failed_round2_tasks, bind, query.
  change (db (start d)) with d.
  rewrite Hget; cbv beta iota zeta; fold (selected_for_retry d).
  destruct (selected_for_retry d) as [|task rest] eqn:Hsel.
  - simpl; auto.
  - pose proof (retry_tasks_effect (task :: rest) 0 (start d)) as H.
    cbv zeta in H.
    destruct (Round2.retry_tasks world (task :: rest) 0 (start d))
      as [retry_count s'].
    simpl in H |- *.
    destruct H as (Hdb & Hdel & Hmint).
    rewrite Hdel.
    repeat split; try assumption.
    simpl; f_equal.
    rewrite map_map; reflexivity.
Qed.

End Retry.

(* ================================================================== *)
(** * The Result table only grows *)
(* ================================================================== *)

Section Results.
Import Database Props Evaluate.

Variable self : evaluator.









End Results.

Section ResultsExamples.
Import Database Props Evaluate.


End ResultsExamples.

(* ================================================================== *)
(** * The checks of the evaluation pipeline *)
(* ================================================================== *)

Section Checks.
Import Database Props Evaluate.
Local Open Scope float_scope.








End Checks.

Section DynamicCheck.
Import Database Props Evaluate.
Local Open Scope float_scope.

(** A title that survives [strip] was not empty to begin with. *)
Lemma title_test (t : string) :
  (Py.truthy_str t && Py.truthy_str (Py.strip t))%bool
  = Py.truthy_str (Py.strip t).
Proof. destruct t; reflexivity. Qed.

Lemma probe_sum_le_one (t c k : bool) :
  PrimFloat.leb (probe_sum t c k) 1.0 = true.
Proof. destruct t, c, k; reflexivity. Qed.

(** The browser session, when nothing in it raises, adds up the three
    contributions. *)
Lemma drive_browser_score (env : run) (pages_url task : string) :
  match goto env pages_url, drive_browser env pages_url task with
  | Ok p, Ok (score, _) =>
      Py.min score 1.0
      = probe_sum (title_present p) (content_present p)
                  (family_probe env pages_url task p)
  | Raised _, Ok _ => False
  | _, Raised _ => True
  end.
Proof.
  unfold drive_browser, probe_title, probe_content, probe_task,
    probe_parameter, probe_todo, family_probe, echoes, has_controls,
    title_present, content_present, bind.
  destruct (goto env pages_url) as [p|e]; [|exact I].
  destruct (title p) as [t|e]; [|exact I].
  rewrite title_test.
  destruct (inner_text p) as [b|e];
    [|destruct (Py.truthy_str (Py.strip t)); exact I].
  destruct (String.eqb (Py.split_head "-" task) "captcha").
  { destruct (goto env (pages_url ++ "?url=test")) as [q|e];
      [|destruct (Py.truthy_str (Py.strip t)),
                 (Z.ltb 50 (Py.len (Py.strip b))); exact I].
    destruct (inner_text q) as [qb|e];
      [|destruct (Py.truthy_str (Py.strip t)),
                 (Z.ltb 50 (Py.len (Py.strip b))); exact I].
    destruct (Py.truthy_str (Py.strip t)), (Z.ltb 50 (Py.len (Py.strip b))),
      (Py.contains "test" (Py.lower qb)), (close env);
      simpl; try exact I; reflexivity. }
  destruct (String.eqb (Py.split_head "-" task) "weather").
  { destruct (goto env (pages_url ++ "?city=London")) as [q|e];
      [|destruct (Py.truthy_str (Py.strip t)),
                 (Z.ltb 50 (Py.len (Py.strip b))); exact I].
    destruct (inner_text q) as [qb|e];
      [|destruct (Py.truthy_str (Py.strip t)),
                 (Z.ltb 50 (Py.len (Py.strip b))); exact I].
    destruct (Py.truthy_str (Py.strip t)), (Z.ltb 50 (Py.len (Py.strip b))),
      (Py.contains "london" (Py.lower qb)), (close env);
      simpl; try exact I; reflexivity. }
  destruct (String.eqb (Py.split_head "-" task) "todo").
  { destruct (inputs p) as [i|e], (buttons p) as [k|e'];
      destruct (Py.truthy_str (Py.strip t)),
        (Z.ltb 50 (Py.len (Py.strip b))), (close env);
      simpl; try exact I;
      try (destruct (negb (Nat.eqb i 0) && negb (Nat.eqb k 0))%bool);
      reflexivity. }
  destruct (Py.truthy_str (Py.strip t)), (Z.ltb 50 (Py.len (Py.strip b))),
    (close env); simpl; try exact I; reflexivity.
Qed.

(** C5, as amended: the dynamic check is run, and its Result recorded,
    exactly when the reachability check passed.  Its score is 0.5 when
    the browser driver is not installed and 0.0 when the browser session
    raises; otherwise it is the sum of 0.3 for a title with a visible
    character, 0.3 for more than 50 characters of body text and 0.4 for
    the probe of the task family, clamped at 1.0.  In every case it is at
    most 1.0. *)
Theorem dynamic_check_scoring (self : evaluator) (env : run) (s : repo_row) :
  let pages := check_pages_accessibility env in
  let outcome :=
    dynamic_check_playwright self env (r_pages_url s) (r_task s) in
  pages_results self env s
  = (result s "Pages Accessibility" (binary (fst pages)) (snd pages)
     :: (if fst pages
         then [result s "Dynamic Functionality" (fst outcome) (snd outcome)]
         else []))%list
  /\ fst outcome
     = (if negb (playwright_available self) then 0.5
        else match goto env (r_pages_url s),
                   drive_browser env (r_pages_url s) (r_task s) with
             | Ok p, Ok _ =>
                 probe_sum (title_present p) (content_present p)
                           (family_probe env (r_pages_url s) (r_task s) p)
             | _, _ => 0.0
             end)
  /\ PrimFloat.leb (fst outcome) 1.0 = true.
Proof.
  cbv zeta.
  assert (fst (dynamic_check_playwright self env (r_pages_url s) (r_task s))
          = (if negb (playwright_available self) then 0.5
             else match goto env (r_pages_url s),
                        drive_browser env (r_pages_url s) (r_task s) with
                  | Ok p, Ok _ =>
                      probe_sum (title_present p) (content_present p)
                                (family_probe env (r_pages_url s)
                                              (r_task s) p)
                  | _, _ => 0.0
                  end)) as Hscore.
  { unfold dynamic_check_playwright.
    destruct (playwright_available self); simpl; [|reflexivity].
    pose proof (drive_browser_score env (r_pages_url s) (r_task s)) as H.
    destruct (goto env (r_pages_url s)) as [p|e],
      (drive_browser env (r_pages_url s) (r_task s)) as [[score passed]|e'];
      simpl; try reflexivity; [exact H|contradiction]. }
  split; [|split].
  - unfold pages_results.
    destruct (check_pages_accessibility env) as [[|] reason]; simpl;
      [|reflexivity].
    destruct (dynamic_check_playwright _ _ _ _); reflexivity.
  - exact Hscore.
  - rewrite Hscore.
    destruct (playwright_available self); simpl; [|reflexivity].
    destruct (goto env (r_pages_url s)) as [p|e]; [|reflexivity].
    destruct (drive_browser env (r_pages_url s) (r_task s));
      [apply probe_sum_le_one|reflexivity].
Qed.

End DynamicCheck.

Section CheckExamples.
Import Database Props Evaluate.
Local Open Scope float_scope.

(** Two float constants that differ under [eqb] are different. *)
Ltac floats_differ :=
  let H := fresh in
  intros H;
  match type of H with
  | ?a = ?b => pose proof (f_equal (PrimFloat.eqb a) H) as H'
  end;
  vm_compute in *; discriminate.

(** C5, as stated, fails where Playwright is not installed: the page is
    reachable, the dynamic check is recorded, and its score is 0.5,
    which no combination of the three contributions gives. *)
Lemma dynamic_score_without_driver :
  let env := Sample.run_of Sample.readme_only (Ok 200%Z) in
  let outcome :=
    dynamic_check_playwright Sample.bare env
      (r_pages_url Sample.submission) (r_task Sample.submission) in
  fst (check_pages_accessibility env) = true
  /\ check_names (pages_results Sample.bare env Sample.submission)
     = ["Pages Accessibility"; "Dynamic Functionality"]%string
  /\ fst outcome = 0.5
  /\ forall title content family : bool,
       fst outcome <> probe_sum title content family.
Proof.
  cbv zeta; repeat split; try reflexivity.
  intros [|] [|] [|]; vm_compute; floats_differ.
Qed.






End CheckExamples.

(* ================================================================== *)
(** * The notifier *)
(* ================================================================== *)

Section Notifier.
Import StudentApi.

Variable post : Z -> option Z.

Lemma posts_app (a b : list event) : posts (a ++ b) = (posts a ++ posts b)%list.
Proof. apply flat_map_app. Qed.

Lemma sleeps_app (a b : list event) :
  sleeps (a ++ b) = (sleeps a ++ sleeps b)%list.
Proof. apply flat_map_app. Qed.

(** One more round of the loop, when the request was not answered 200. *)
Lemma attempts_next (url : string) (body : payload) (m a : Z) (rem : nat) :
  is_200 (post a) = false ->
  attempts post url body m a (S rem)
  = (fst (attempts post url body m (a + 1) rem),
     Post a url body
     :: (if Z.ltb a (m - 1) then [Sleep (2 ^ a)] else [])
     ++ snd (attempts post url body m (a + 1) rem)).
Proof.
  intros H; simpl; rewrite H.
  destruct (attempts post url body m (a + 1) rem); reflexivity.
Qed.

Lemma attempts_done (url : string) (body : payload) (m a : Z) (rem : nat) :
  is_200 (post a) = true ->
  attempts post url body m a (S rem) = (true, [Post a url body]).
Proof. intros H; simpl; rewrite H; reflexivity. Qed.

Lemma posts_of_wait (a m : Z) (later : list event) :
  posts ((if Z.ltb a (m - 1) then [Sleep (2 ^ a)] else []) ++ later)
  = posts later.
Proof. destruct (Z.ltb a (m - 1)); reflexivity. Qed.

(** The requests are numbered consecutively, there are at most as many
    as the loop has rounds, and a wait of [2 ^ attempt] follows exactly
    the unanswered requests that are not the last round. *)
Lemma attempts_trace (url : string) (body : payload) (m a : Z) (rem : nat) :
  let out := attempts post url body m a rem in
  posts (snd out)
  = map (fun i => a + Z.of_nat i) (seq 0 (List.length (posts (snd out))))
  /\ (List.length (posts (snd out)) <= rem)%nat
  /\ sleeps (snd out)
     = map (fun x => 2 ^ x)
           (filter (fun x => (negb (is_200 (post x)) && Z.ltb x (m - 1))%bool)
                   (posts (snd out))).
Proof.
  revert a; induction rem as [|rem IH]; intros a.
  - simpl; auto.
  - destruct (is_200 (post a)) eqn:Ha.
    + rewrite (@attempts_done url body m a rem Ha); simpl.
      rewrite Ha, Z.add_0_r; simpl.
      split; [reflexivity|split; [lia|reflexivity]].
    + rewrite (@attempts_next url body m a rem Ha).
      destruct (IH (a + 1)) as (Hposts & Hlen & Hsleeps).
      cbn [fst snd posts sleeps flat_map app] in *.
      fold (posts ((if Z.ltb a (m - 1) then [Sleep (2 ^ a)] else [])
                   ++ snd (attempts post url body m (a + 1) rem))).
      fold (sleeps ((if Z.ltb a (m - 1) then [Sleep (2 ^ a)] else [])
                    ++ snd (attempts post url body m (a + 1) rem))).
      rewrite posts_of_wait, sleeps_app.
      split; [|split].
      * simpl; rewrite Z.add_0_r; f_equal.
        rewrite Hposts at 1.
        rewrite <- seq_shift, map_map.
        apply map_ext; intros i; lia.
      * simpl; lia.
      * simpl filter; rewrite Ha; simpl negb; rewrite andb_true_l.
        rewrite Hsleeps.
        destruct (Z.ltb a (m - 1)); reflexivity.
Qed.

(** The waits grow strictly, and none is shorter than [2 ^ attempt]. *)
Lemma attempts_waits_grow (url : string) (body : payload) (m a : Z)
      (rem : nat) :
  0 <= a ->
  let waits := sleeps (snd (attempts post url body m a rem)) in
  StronglySorted Z.lt waits /\ Forall (fun w => 2 ^ a <= w) waits.
Proof.
  revert a; induction rem as [|rem IH]; intros a Ha.
  - simpl; split; constructor.
  - destruct (is_200 (post a)) eqn:H200.
    + rewrite (@attempts_done url body m a rem H200); simpl; split; constructor.
    + rewrite (@attempts_next url body m a rem H200).
      destruct (IH (a + 1)) as (Hsorted & Hlow); [lia|].
      cbn [snd sleeps flat_map app] in *.
      fold (sleeps ((if Z.ltb a (m - 1) then [Sleep (2 ^ a)] else [])
                    ++ snd (attempts post url body m (a + 1) rem))).
      rewrite sleeps_app.
      assert (2 ^ a < 2 ^ (a + 1)) as Hstep
          by (apply Z.pow_lt_mono_r; lia).
      assert (Forall (fun w => 2 ^ a < w)
                     (sleeps (snd (attempts post url body m (a + 1) rem))))
        as Habove
          by (eapply Forall_impl; [|exact Hlow]; simpl; intros w Hw; lia).
      destruct (Z.ltb a (m - 1)); simpl.
      * split; [constructor; assumption|].
        constructor; [lia|].
        eapply Forall_impl; [|exact Habove]; simpl; intros w Hw; lia.
      * split; [assumption|].
        eapply Forall_impl; [|exact Habove]; simpl; intros w Hw; lia.
Qed.

(** How the loop ends: with [True] right after the first request that
    is answered 200, with [False] after all its rounds. *)
Lemma attempts_outcome (url : string) (body : payload) (m a : Z) (rem : nat) :
  let out := attempts post url body m a rem in
  if fst out
  then exists before last,
         snd out = (before ++ [Post last url body])%list
         /\ is_200 (post last) = true
         /\ Forall (fun x => is_200 (post x) = false) (posts before)
  else Forall (fun x => is_200 (post x) = false) (posts (snd out))
       /\ List.length (posts (snd out)) = rem.
Proof.
  revert a; induction rem as [|rem IH]; intros a.
  - simpl; split; [constructor|reflexivity].
  - destruct (is_200 (post a)) eqn:Ha.
    + rewrite (@attempts_done url body m a rem Ha); simpl.
      exists [], a; simpl.
      split; [reflexivity|split; [exact Ha|constructor]].
    + rewrite (@attempts_next url body m a rem Ha).
      specialize (IH (a + 1)); cbv zeta in IH.
      cbn [fst snd].
      destruct (fst (attempts post url body m (a + 1) rem)).
      * destruct IH as (before & last & Htr & Hlast & Hbefore).
        exists (Post a url body
                :: (if Z.ltb a (m - 1) then [Sleep (2 ^ a)] else [])
                ++ before), last.
        rewrite Htr; split; [|split].
        -- rewrite app_comm_cons, app_assoc; reflexivity.
        -- exact Hlast.
        -- cbn [posts flat_map app].
           fold (posts ((if Z.ltb a (m - 1) then [Sleep (2 ^ a)] else [])
                        ++ before)).
           rewrite posts_of_wait; constructor; assumption.
      * destruct IH as (Hall & Hlen).
        cbn [posts flat_map app].
        fold (posts ((if Z.ltb a (m - 1) then [Sleep (2 ^ a)] else [])
                     ++ snd (attempts post url body m (a + 1) rem))).
        rewrite posts_of_wait; split; [constructor; assumption|].
        simpl; rewrite Hlen; reflexivity.
Qed.

End Notifier.

Section NotifierProtocol.
Import StudentApi.

(** C8, as amended: with the default of five attempts the notifier makes
    at most five requests, numbered 0, 1, ...; after each request that is
    not answered 200, except the fifth, it waits [2 ^ attempt] seconds,
    so the waits grow strictly; it returns [True] right after the first
    request answered 200 and makes no further request; it returns
    [False] after five unanswered requests, or at once and without any
    request when the notification carries no evaluation URL (or an empty
    one). *)
Theorem notifier_protocol (post : Z -> option Z) (data : notification_data) :
  let out := notify_evaluation_api post data default_max_retries in
  let tried := posts (snd out) in
  let waits := sleeps (snd out) in
  (List.length tried <= 5)%nat
  /\ tried = map Z.of_nat (seq 0 (List.length tried))
  /\ waits
     = map (fun x => 2 ^ x)
           (filter (fun x => (negb (is_200 (post x)) && Z.ltb x 4)%bool) tried)
  /\ StronglySorted Z.lt waits
  /\ (if fst out
      then exists before last url body,
             snd out = (before ++ [Post last url body])%list
             /\ is_200 (post last) = true
             /\ Forall (fun x => is_200 (post x) = false) (posts before)
      else Forall (fun x => is_200 (post x) = false) tried
           /\ List.length tried
              = if Py.truthy_opt Py.truthy_str (evaluation_url data)
                then 5%nat else 0%nat).
Proof.
  cbv zeta; unfold notify_evaluation_api, default_max_retries.
  destruct (evaluation_url data) as [url|]; simpl Py.truthy_opt;
    [destruct (Py.truthy_str url) eqn:Hurl; simpl negb; cbv iota|].
  - set (body := {| p_email := email data; p_task := task data;
                    p_round := round data; p_nonce := nonce data;
                    p_repo_url := repo_url data;
                    p_commit_sha := commit_sha data;
                    p_pages_url := pages_url data |}).
    destruct (attempts_trace post url body 5 0 (Z.to_nat 5))
      as (Hposts & Hlen & Hsleeps).
    destruct (attempts_waits_grow post url body 5 (Z.to_nat 5) (Z.le_refl 0))
      as (Hsorted & _).
    pose proof (attempts_outcome post url body 5 0 (Z.to_nat 5)) as Hout.
    cbv zeta in Hout.
    split; [exact Hlen|].
    split; [exact Hposts|].
    split; [exact Hsleeps|].
    split; [exact Hsorted|].
    destruct (fst (attempts post url body 5 0 (Z.to_nat 5))).
    + destruct Hout as (before & last & Htr & Hlast & Hbefore).
      exists before, last, url, body; auto.
    + exact Hout.
  - simpl; repeat split; solve [lia | constructor].
  - simpl; repeat split; solve [lia | constructor].
Qed.

(** C8, as stated, fails on a notification whose evaluation URL is the
    empty string: the notifier returns [False] without a single request,
    although the evaluator would have answered 200. *)
Lemma notifier_fails_without_attempt :
  notify_evaluation_api Sample.up Sample.built_nowhere default_max_retries
  = (false, [])
  /\ List.length
       (posts (snd (notify_evaluation_api Sample.up Sample.built_nowhere
                                          default_max_retries)))
     <> 5%nat.
Proof. split; [reflexivity|discriminate]. Qed.

(** The evaluator comes back for the third request ... *)
Example notifier_succeeds_at_third :
  let out := notify_evaluation_api Sample.back_at_third Sample.built
                                   default_max_retries in
  fst out = true /\ posts (snd out) = [0; 1; 2] /\ sleeps (snd out) = [1; 2].
Proof. repeat split; reflexivity. Qed.

(** ... and never: five requests, four waits. *)
Example notifier_gives_up :
  let out := notify_evaluation_api Sample.down Sample.built
                                   default_max_retries in
  fst out = false /\ posts (snd out) = [0; 1; 2; 3; 4]
  /\ sleeps (snd out) = [1; 2; 4; 8].
Proof. repeat split; reflexivity. Qed.

End NotifierProtocol.

(* ================================================================== *)
(** * The round-2 issuer never finds a template *)
(* ================================================================== *)

Section Round2Issuer.
Import Database World Props.

Variable world : oracle.
Variable evaluation_url : string.

Lemma split_head_no_dash (s : string) :
  Py.contains "-" (Py.split_head "-" s) = false.
Proof.
  induction s as [|c s IH]; [reflexivity|].
  cbn [Py.split_head].
  destruct (Ascii.eqb_spec c "-") as [->|Hc]; [reflexivity|].
  cbn [Py.contains String.prefix].
  destruct (ascii_dec "-" c) as [Heq|_]; [congruence|exact IH].
Qed.

Lemma extract_task_type_no_dash (task_id : string) :
  Py.contains "-" (Round2.extract_task_type task_id) = false.
Proof.
  unfold Round2.extract_task_type.
  destruct (Py.contains "-" task_id) eqn:H;
    [apply split_head_no_dash | exact H].
Qed.

(** Every key of [round2_templates] has a dash in it. *)
Lemma round2_templates_dashed (key : string) :
  Py.contains "-" key = false ->
  Round2.lookup key Round2.round2_templates = None.
Proof.
  intros Hkey; unfold Round2.round2_templates; cbn [Round2.lookup].
  repeat match goal with
         | |- context [String.eqb ?k key] =>
             destruct (String.eqb_spec k key) as [<-|_];
               [vm_compute in Hkey; discriminate Hkey|]
         end.
  reflexivity.
Qed.

Lemma generate_round2_task_none (repo : repo_row) (original_task : task_row)
      (s : state) :
  Round2.generate_round2_task world evaluation_url repo original_task s
  = (None, s).
Proof.
  unfold Round2.generate_round2_task.
  rewrite round2_templates_dashed by apply extract_task_type_no_dash.
  reflexivity.
Qed.

Lemma process_repos_idle (round1_repos : list repo_row) (c : Round1.counts)
      (s : state) :
  let out := Round2.process_repos world evaluation_url round1_repos c s in
  snd out = s
  /\ Round1.processed_count (fst out) = Round1.processed_count c
  /\ Round1.skipped_count (fst out) + Round1.error_count (fst out)
     = Round1.skipped_count c + Round1.error_count c
       + Z.of_nat (List.length round1_repos).
Proof.
  revert c; induction round1_repos as [|repo rest IH]; intros c;
    cbn [Round2.process_repos].
  - simpl; repeat split; lia.
  - unfold bind, query; cbv beta iota zeta.
    destruct (task_exists _ _ _ (db s)) as [[|]|] eqn:Hseen.
    + destruct (IH {| Round1.processed_count := Round1.processed_count c;
                      Round1.skipped_count := Round1.skipped_count c + 1;
                      Round1.error_count := Round1.error_count c |})
        as (H1 & H2 & H3).
      rewrite H1, H2, H3; simpl.
      split; [reflexivity|split; [reflexivity|lia]].
    + destruct (get_tasks _ _ (db s)) as [round1_tasks|] eqn:Hget;
        [|unfold get_tasks in Hget; simpl in Hget; discriminate Hget].
      destruct (find _ _) as [original_task|];
        [rewrite generate_round2_task_none|];
        destruct (IH {| Round1.processed_count := Round1.processed_count c;
                        Round1.skipped_count := Round1.skipped_count c;
                        Round1.error_count := Round1.error_count c + 1 |})
          as (H1 & H2 & H3);
        rewrite H1, H2, H3; simpl;
        (split; [reflexivity|split; [reflexivity|lia]]).
    + unfold task_exists in Hseen; simpl in Hseen; discriminate Hseen.
Qed.

(** The query of the round-2 sweep binds its round. *)
Lemma get_repos_round1 (d : database) :
  exists round1_repos, get_repos None (Some 1) d = Returned round1_repos.
Proof. unfold get_repos; simpl; eauto. Qed.

Lemma round2_sweep_idle (s : state) :
  snd (Round2.process_round1_completions world evaluation_url s) = s.
Proof.
  unfold Round2.process_round1_completions, bind, query.
  destruct (get_repos None (Some 1) (db s)) as [[|repo rest]|];
    [reflexivity| |reflexivity].
  pose proof (process_repos_idle (repo :: rest)
                {| Round1.processed_count := 0; Round1.skipped_count := 0;
                   Round1.error_count := 0 |} s) as H.
  cbv zeta in H.
  destruct (Round2.process_repos world evaluation_url (repo :: rest) _ s)
    as [c s'].
  simpl in H |- *; tauto.
Qed.

(** X7: the task type cut from a task id never has a dash, and every
    key of the round-2 catalogue has one, so [generate_round2_task]
    returns [None] for every task.  The round-2 sweep therefore sends
    nothing, draws no nonce, writes nothing and counts every round-1
    Submission as skipped or failed. *)
Theorem round2_sweep_issues_nothing (d : database) :
  (forall repo original_task s,
      Round2.generate_round2_task world evaluation_url repo original_task s
      = (None, s))
  /\ exists round1_repos,
       get_repos None (Some 1) d = Returned round1_repos
       /\ let out := Round2.process_round1_completions world evaluation_url
                       (start d) in
          snd out = start d
          /\ match fst out with
             | Some c =>
                 Round1.processed_count c = 0
                 /\ Round1.skipped_count c + Round1.error_count c
                    = Z.of_nat (List.length round1_repos)
             | None => round1_repos = []
             end.
Proof.
  split; [intros; apply generate_round2_task_none|].
  destruct (get_repos_round1 d) as [round1_repos Hrepos].
  exists round1_repos; split; [exact Hrepos|].
  cbv zeta; unfold Round2.process_round1_completions, bind, query.
  change (db (start d)) with d; rewrite Hrepos.
  destruct round1_repos as [|repo rest].
  - simpl; auto.
  - pose proof (process_repos_idle (repo :: rest)
                  {| Round1.processed_count := 0; Round1.skipped_count := 0;
                     Round1.error_count := 0 |} (start d)) as H.
    cbv zeta in H.
    destruct (Round2.process_repos world evaluation_url (repo :: rest) _
                                   (start d)) as [c s'].
    simpl in H |- *; destruct H as (H1 & H2 & H3).
    split; [exact H1|split; [exact H2|]].
    rewrite H3; lia.
Qed.

End Round2Issuer.

(* ================================================================== *)
(** * What the sweeps and the gate leave alone *)
(* ================================================================== *)

Section Frames.
Import Database World Props More.

(** A property of the store that [insert_task] keeps is kept by the
    round-1 sweep. *)
Lemma process_rows_preserves (P : database -> Prop) (world : oracle)
      (evaluation_url : string) (rows : list Round1.csv_row)
      (c : Round1.counts) :
  (forall now td d, P d -> P (snd (insert_task now td d))) ->
  preserves P (Round1.process_rows world evaluation_url rows c).
Proof.
  intros HP; revert c; induction rows as [|row rows IH]; intros c; simpl.
  - auto with store.
  - destruct (Round1.c_email row), (Round1.c_endpoint row),
      (Round1.c_secret row); auto with store.
    apply preserves_bind; [auto with store|intros seen].
    destruct seen as [[|]|]; [apply IH| |auto with store].
    apply preserves_bind; [apply round1_generate_task_preserves|].
    intros [task_data|]; [|apply IH].
    apply preserves_bind; [apply send_task_preserves|intros status_code].
    apply preserves_bind; [|intros success].
    { unfold Round1.log_task.
      apply preserves_bind; [auto with store|intros n].
      apply preserves_update; intros d; apply HP. }
    apply preserves_bind; [unfold sleep; auto with store|intros _].
    apply IH.
Qed.

Lemma insert_task_frame (now : string) (td : task_data) (d : database) :
  repos (snd (insert_task now td d)) = repos d
  /\ results (snd (insert_task now td d)) = results d.
Proof.
  unfold insert_task; destruct (task_row_of _ _ td); auto.
Qed.

Lemma insert_repo_frame (now : string) (rd : repo_data) (d : database) :
  tasks (snd (insert_repo now rd d)) = tasks d
  /\ results (snd (insert_repo now rd d)) = results d.
Proof.
  unfold insert_repo; destruct (repo_row_of _ _ rd); auto.
Qed.

(** The delete half of a REPLACE, for any table: no row of the replaced
    key is left, and the rows of the other keys are all kept. *)
Lemma replaced_key_gone {A : Type} (f : A -> bool) (l : list A) :
  filter f (filter (fun old => negb (f old)) l) = [].
Proof.
  induction l as [|x l IH]; simpl; [reflexivity|].
  destruct (f x) eqn:Hx; simpl; [exact IH|].
  rewrite Hx; exact IH.
Qed.

Lemma other_keys_kept {A : Type} (f g : A -> bool) (l : list A) :
  (forall x, f x = true -> g x = false) ->
  filter g (filter (fun old => negb (f old)) l) = filter g l.
Proof.
  intros Hfg; induction l as [|x l IH]; simpl; [reflexivity|].
  destruct (f x) eqn:Hx; simpl.
  - rewrite (Hfg x Hx); exact IH.
  - destruct (g x); rewrite IH; reflexivity.
Qed.

Lemma repo_count_after_insert (now : string) (rd : repo_data) (d : database)
      (row : repo_row) (e t : string) (r : Z) :
  repo_row_of now (seq_repos d + 1) rd = Some row ->
  repo_count e t r (snd (insert_repo now rd d))
  = if key_eqb (r_email row) (r_task row) (r_round row) e t r
    then 1%nat
    else repo_count e t r d.
Proof.
  intros Hrow; unfold insert_repo, repo_count; rewrite Hrow; simpl.
  rewrite filter_app, length_app; simpl.
  change (repo_has_key e t r row)
    with (key_eqb (r_email row) (r_task row) (r_round row) e t r).
  destruct (key_eqb (r_email row) (r_task row) (r_round row) e t r) eqn:Hk.
  - apply key_eqb_true in Hk; destruct Hk as (-> & -> & ->).
    rewrite replaced_key_gone; reflexivity.
  - rewrite other_keys_kept; [simpl; lia|].
    intros x Hx; unfold repo_has_key in *.
    apply key_eqb_true in Hx; destruct Hx as (-> & -> & ->); exact Hk.
Qed.

Lemma insert_repo_unique (now : string) (rd : repo_data) (d : database) :
  repos_unique d -> repos_unique (snd (insert_repo now rd d)).
Proof.
  intros Hd e t r.
  destruct (repo_row_of now (seq_repos d + 1) rd) as [row|] eqn:Hrow.
  - rewrite (@repo_count_after_insert now rd d row e t r Hrow).
    destruct (key_eqb _ _ _ e t r); [lia|apply Hd].
  - unfold insert_repo; rewrite Hrow; apply Hd.
Qed.

Lemma repos_unique_ext (d d' : database) :
  repos d' = repos d -> repos_unique d -> repos_unique d'.
Proof.
  intros Heq Hd e t r; unfold repo_count; rewrite Heq; apply Hd.
Qed.

Lemma receive_notification_unique (now : string)
      (data : option EvaluationApi.notification) (d : database) :
  repos_unique d ->
  repos_unique (snd (EvaluationApi.receive_notification now data d)).
Proof.
  intros Hd; unfold EvaluationApi.receive_notification.
  destruct data as [n|]; [|exact Hd].
  destruct (EvaluationApi.empty n); [exact Hd|].
  destruct (EvaluationApi.first_missing n); [exact Hd|].
  destruct (get_tasks _ _ d) as [rows|]; [|exact Hd].
  destruct (EvaluationApi.matching_task _ _); [|exact Hd].
  match goal with
  | |- context [insert_repo ?a ?b ?c] =>
      pose proof (@insert_repo_unique a b c Hd) as H;
      destruct (insert_repo a b c) as [[|] d']
  end; exact H.
Qed.

Lemma perform_repos_unique (d : database) (o : operation) :
  repos_unique d -> repos_unique (perform d o).
Proof.
  intros Hd; destruct o as [now td|now data|w url file|w url|w n]; simpl.
  - eapply repos_unique_ext; [apply insert_task_frame|exact Hd].
  - apply receive_notification_unique; exact Hd.
  - destruct file as [rows|]; simpl; [|exact Hd].
    apply (@process_rows_preserves repos_unique w url rows _); [|exact Hd].
    intros now td d0 H0.
    eapply repos_unique_ext; [apply insert_task_frame|exact H0].
  - rewrite round2_sweep_idle; exact Hd.
  - apply (@retry_failed_preserves w repos_unique n (start d)); exact Hd.
Qed.

(** X1: there is at most one Submission row per (email, task, round)
    after any sequence of upserts, notifications and sweeps on a fresh
    store; a further [insert_repo] keeps it so, and when it stores its
    row the earlier Submission under that key is deleted: the latest
    submission replaces the prior one. *)
Theorem one_submission_per_key (ops : list operation) (now : string)
        (rd : repo_data) :
  let d := perform_all ops init_database in
  let d' := snd (insert_repo now rd d) in
  repos_unique d
  /\ repos_unique d'
  /\ forall row,
       repo_row_of now (seq_repos d + 1) rd = Some row ->
       repos d'
       = (filter (fun old => negb (repo_has_key (r_email row) (r_task row)
                                                (r_round row) old))
                 (repos d) ++ [row])%list
       /\ repo_count (r_email row) (r_task row) (r_round row) d' = 1%nat.
Proof.
  intros d d'.
  assert (repos_unique d) as Hd.
  { unfold d, perform_all.
    assert (repos_unique init_database) as H0
        by (intros e t r; unfold repo_count; simpl; lia).
    revert H0; generalize init_database.
    induction ops as [|o ops IH]; intros d0 H0; simpl;
      [exact H0 | apply IH, perform_repos_unique, H0]. }
  split; [exact Hd|].
  split; [apply insert_repo_unique; exact Hd|].
  intros row Hrow; split.
  - unfold d', insert_repo; rewrite Hrow; reflexivity.
  - unfold d'; rewrite (@repo_count_after_insert now rd d row _ _ _ Hrow).
    rewrite key_eqb_refl; reflexivity.
Qed.

(** X2: the three sweeps write to the Task table only: the Submission
    and Result rows are the same after a round-1 sweep, a round-2 sweep
    and a retry sweep as before. *)
Theorem sweeps_write_tasks_only (world : oracle) (evaluation_url : string)
        (file : option (list Round1.csv_row)) (max_retries : Z)
        (d : database) :
  let after1 :=
    db (snd (Round1.process_submissions world evaluation_url file (start d)))
  in
  let after2 :=
    db (snd (Round2.process_round1_completions world evaluation_url
                                               (start d))) in
  let after3 :=
    db (snd (Round2.retry_failed_round2_tasks world max_retries (start d)))
  in
  (repos after1 = repos d /\ results after1 = results d)
  /\ (repos after2 = repos d /\ results after2 = results d)
  /\ (repos after3 = repos d /\ results after3 = results d).
Proof.
  cbv zeta; split; [|split].
  - destruct file as [rows|]; simpl; [|auto].
    apply (@process_rows_preserves
             (fun d' => repos d' = repos d /\ results d' = results d)
             world evaluation_url rows _); [|simpl; auto].
    intros now td d0 [H1 H2].
    destruct (insert_task_frame now td d0) as [H3 H4].
    rewrite H3, H4; auto.
  - rewrite round2_sweep_idle; auto.
  - apply (@retry_failed_preserves
             world (fun d' => repos d' = repos d /\ results d' = results d)
             max_retries (start d)); simpl; auto.
Qed.

End Frames.

(* ================================================================== *)
(** * Reading back what was written *)
(* ================================================================== *)

Section RoundTrips.
Import Database Props More.

Lemma filter_nonempty {A : Type} (f : A -> bool) (l : list A) (x : A) :
  In x l -> f x = true ->
  Z.ltb 0 (Z.of_nat (List.length (filter f l))) = true.
Proof.
  intros Hin Hx.
  assert (In x (filter f l)) as H by (apply filter_In; auto).
  destruct (filter f l); [destruct H|reflexivity].
Qed.

(** A stored row is returned by [get_tasks] for its own email and
    round, whether or not the filters are in the query. *)
Lemma get_tasks_in (e : string) (r : Z) (d : database) (row : task_row) :
  In row (tasks d) -> t_email row = e -> to_Z (t_round row) = r ->
  exists rows,
    get_tasks (Some e) (Some r) d = Returned rows /\ In row rows.
Proof.
  intros Hin <- <-; unfold get_tasks; simpl binds.
  rewrite (in_range (t_round row)), andb_false_r.
  eexists; split; [reflexivity|].
  apply filter_In; split; [exact Hin|].
  simpl; rewrite String.eqb_refl, Z.eqb_refl.
  destruct (Py.truthy_str (t_email row)),
    (Py.truthy_int (to_Z (t_round row))); reflexivity.
Qed.

(** [get_tasks] returns stored rows only. *)
Lemma get_tasks_stored (email : option string) (round_num : option Z)
      (d : database) (rows : list task_row) (row : task_row) :
  get_tasks email round_num d = Returned rows ->
  In row rows -> In row (tasks d).
Proof.
  unfold get_tasks; destruct (_ && _)%bool; [discriminate|].
  intros H; injection H as <-.
  intros Hin; apply filter_In in Hin; tauto.
Qed.

(** A round that does not bind is not 0, so its filter is in the
    query. *)
Lemma unbound_round_truthy (round_num : option Z) :
  binds round_num = false -> Py.truthy_opt Py.truthy_int round_num = true.
Proof.
  destruct round_num as [r|]; simpl; [|discriminate].
  unfold Py.truthy_int; destruct (Z.eqb_spec r 0) as [->|]; [|reflexivity].
  intros H; discriminate H.
Qed.

(** X3: [get_tasks] raises [OverflowError] exactly when the round it is
    given does not fit in 64 bits; otherwise the rows it returns are
    exactly the stored rows that agree with each filter that is truthy.
    [None], the empty email and the round 0 select every row. *)
Theorem get_tasks_selects (email : option string) (round_num : option Z)
        (d : database) :
  match get_tasks email round_num d with
  | OverflowError => binds round_num = false
  | Returned rows =>
      binds round_num = true
      /\ forall row,
          In row rows
          <-> In row (tasks d)
              /\ (Py.truthy_opt Py.truthy_str email = true ->
                  Some (t_email row) = email)
              /\ (Py.truthy_opt Py.truthy_int round_num = true ->
                  Some (to_Z (t_round row)) = round_num)
  end
  /\ get_tasks None None d = Returned (tasks d)
  /\ get_tasks (Some ""%string) (Some 0) d = Returned (tasks d).
Proof.
  split; [|split].
  - unfold get_tasks.
    destruct (binds round_num) eqn:Hb.
    + rewrite andb_false_r; split; [reflexivity|].
      intros row; rewrite filter_In.
      destruct email as [e|], round_num as [r|]; simpl;
        try destruct (Py.truthy_str e); try destruct (Py.truthy_int r);
        simpl;
        try destruct (String.eqb_spec (t_email row) e);
        try destruct (Z.eqb_spec (to_Z (t_round row)) r); subst;
        intuition (try discriminate; try congruence).
    + rewrite (unbound_round_truthy _ Hb); reflexivity.
  - unfold get_tasks; simpl.
    induction (tasks d) as [|x l IH]; simpl; [reflexivity|].
    injection IH as IH; rewrite IH; reflexivity.
  - unfold get_tasks; simpl.
    induction (tasks d) as [|x l IH]; simpl; [reflexivity|].
    injection IH as IH; rewrite IH; reflexivity.
Qed.

(** The statement is not executed when a NOT NULL value is missing or
    an [int] does not bind. *)
Lemma task_row_of_none (now : string) (id : Z) (td : task_data) :
  td_email td = None \/ td_task td = None \/ td_round td = None
  \/ td_nonce td = None \/ td_brief td = None
  \/ td_evaluation_url td = None \/ td_endpoint td = None
  \/ td_secret td = None
  \/ binds (td_round td) = false \/ binds (td_statuscode td) = false ->
  task_row_of now id td = None.
Proof.
  intros H; unfold task_row_of, not_null.
  assert (binds (td_round td) = false -> bind_round (td_round td) = None)
    as Hr
      by (destruct (td_round td) as [r|]; simpl;
          [apply bind_int_overflow|reflexivity]).
  assert (td_round td = None -> bind_round (td_round td) = None) as Hn
      by (intros ->; reflexivity).
  assert (binds (td_statuscode td) = false ->
          bind_nullable (td_statuscode td) = None) as Hs
      by (unfold bind_nullable; intros ->; reflexivity).
  destruct (td_email td), (td_task td), (bind_round (td_round td)),
    (td_nonce td), (td_brief td), (td_evaluation_url td), (td_endpoint td),
    (bind_nullable (td_statuscode td)), (td_secret td);
    try reflexivity; exfalso; intuition discriminate.
Qed.

(** X4: [insert_task] stores a row exactly when none of the eight
    NOT NULL values is [None] and both integers, the round and the
    status code, fit in 64 bits.  Then it answers [True], the row holds
    the given values under a fresh id, and it can be read back:
    [task_exists] on its key is [True] and [get_tasks] on its email and
    round returns it.  Otherwise (a missing value, or an integer that
    SQLite cannot hold) it answers [False] and the store is as
    before. *)
Theorem insert_task_round_trip (now : string) (td : task_data)
        (d : database) :
  let out := insert_task now td d in
  (forall e t r n b u ep sec,
      td_email td = Some e -> td_task td = Some t -> td_round td = Some r ->
      td_nonce td = Some n -> td_brief td = Some b ->
      td_evaluation_url td = Some u -> td_endpoint td = Some ep ->
      td_secret td = Some sec ->
      fits r = true -> binds (td_statuscode td) = true ->
      exists round : int64,
        to_Z round = r
        /\ let row :=
             {| t_id := seq_tasks d + 1; t_timestamp := now; t_email := e;
                t_task := t; t_round := round; t_nonce := n; t_brief := b;
                t_attachments := Some (td_attachments td);
                t_checks := Some (td_checks td);
                t_evaluation_url := u; t_endpoint := ep;
                t_statuscode := td_statuscode td; t_secret := sec |} in
           fst out = true
           /\ In row (tasks (snd out))
           /\ task_exists (Some e) (Some t) (Some r) (snd out)
              = Returned true
           /\ exists rows,
               get_tasks (Some e) (Some r) (snd out) = Returned rows
               /\ In row rows)
  /\ (td_email td = None \/ td_task td = None \/ td_round td = None
      \/ td_nonce td = None \/ td_brief td = None
      \/ td_evaluation_url td = None \/ td_endpoint td = None
      \/ td_secret td = None
      \/ binds (td_round td) = false \/ binds (td_statuscode td) = false ->
      out = (false, d)).
Proof.
  cbv zeta; split.
  - intros e t r n b u ep sec He Ht Hr Hn Hb Hu Hep Hsec Hfits Hcode.
    destruct (@bind_int_fits r Hfits) as (round & Hbind & Hround).
    exists round; split; [exact Hround|].
    unfold insert_task, task_row_of, not_null, bind_nullable.
    rewrite He, Ht, Hr, Hn, Hb, Hu, Hep, Hsec, Hcode; simpl.
    rewrite Hbind; simpl.
    set (row := {| t_id := seq_tasks d + 1; t_timestamp := now;
                   t_email := e; t_task := t; t_round := round;
                   t_nonce := n;
                   t_brief := b; t_attachments := Some (td_attachments td);
                   t_checks := Some (td_checks td); t_evaluation_url := u;
                   t_endpoint := ep; t_statuscode := td_statuscode td;
                   t_secret := sec |}).
    assert (In row (filter (fun old => negb (task_has_key e t round old))
                           (tasks d) ++ [row])) as Hin
        by (apply in_or_app; right; left; reflexivity).
    split; [reflexivity|].
    split; [exact Hin|].
    split.
    + unfold task_exists; simpl binds; rewrite Hfits; simpl.
      f_equal.
      apply (filter_nonempty _ _ row Hin); simpl.
      rewrite !String.eqb_refl, Hround, Z.eqb_refl; reflexivity.
    + apply get_tasks_in; [exact Hin|reflexivity|exact Hround].
  - intros H; unfold insert_task.
    rewrite (@task_row_of_none now (seq_tasks d + 1) td H); reflexivity.
Qed.

End RoundTrips.

(* ================================================================== *)
(** * The gate: answers, frame, re-submission *)
(* ================================================================== *)

Section GateAnswers.
Import Database Props More EvaluationApi.

(** The gate on a notification with all seven values, a non-empty email
    and a non-zero round, for an issued Task: the answer and the store. *)
Lemma gate_accepts (now : string) (d : notification) (e t : string) (r : Z)
      (n u c p : string) (db : database) :
  n_email d = Val e -> n_task d = Val t -> n_round d = Val r ->
  n_nonce d = Val n -> n_repo_url d = Val u -> n_commit_sha d = Val c ->
  n_pages_url d = Val p ->
  e <> ""%string -> r <> 0 ->
  issued e t r n db ->
  receive_notification now (Some d) db
  = ((Success "Repo submission received", 200),
     snd (insert_repo now
            {| rd_email := Some e; rd_task := Some t; rd_round := Some r;
               rd_nonce := Some n; rd_repo_url := Some u;
               rd_commit_sha := Some c; rd_pages_url := Some p |} db)).
Proof.
  intros He Ht Hr Hn Hu Hc Hp Hne Hnr Hiss.
  pose proof (@issued_fits e t r n db Hiss) as Hfits.
  destruct (@bind_int_fits r Hfits) as (i & Hi & _).
  apply (@matching_task_issued d e t r n db Ht Hn Hne Hnr) in Hiss.
  destruct Hiss as (rows & row & Hrows & Hrow).
  unfold receive_notification, empty, first_missing.
  rewrite He, Ht, Hr, Hn, Hu, Hc, Hp; simpl.
  rewrite Hrows, Hrow.
  unfold insert_repo, repo_row_of, not_null, bind_round; simpl.
  rewrite Hi; reflexivity.
Qed.

(** The store after an accepted notification for a round that fits:
    the rows under the key are replaced by the new row. *)
Lemma insert_repo_key (now e t : string) (round : int64)
      (n u c p : string) (db : database) :
  filter (repo_has_key e t round)
         (repos (snd (insert_repo now
                        {| rd_email := Some e; rd_task := Some t;
                           rd_round := Some (to_Z round);
                           rd_nonce := Some n; rd_repo_url := Some u;
                           rd_commit_sha := Some c;
                           rd_pages_url := Some p |} db)))
  = [ {| r_id := seq_repos db + 1; r_timestamp := now;
         r_email := e; r_task := t; r_round := round; r_nonce := n;
         r_repo_url := u; r_commit_sha := c; r_pages_url := p |} ].
Proof.
  unfold insert_repo, repo_row_of, not_null, bind_round; simpl.
  rewrite bind_int_to_Z; simpl.
  rewrite filter_app, replaced_key_gone; simpl.
  unfold repo_has_key; simpl; rewrite key_eqb_refl.
  reflexivity.
Qed.

(** X5: the gate answers 200, 400 or 500; it never touches the Task and
    Result tables and changes the store only when it answers 200.  A
    [null] body and a body without keys are answered 400 with
    "No JSON data provided"; a body that lacks one of the seven keys is
    answered 400 with the name of the first missing key; a body with the
    seven keys whose round does not fit in 64 bits is answered 500, from
    the handler's [except].  An accepted notification always agrees with
    a stored Task on task id and nonce. *)
Theorem gate_answers (now : string) (data : option notification)
        (db : database) :
  let out := receive_notification now data db in
  (snd (fst out) = 200 \/ snd (fst out) = 400 \/ snd (fst out) = 500)
  /\ tasks (snd out) = tasks db
  /\ results (snd out) = results db
  /\ (snd (fst out) <> 200 -> snd out = db)
  /\ (data = None -> fst out = (Error "No JSON data provided", 400))
  /\ (forall d,
         data = Some d -> empty d = true ->
         fst out = (Error "No JSON data provided", 400))
  /\ (forall d f,
         data = Some d -> empty d = false -> first_missing d = Some f ->
         fst out = (Error ("Missing required field: " ++ f), 400))
  /\ (forall d r,
         data = Some d -> first_missing d = None ->
         n_round d = Val r -> fits r = false ->
         fst out
         = (Error ("Internal server error: " ++ overflow_text), 500))
  /\ (snd (fst out) = 200 ->
      exists d row,
        data = Some d /\ In row (tasks db)
        /\ value (n_task d) = Some (t_task row)
        /\ value (n_nonce d) = Some (t_nonce row)).
Proof.
  cbv zeta; unfold receive_notification.
  destruct data as [d|];
    [|simpl; repeat split; try tauto; try discriminate;
      intros; discriminate].
  assert (empty d = true -> first_missing d <> None) as Hkeys.
  { unfold empty, first_missing; destruct (missing (n_email d));
      [discriminate|simpl; discriminate]. }
  destruct (empty d) eqn:Hempty.
  { simpl; repeat split; try tauto; try discriminate.
    - intros d0 f H; injection H as <-; congruence.
    - intros d0 r H; injection H as <-; intros H; destruct (Hkeys eq_refl H). }
  clear Hkeys.
  destruct (first_missing d) as [f|] eqn:Hmiss.
  { simpl; repeat split; try tauto; try discriminate.
    - intros d0 H; injection H as <-; congruence.
    - intros d0 f0 H; injection H as <-; rewrite Hmiss; intros _ H.
      injection H as <-; reflexivity.
    - intros d0 r H; injection H as <-; congruence. }
  destruct (get_tasks _ _ db) as [rows|] eqn:Hget.
  2:{ simpl; repeat split; try tauto; try discriminate.
      - intros d0 H; injection H as <-; congruence.
      - intros d0 f H; injection H as <-; congruence. }
  assert (forall d0 r,
             Some d = Some d0 -> first_missing d0 = None ->
             n_round d0 = Val r -> fits r = false -> False) as Hover.
  { intros d0 r H; injection H as <-; intros _ Hr Hfits.
    rewrite Hr in Hget; simpl in Hget.
    rewrite (@get_tasks_overflow _ r db Hfits) in Hget; discriminate Hget. }
  destruct (matching_task d _) as [row|] eqn:Hrow.
  2:{ simpl; repeat split; try tauto; try discriminate.
      - intros d0 H; injection H as <-; congruence.
      - intros d0 f H; injection H as <-; congruence.
      - intros d0 r H1 H2 H3 H4; destruct (Hover d0 r H1 H2 H3 H4). }
  apply find_some in Hrow; destruct Hrow as [Hin Hmatch].
  assert (In row (tasks db)) as Hstored.
  { apply (@get_tasks_stored _ _ db rows row Hget Hin). }
  apply andb_true_iff in Hmatch; destruct Hmatch as [Htask Hnonce].
  match goal with
  | |- context [insert_repo ?a ?b ?c] =>
      destruct (insert_repo_frame a b c) as [Hf1 Hf2];
      assert (fst (insert_repo a b c) = false -> snd (insert_repo a b c) = c)
        as Hfail
          by (unfold insert_repo; destruct (repo_row_of _ _ b);
              [discriminate|reflexivity]);
      destruct (insert_repo a b c) as [[|] db']
  end; simpl in *.
  - split; [tauto|]. split; [exact Hf1|]. split; [exact Hf2|].
    split; [tauto|].
    split; [discriminate|].
    split; [intros d0 H; injection H as <-; congruence|].
    split; [intros d0 f H; injection H as <-; rewrite Hmiss; discriminate|].
    split; [intros d0 r H1 H2 H3 H4; destruct (Hover d0 r H1 H2 H3 H4)|].
    intros _; exists d, row.
    unfold py_eq in Htask, Hnonce.
    destruct (value (n_task d)) as [t|]; [|discriminate].
    destruct (value (n_nonce d)) as [n|]; [|discriminate].
    apply String.eqb_eq in Htask, Hnonce; subst; auto.
  - split; [tauto|]. split; [exact Hf1|]. split; [exact Hf2|].
    split; [intros _; apply Hfail; reflexivity|].
    split; [discriminate|].
    split; [intros d0 H; injection H as <-; congruence|].
    split; [intros d0 f H; injection H as <-; rewrite Hmiss; discriminate|].
    split; [intros d0 r H1 H2 H3 H4; destruct (Hover d0 r H1 H2 H3 H4)|].
    discriminate.
Qed.

(** X6: a nonce is not used up by a Submission.  After a notification
    for an issued Task has been accepted, a second one with the same
    email, task, round and nonce is accepted as well, and its row
    replaces the first: the one Submission under the key then carries
    the URLs and the commit of the second notification. *)
Theorem resubmission_replaces (now1 now2 : string) (d1 d2 : notification)
        (e t : string) (r : Z) (n u1 c1 p1 u2 c2 p2 : string)
        (db : database) :
  n_email d1 = Val e -> n_task d1 = Val t -> n_round d1 = Val r ->
  n_nonce d1 = Val n -> n_repo_url d1 = Val u1 ->
  n_commit_sha d1 = Val c1 -> n_pages_url d1 = Val p1 ->
  n_email d2 = Val e -> n_task d2 = Val t -> n_round d2 = Val r ->
  n_nonce d2 = Val n -> n_repo_url d2 = Val u2 ->
  n_commit_sha d2 = Val c2 -> n_pages_url d2 = Val p2 ->
  e <> ""%string -> r <> 0 ->
  issued e t r n db ->
  let first := receive_notification now1 (Some d1) db in
  let second := receive_notification now2 (Some d2) (snd first) in
  snd (fst first) = 200
  /\ snd (fst second) = 200
  /\ exists round : int64,
      to_Z round = r
      /\ filter (repo_has_key e t r) (repos (snd second))
         = [ {| r_id := seq_repos db + 1 + 1; r_timestamp := now2;
                r_email := e; r_task := t; r_round := round; r_nonce := n;
                r_repo_url := u2; r_commit_sha := c2; r_pages_url := p2 |} ].
Proof.
  intros He1 Ht1 Hr1 Hn1 Hu1 Hc1 Hp1 He2 Ht2 Hr2 Hn2 Hu2 Hc2 Hp2 Hne Hnr
         Hiss.
  cbv zeta.
  rewrite (@gate_accepts now1 d1 e t r n u1 c1 p1 db
             He1 Ht1 Hr1 Hn1 Hu1 Hc1 Hp1 Hne Hnr Hiss).
  cbn [fst snd].
  set (db1 := snd (insert_repo now1 _ db)).
  assert (issued e t r n db1) as Hiss1.
  { destruct Hiss as (row & Hin & Hrow).
    exists row; split; [|exact Hrow].
    unfold db1; rewrite (proj1 (insert_repo_frame _ _ _)); exact Hin. }
  rewrite (@gate_accepts now2 d2 e t r n u2 c2 p2 db1
             He2 Ht2 Hr2 Hn2 Hu2 Hc2 Hp2 Hne Hnr Hiss1).
  cbn [fst snd].
  split; [reflexivity|split; [reflexivity|]].
  destruct (@bind_int_fits r (@issued_fits e t r n db Hiss))
    as (round & Hbind & Hround).
  exists round; split; [exact Hround|].
  subst r.
  rewrite (@insert_repo_key now2 e t round n u2 c2 p2 db1).
  unfold db1, insert_repo, repo_row_of, not_null, bind_round; simpl.
  rewrite Hbind; reflexivity.
Qed.

End GateAnswers.

(* ================================================================== *)
(** * One evaluation pass: which checks, which rows *)
(* ================================================================== *)

Section EvaluationPass.
Import Database Props More Evaluate.
Local Open Scope float_scope.

Variable self : evaluator.


(** A result built by [result] is stored unless its score is a NaN. *)
Lemma insert_one_result (now : string) (s : repo_row) (name : string)
      (score : float) (reason : string) (d : database) :
  let d' := snd (insert_result now (result s name score reason) d) in
  List.length (results d')
  = (List.length (results d)
     + if PrimFloat.is_nan score then 0 else 1)%nat
  /\ tasks d' = tasks d /\ repos d' = repos d.
Proof.
  unfold insert_result, result_row_of, not_null, bind_real, bind_round;
    simpl.
  rewrite bind_int_to_Z; simpl.
  destruct (PrimFloat.is_nan score); simpl;
    rewrite ?length_app; simpl; repeat split; lia.
Qed.

Lemma store_results_rows (env : run) (s : repo_row) (rs : list result_data)
      (n : nat) (d : database) :
  Forall (fun ed => exists name score reason,
              ed = result s name score reason) rs ->
  let d' := store_results env n rs d in
  List.length (results d')
  = (List.length (results d) + List.length (filter storable rs))%nat
  /\ tasks d' = tasks d /\ repos d' = repos d.
Proof.
  intros Hrs; revert n d; induction Hrs as [|r rs Hr _ IH]; intros n d;
    simpl.
  - repeat split; lia.
  - destruct Hr as (name & score & reason & ->).
    destruct (IH (S n)
                 (snd (insert_result (isoformat env n)
                                     (result s name score reason) d)))
      as (Hlen & Htasks & Hrepos).
    destruct (insert_one_result (isoformat env n) s name score reason d)
      as (Hlen1 & Htasks1 & Hrepos1).
    rewrite Hlen, Htasks, Hrepos, Hlen1, Htasks1, Hrepos1.
    change (storable (result s name score reason))
      with (negb (PrimFloat.is_nan score)).
    destruct (PrimFloat.is_nan score); simpl; repeat split; lia.
Qed.

Lemma evaluation_results_built (env : run) (s : repo_row) :
  Forall (fun ed => exists name score reason,
              ed = result s name score reason)
         (repository_results self env s ++ pages_results self env s)%list.
Proof.
  unfold repository_results, pages_results.
  destruct (check_mit_license env), (check_readme_quality self env),
    (check_code_quality self env), (check_pages_accessibility env) as [[|] ?],
    (dynamic_check_playwright self env (r_pages_url s) (r_task s)),
    (clone_repository env); simpl; repeat constructor; eauto.
Qed.

(** The score of the dynamic check, case by case. *)
Lemma dynamic_score_cases (env : run) (pages_url task : string) :
  fst (dynamic_check_playwright self env pages_url task)
  = (if negb (playwright_available self) then 0.5
     else match goto env pages_url, drive_browser env pages_url task with
          | Ok p, Ok _ =>
              probe_sum (title_present p) (content_present p)
                        (family_probe env pages_url task p)
          | _, _ => 0.0
          end).
Proof.
  unfold dynamic_check_playwright.
  destruct (playwright_available self); simpl; [|reflexivity].
  pose proof (drive_browser_score env pages_url task) as H.
  destruct (goto env pages_url) as [p|e],
    (drive_browser env pages_url task) as [[score passed]|e'];
    simpl; try reflexivity; [exact H|contradiction].
Qed.

Lemma dynamic_score_not_nan (env : run) (pages_url task : string) :
  PrimFloat.is_nan (fst (dynamic_check_playwright self env pages_url task))
  = false.
Proof.
  rewrite dynamic_score_cases.
  destruct (playwright_available self); simpl; [|reflexivity].
  destruct (goto env pages_url) as [p|e]; [|reflexivity].
  destruct (drive_browser env pages_url task); [|reflexivity].
  destruct (title_present p), (content_present p),
    (family_probe env pages_url task p); reflexivity.
Qed.

(** The rubric score is never a NaN. *)
Lemma rubric_not_nan (readme_content : string) :
  PrimFloat.is_nan (Py.min (total (readme_criteria readme_content)) 1.0)
  = false.
Proof.
  unfold readme_criteria.
  destruct (Z.ltb 500 (Py.len readme_content)),
    (Py.contains "# " readme_content),
    (any_in ["setup"; "installation"; "usage"]%string
            (Py.lower readme_content)),
    (any_in ["license"; "mit"]%string (Py.lower readme_content)),
    (Py.contains "```" readme_content); reflexivity.
Qed.

(** X9: a pass adds one Result row for each of its results whose score
    is not a NaN, and leaves the Task and Submission tables alone.  An
    evaluator without a chat model never produces a NaN, so it stores
    every result of every pass.  (A pass that raises has no results and
    adds no row.) *)
Theorem evaluation_stores (env : run) (s : repo_row) (d : database) :
  let out := evaluate_repository self env s d in
  match fst out with
  | Ok rs =>
      List.length (results (snd out))
      = (List.length (results d) + List.length (filter storable rs))%nat
  | Raised _ => results (snd out) = results d
  end
  /\ tasks (snd out) = tasks d
  /\ repos (snd out) = repos d
  /\ (openai_available self = false ->
      match fst out with
      | Ok rs =>
          List.length (results (snd out))
          = (List.length (results d) + List.length rs)%nat
      | Raised _ => results (snd out) = results d
      end).
Proof.
  cbv zeta; unfold evaluate_repository.
  destruct (clone_escapes env) as [e|]; cbn [fst snd];
    [split; [reflexivity|split; [reflexivity|split; [reflexivity|]]];
     intros _; reflexivity|].
  pose proof (store_results_rows env 0 d (evaluation_results_built env s))
    as H.
  cbv zeta in H; destruct H as (Hlen & Htasks & Hrepos).
  split; [exact Hlen|split; [exact Htasks|split; [exact Hrepos|]]].
  intros Hno; rewrite Hlen; f_equal; f_equal.
  clear Hlen Htasks Hrepos.
  unfold repository_results, pages_results, check_readme_quality,
    check_code_quality, check_mit_license.
  rewrite Hno; simpl negb; cbv iota.
  pose proof (dynamic_score_not_nan env (r_pages_url s) (r_task s)) as Hdyn.
  destruct (dynamic_check_playwright self env (r_pages_url s) (r_task s))
    as [dynamic_score dynamic_reason]; simpl in Hdyn.
  destruct (clone_repository env).
  - destruct (scan_license_files env license_files);
      destruct (read "README.md" (files env)) as [[readme_content|e]|];
      try pose proof (rubric_not_nan readme_content) as Hrub;
      destruct (check_pages_accessibility env) as [[|] reason];
      simpl; unfold storable; simpl; rewrite ?Hrub, ?Hdyn; reflexivity.
  - destruct (check_pages_accessibility env) as [[|] reason];
      simpl; unfold storable; simpl; rewrite ?Hdyn; reflexivity.
Qed.

End EvaluationPass.

(* ================================================================== *)
(** * The quality checks *)
(* ================================================================== *)

Section QualityChecks.
Import Database Props More Evaluate.
Local Open Scope float_scope.


Lemma clamped (score : float) :
  let c := Py.min (Py.max score 0.0) 1.0 in
  PrimFloat.ltb c 0.0 = false /\ PrimFloat.ltb 1.0 c = false.
Proof.
  unfold Py.min, Py.max.
  destruct (PrimFloat.ltb score 0.0) eqn:Hlow; [split; reflexivity|].
  destruct (PrimFloat.ltb 1.0 score) eqn:Hhigh; [split; reflexivity|].
  split; assumption.
Qed.

Lemma chat_score_in_range (r : reply) (default on_error : string) :
  let c := fst (chat_score r default on_error) in
  PrimFloat.ltb c 0.0 = false /\ PrimFloat.ltb 1.0 c = false.
Proof.
  destruct r as [e|result [score|] rest]; simpl;
    [split; reflexivity|apply clamped|split; reflexivity].
Qed.

(** X11: whatever the chat model answers, the README score and the code
    score never compare below 0.0 or above 1.0; when the call to the
    model fails, or its answer does not start with a number, both checks
    fall back to 0.5. *)
Theorem quality_scores_in_range (self : evaluator) (env : run) :
  (PrimFloat.ltb (fst (check_readme_quality self env)) 0.0 = false
   /\ PrimFloat.ltb 1.0 (fst (check_readme_quality self env)) = false)
  /\ (PrimFloat.ltb (fst (check_code_quality self env)) 0.0 = false
      /\ PrimFloat.ltb 1.0 (fst (check_code_quality self env)) = false)
  /\ (forall default on_error e result rest,
         fst (chat_score (Failed e) default on_error) = 0.5
         /\ fst (chat_score (Answer result None rest) default on_error) = 0.5).
Proof.
  split; [|split].
  - unfold check_readme_quality.
    destruct (read "README.md" (files env)) as [[readme_content|e]|];
      try (split; reflexivity).
    destruct (openai_available self); simpl negb; cbv iota;
      [apply chat_score_in_range|].
    cbn [fst]; unfold readme_criteria.
    destruct (Z.ltb 500 (Py.len readme_content)),
      (Py.contains "# " readme_content),
      (any_in ["setup"; "installation"; "usage"]%string
              (Py.lower readme_content)),
      (any_in ["license"; "mit"]%string (Py.lower readme_content)),
      (Py.contains "```" readme_content); split; reflexivity.
  - unfold check_code_quality.
    destruct (openai_available self); simpl negb; cbv iota;
      [|split; reflexivity].
    destruct (code_files env); [split; reflexivity|].
    destruct (negb (Py.truthy_str _)); [split; reflexivity|].
    apply chat_score_in_range.
  - intros; split; reflexivity.
Qed.

(** X12: every task id the round-1 generator can build selects a probe
    of the dynamic check: the ids of the captcha family the URL probe,
    those of the weather family the city probe, those of the todo
    family the controls probe. *)
Theorem round1_ids_have_probes (world : World.oracle) (env : run)
        (pages_url brief : string) (attachments : option (list attachment))
        (p : page) (acc : float * list string) :
  probe_task env pages_url
    (Round1.generate_task_id world "captcha-solver" brief attachments) p acc
  = probe_parameter env (pages_url ++ "?url=test") "test"
                    "URL parameter handling" acc
  /\ probe_task env pages_url
       (Round1.generate_task_id world "weather-dashboard" brief attachments)
       p acc
     = probe_parameter env (pages_url ++ "?city=London") "london"
                       "city parameter handling" acc
  /\ probe_task env pages_url
       (Round1.generate_task_id world "todo-manager" brief attachments) p acc
     = Ok (probe_todo p acc)
  /\ map fst Round1.get_templates
     = ["captcha-solver"; "weather-dashboard"; "todo-manager"]%string.
Proof.
  repeat split; reflexivity.
Qed.

End QualityChecks.

(* ================================================================== *)
(** * The loop over all repositories *)
(* ================================================================== *)

Section EvaluateAll.
Import Database Props More Evaluate Pipeline.

Variable self : evaluator.







End EvaluateAll.

(* ================================================================== *)
(** * The round-1 sweep, line by line *)
(* ================================================================== *)

Section Round1Sweep.
Import Database World Props More.

Variable world : oracle.
Variable evaluation_url : string.

Lemma select_template_some (email date_hour : string) :
  exists template_id template,
    Round1.select_template world email date_hour
    = Some (template_id, template).
Proof.
  unfold Round1.select_template.
  pose proof (Nat.mod_upper_bound (seeded world (email ++ date_hour))
                (List.length Round1.get_templates)) as H.
  change (List.length Round1.get_templates) with 3%nat in *.
  assert (3 <> 0)%nat as H3 by discriminate.
  specialize (H H3).
  destruct (Nat.modulo (seeded world (email ++ date_hour)) 3)
    as [|[|[|n]]]; simpl; eauto.
  exfalso; lia.
Qed.

(** A status code of three digits binds. *)
Lemma requests_post_binds (answer : option Z) :
  binds (requests_post answer) = true.
Proof.
  unfold requests_post; destruct answer as [status_code|]; [|reflexivity].
  destruct (Z.leb_spec 100 status_code), (Z.leb_spec status_code 999);
    simpl; try reflexivity.
  unfold fits; apply andb_true_iff; split; apply Z.leb_le; lia.
Qed.

(** The record of a delivery is stored when its round binds. *)
Lemma insert_task_record_ok (now : string) (body : payload)
      (endpoint : string) (answer : option Z) (d : database) :
  fits (p_round body) = true ->
  fst (insert_task now (Round1.task_record body endpoint
                                           (requests_post answer)) d)
  = true.
Proof.
  intros Hfits; destruct (@bind_int_fits _ Hfits) as (i & Hi & _).
  unfold insert_task, task_row_of, Round1.task_record, not_null, bind_round,
    bind_nullable; simpl.
  rewrite Hi, requests_post_binds; reflexivity.
Qed.

(** The row stored for the record of a delivery. *)
Lemma task_record_row (now : string) (body : payload) (endpoint : string)
      (answer : option Z) (d : database) :
  fst (insert_task now (Round1.task_record body endpoint answer) d) = true ->
  exists row,
    tasks (snd (insert_task now (Round1.task_record body endpoint answer) d))
    = (filter (fun old => negb (task_has_key (p_email body) (p_task body)
                                             (p_round body) old))
              (tasks d) ++ [row])%list
    /\ t_email row = p_email body /\ to_Z (t_round row) = p_round body
    /\ t_task row = p_task body /\ t_nonce row = p_nonce body
    /\ t_endpoint row = endpoint /\ t_statuscode row = answer.
Proof.
  unfold insert_task, task_row_of, Round1.task_record, not_null, bind_round,
    bind_nullable; simpl.
  pose proof (bind_int_spec (p_round body)) as Hround.
  destruct (bind_int (p_round body)) as [i|]; [|discriminate].
  destruct (binds answer); [|discriminate].
  intros _; simpl; rewrite Hround.
  eexists; split; [reflexivity|]; simpl; repeat split; auto.
Qed.

(** What one complete line does: one nonce, one request carrying it,
    one stored row, one second of pause, and the line counts as
    processed. *)
Lemma process_row_step (e ep sec : string) (c : Round1.counts) (s : state) :
  exists s' body answer,
    (forall rest,
        Round1.process_rows world evaluation_url
          ({| Round1.c_email := Some e; Round1.c_endpoint := Some ep;
              Round1.c_secret := Some sec |} :: rest) c s
        = Round1.process_rows world evaluation_url rest
            {| Round1.processed_count := Round1.processed_count c + 1;
               Round1.skipped_count := Round1.skipped_count c;
               Round1.error_count := Round1.error_count c |} s')
    /\ trace s'
       = (trace s ++ [Uuid4 (p_nonce body); Post (Py.strip ep) body answer;
                      Sleep 1])%list
    /\ p_email body = Py.strip e /\ p_secret body = Py.strip sec
    /\ p_round body = 1 /\ p_evaluation_url body = evaluation_url
    /\ fst (insert_task (isoformat world (step s + 3))
                        (Round1.task_record body (Py.strip ep) answer)
                        (db s)) = true
    /\ db s'
       = snd (insert_task (isoformat world (step s + 3))
                          (Round1.task_record body (Py.strip ep) answer)
                          (db s)).
Proof.
  cbn [Round1.process_rows Round1.c_email Round1.c_endpoint Round1.c_secret].
  unfold bind at 1, query; rewrite task_exists_round1.
  unfold Round1.generate_task, Round1.send_task, Round1.log_task, bind, tick,
    emit, sleep, ret, update; cbn [step db trace].
  destruct (select_template_some (Py.strip e) (strftime world (step s)))
    as (template_id & template & ->).
  cbn [step db trace].
  match goal with
  | |- context [insert_task ?now ?td (db s)] =>
      assert (fst (insert_task now td (db s)) = true) as Hok
          by (apply insert_task_record_ok; reflexivity);
      destruct (insert_task now td (db s)) as [success d'] eqn:Hins
  end.
  simpl in Hok; subst success.
  eexists; eexists; eexists.
  split; [intros rest; reflexivity|].
  cbn [trace db p_nonce p_email p_secret p_round p_evaluation_url].
  replace (step s + 3)%nat with (S (S (S (step s)))) by lia.
  rewrite Hins.
  rewrite <- !app_assoc; simpl.
  repeat split; reflexivity.
Qed.

Lemma process_rows_account (rows : list Round1.csv_row) (c : Round1.counts)
      (s : state) :
  forallb complete rows = true ->
  let out := Round1.process_rows world evaluation_url rows c s in
  exists new,
    trace (snd out) = (trace s ++ new)%list
    /\ fst out
       = Some {| Round1.processed_count :=
                   Round1.processed_count c + Z.of_nat (List.length rows);
                 Round1.skipped_count := Round1.skipped_count c;
                 Round1.error_count := Round1.error_count c |}
    /\ map (fun dl => (fst dl, p_email (snd dl), p_secret (snd dl),
                       p_round (snd dl)))
           (deliveries new)
       = map (fun row =>
                (Py.strip (match Round1.c_endpoint row with
                           | Some x => x | None => "" end),
                 Py.strip (match Round1.c_email row with
                           | Some x => x | None => "" end),
                 Py.strip (match Round1.c_secret row with
                           | Some x => x | None => "" end), 1)) rows
    /\ map (fun dl => p_nonce (snd dl)) (deliveries new) = minted new
    /\ pauses new = repeat 1 (List.length rows).
Proof.
  revert c s; induction rows as [|row rows IH]; intros c s Hrows.
  - exists []; simpl; rewrite app_nil_r, Z.add_0_r.
    destruct c; repeat split; reflexivity.
  - simpl in Hrows; apply andb_true_iff in Hrows.
    destruct Hrows as [Hrow Hrows].
    destruct row as [[e|] [ep|] [sec|]]; try discriminate Hrow.
    destruct (process_row_step e ep sec c s)
      as (s' & body & answer & Hstep & Htrace & He & Hsec & Hr & _).
    cbv zeta; rewrite Hstep.
    destruct (IH {| Round1.processed_count := Round1.processed_count c + 1;
                    Round1.skipped_count := Round1.skipped_count c;
                    Round1.error_count := Round1.error_count c |} s' Hrows)
      as (new & Hnew & Hcount & Hdel & Hmint & Hpause).
    exists ([Uuid4 (p_nonce body); Post (Py.strip ep) body answer; Sleep 1]
            ++ new)%list.
    split; [rewrite Hnew, Htrace, <- app_assoc; reflexivity|].
    split.
    { rewrite Hcount; cbn [Round1.processed_count Round1.skipped_count
                             Round1.error_count List.length].
      do 2 f_equal; lia. }
    cbn [app deliveries minted pauses flat_map map List.length repeat
         fst snd Round1.c_email Round1.c_endpoint Round1.c_secret].
    fold (deliveries new); fold (minted new); fold (pauses new).
    rewrite Hdel, Hmint, Hpause, He, Hsec, Hr.
    repeat split; reflexivity.
Qed.

(** X14: a round-1 sweep over a file whose lines all have the three
    columns processes every line: each gets one request, to its
    stripped endpoint, for round 1, with its stripped email and secret
    and a nonce drawn for that request; none is skipped or failed, and
    the sweep pauses one second after each. *)
Theorem round1_sweep_accounts (rows : list Round1.csv_row) (d : database) :
  forallb complete rows = true ->
  let out := Round1.process_submissions world evaluation_url (Some rows)
                                        (start d) in
  let sent := deliveries (trace (snd out)) in
  fst out = Some {| Round1.processed_count := Z.of_nat (List.length rows);
                    Round1.skipped_count := 0; Round1.error_count := 0 |}
  /\ map (fun dl => (fst dl, p_email (snd dl), p_secret (snd dl),
                     p_round (snd dl))) sent
     = map (fun row =>
              (Py.strip (match Round1.c_endpoint row with
                         | Some x => x | None => "" end),
               Py.strip (match Round1.c_email row with
                         | Some x => x | None => "" end),
               Py.strip (match Round1.c_secret row with
                         | Some x => x | None => "" end), 1)) rows
  /\ map (fun dl => p_nonce (snd dl)) sent = minted (trace (snd out))
  /\ pauses (trace (snd out)) = repeat 1 (List.length rows).
Proof.
  intros Hrows; cbv zeta; unfold Round1.process_submissions.
  destruct (process_rows_account rows
              {| Round1.processed_count := 0; Round1.skipped_count := 0;
                 Round1.error_count := 0 |} (start d) Hrows)
    as (new & Hnew & Hcount & Hdel & Hmint & Hpause).
  rewrite Hnew; simpl app.
  split; [rewrite Hcount; reflexivity|auto].
Qed.

(** X15: a line that lacks one of the three columns aborts the sweep.
    The lines before it have been processed, the lines after it are
    not looked at, and no summary is produced. *)
Theorem round1_sweep_aborts (before after : list Round1.csv_row)
        (bad : Round1.csv_row) (d : database) :
  forallb complete before = true ->
  complete bad = false ->
  let out := Round1.process_submissions world evaluation_url
               (Some (before ++ bad :: after)%list) (start d) in
  fst out = None
  /\ snd out
     = snd (Round1.process_submissions world evaluation_url (Some before)
                                       (start d)).
Proof.
  intros Hbefore Hbad; cbv zeta; unfold Round1.process_submissions.
  generalize {| Round1.processed_count := 0; Round1.skipped_count := 0;
                Round1.error_count := 0 |}.
  generalize (start d).
  induction before as [|row before IH]; intros s c.
  - simpl; destruct bad as [[e|] [ep|] [sec|]]; try discriminate Hbad;
      split; reflexivity.
  - simpl in Hbefore; apply andb_true_iff in Hbefore.
    destruct Hbefore as [Hrow Hrest].
    destruct row as [[e|] [ep|] [sec|]]; try discriminate Hrow.
    destruct (process_row_step e ep sec c s)
      as (s1 & body1 & answer1 & Hstep & _).
    simpl app; rewrite !Hstep.
    apply IH; exact Hrest.
Qed.

(** X16: the Task row is written whether or not the delivery worked.
    After the sweep has handled a complete line, the store holds a
    round-1 Task for the stripped email with the nonce that was sent,
    the stripped endpoint, and as status code the answer to the request
    ([None] when the request raised). *)
Theorem round1_sweep_records_delivery (e ep sec : string) (d : database) :
  let out := Round1.process_submissions world evaluation_url
               (Some [ {| Round1.c_email := Some e;
                          Round1.c_endpoint := Some ep;
                          Round1.c_secret := Some sec |} ]) (start d) in
  exists body answer row,
    trace (snd out)
    = [Uuid4 (p_nonce body); Post (Py.strip ep) body answer; Sleep 1]
    /\ In row (tasks (db (snd out)))
    /\ t_email row = Py.strip e /\ to_Z (t_round row) = 1
    /\ t_task row = p_task body /\ t_nonce row = p_nonce body
    /\ t_endpoint row = Py.strip ep /\ t_statuscode row = answer.
Proof.
  cbv zeta; unfold Round1.process_submissions.
  destruct (process_row_step e ep sec
              {| Round1.processed_count := 0; Round1.skipped_count := 0;
                 Round1.error_count := 0 |} (start d))
    as (s' & body & answer & Hstep & Htrace & He & Hsec & Hr & Hurl & Hok
        & Hdb).
  rewrite Hstep; cbn [Round1.process_rows ret snd].
  destruct (task_record_row _ _ _ _ _ Hok)
    as (row & Hrows & Hemail & Hround & Htask & Hnonce & Hep & Hcode).
  exists body, answer, row.
  rewrite Htrace, Hdb, Hrows; cbn [trace start app].
  split; [reflexivity|].
  split; [apply in_or_app; right; left; reflexivity|].
  rewrite Hemail, Hround, He, Hr; repeat split; assumption.
Qed.

End Round1Sweep.

(* ================================================================== *)
(** * Counting re-deliveries and notifications *)
(* ================================================================== *)

Section Counting.
Import Database World Props More.

Variable world : oracle.

Lemma pauses_app (a b : list event) :
  pauses (a ++ b) = (pauses a ++ pauses b)%list.
Proof. apply flat_map_app. Qed.

Lemma answered_200_app (a b : list event) :
  answered_200 (a ++ b) = (answered_200 a + answered_200 b)%nat.
Proof. unfold answered_200; rewrite filter_app, length_app; reflexivity. Qed.

Lemma retry_tasks_count (failed_tasks : list task_row) (retry_count : Z)
      (s : state) :
  let out := Round2.retry_tasks world failed_tasks retry_count s in
  exists new,
    trace (snd out) = (trace s ++ new)%list
    /\ fst out = retry_count + Z.of_nat (answered_200 new)
    /\ (answered_200 new <= List.length failed_tasks)%nat
    /\ pauses new = repeat 2 (List.length failed_tasks).
Proof.
  revert retry_count s.
  induction failed_tasks as [|task rest IH]; intros retry_count s;
    cbn [Round2.retry_tasks].
  - exists []; simpl; rewrite app_nil_r, Z.add_0_r; auto.
  - unfold bind, Round2.send_task, tick, emit, sleep, ret; simpl.
    match goal with
    | |- context [Round2.retry_tasks world rest ?c ?s0] =>
        destruct (IH c s0) as (new & Htrace & Hcount & Hle & Hpause)
    end.
    simpl in Htrace.
    set (answer := requests_post
                     (post world (step s) (t_endpoint task)
                           (Round2.retry_payload task))) in *.
    exists ([Post (t_endpoint task) (Round2.retry_payload task) answer;
             Sleep 2] ++ new)%list.
    cbv zeta; rewrite Htrace, Hcount, <- !app_assoc.
    split; [reflexivity|].
    assert (answered_200
              [Post (t_endpoint task) (Round2.retry_payload task) answer;
               Sleep 2]
            = if Round2.is_200 answer then 1%nat else 0%nat) as Hone
        by (unfold answered_200; simpl; destruct (Round2.is_200 answer);
            reflexivity).
    rewrite answered_200_app, pauses_app, Hpause, Hone.
    destruct (Round2.is_200 answer); simpl; repeat split; lia.
Qed.

(** X17: the retry sweep reports nothing when no round-2 Task has a
    status code other than 200.  Otherwise it sends one request per
    selected Task, pauses two seconds after each, and the count it
    reports is the number of those requests that were answered 200. *)
Theorem retry_sweep_counts (max_retries : Z) (d : database) :
  let out := Round2.retry_failed_round2_tasks world max_retries (start d) in
  match fst out with
  | None => selected_for_retry d = [] /\ snd out = start d
  | Some retry_count =>
      selected_for_retry d <> []
      /\ retry_count = Z.of_nat (answered_200 (trace (snd out)))
      /\ 0 <= retry_count <= Z.of_nat (List.length (selected_for_retry d))
      /\ List.length (deliveries (trace (snd out)))
         = List.length (selected_for_retry d)
      /\ pauses (trace (snd out))
         = repeat 2 (List.length (selected_for_retry d))
  end.
Proof.
  assert (get_tasks None (Some 2) d
          = Returned (filter (fun task => Z.eqb (t_round task) 2) (tasks d)))
    as Hget.
  { unfold get_tasks; simpl; f_equal; apply filter_ext; intros row; simpl.
    destruct (Z.eqb (t_round row) 2); reflexivity. }
  cbv zeta; unfold Round2.retry_failed_round2_tasks, bind, query.
  change (db (start d)) with d.
  rewrite Hget; cbv beta iota zeta; fold (selected_for_retry d).
  destruct (selected_for_retry d) as [|task rest] eqn:Hsel;
    [split; reflexivity|].
  destruct (retry_tasks_count (task :: rest) 0 (start d))
    as (new & Htrace & Hcount & Hle & Hpause).
  destruct (retry_tasks_effect world (task :: rest) 0 (start d))
    as (_ & Hdeliv & _).
  destruct (Round2.retry_tasks world (task :: rest) 0 (start d))
    as [retry_count s'].
  cbn [fst snd] in *; simpl trace in Htrace, Hdeliv; simpl app in Htrace.
  unfold ret; cbn [fst snd]; rewrite Htrace in *.
  split; [discriminate|].
  split; [lia|].
  split; [lia|].
  split; [rewrite Hdeliv; simpl; rewrite length_map; reflexivity
         |exact Hpause].
Qed.

End Counting.

(* ================================================================== *)
(** * The notifier for any number of attempts *)
(* ================================================================== *)

Section NotifierBounds.
Import StudentApi More.

Variable post : Z -> option Z.

Lemma total_app (a b : list Z) : total (a ++ b) = total a + total b.
Proof.
  unfold total; induction a as [|x a IH]; simpl; [reflexivity|].
  rewrite IH; lia.
Qed.

(** The waits from attempt [a] on, when the loop ends with attempt
    [m - 1], sum up to less than what is left to [2 ^ (m - 1)]. *)
Lemma attempts_total_wait (url : string) (body : payload) (m a : Z)
      (rem : nat) :
  0 <= a -> a + Z.of_nat rem = m ->
  rem = 0%nat
  \/ total (sleeps (snd (attempts post url body m a rem))) + 2 ^ a
     <= 2 ^ (m - 1).
Proof.
  revert a; induction rem as [|rem IH]; intros a Ha Hm; [left; reflexivity|].
  right.
  assert (2 ^ a <= 2 ^ (m - 1)) as Hpow by (apply Z.pow_le_mono_r; lia).
  destruct (is_200 (post a)) eqn:H200.
  - rewrite (@attempts_done post url body m a rem H200); simpl; lia.
  - rewrite (@attempts_next post url body m a rem H200).
    cbn [snd sleeps flat_map app].
    fold (sleeps ((if Z.ltb a (m - 1) then [Sleep (2 ^ a)] else [])
                  ++ snd (attempts post url body m (a + 1) rem))).
    rewrite sleeps_app, total_app.
    destruct (IH (a + 1)) as [->|Hlater]; try lia.
    + assert (Z.ltb a (m - 1) = false) as -> by (apply Z.ltb_ge; lia).
      simpl; lia.
    + assert (2 ^ (a + 1) = 2 * 2 ^ a) as Hsucc
          by (rewrite Z.pow_add_r by lia; lia).
      destruct (Z.ltb a (m - 1)); simpl; lia.
Qed.

Lemma attempts_requests (url : string) (body : payload) (m a : Z)
      (rem : nat) :
  Forall (fun e => match e with
                   | Post _ u b => u = url /\ b = body
                   | Sleep _ => True
                   end)
         (snd (attempts post url body m a rem)).
Proof.
  revert a; induction rem as [|rem IH]; intros a; [constructor|].
  destruct (is_200 (post a)) eqn:H200.
  - rewrite (@attempts_done post url body m a rem H200); simpl.
    repeat constructor.
  - rewrite (@attempts_next post url body m a rem H200); cbn [snd].
    constructor; [auto|].
    apply Forall_app; split; [|apply IH].
    destruct (Z.ltb a (m - 1)); repeat constructor.
Qed.

(** X18: for any [max_retries], the notifier sends at most that many
    requests, all to the notification's evaluation URL and all with the
    same body made of its seven fields; with [max_retries] zero or
    negative it sends nothing and returns [False]; and all its waits
    together stay below [2 ^ (max_retries - 1)] seconds (15 seconds at
    most for the default of five attempts). *)
Theorem notifier_bounds (data : notification_data) (max_retries : Z) :
  let out := notify_evaluation_api post data max_retries in
  (List.length (posts (snd out)) <= Z.to_nat max_retries)%nat
  /\ Forall (fun e =>
               match e with
               | Post _ url body =>
                   Some url = evaluation_url data
                   /\ body = {| p_email := email data; p_task := task data;
                                p_round := round data; p_nonce := nonce data;
                                p_repo_url := repo_url data;
                                p_commit_sha := commit_sha data;
                                p_pages_url := pages_url data |}
               | Sleep _ => True
               end) (snd out)
  /\ (max_retries <= 0 -> out = (false, []))
  /\ (1 <= max_retries -> total (sleeps (snd out)) < 2 ^ (max_retries - 1))
  /\ total (sleeps (snd (notify_evaluation_api post data default_max_retries)))
     <= 15.
Proof.
  assert (forall m, 1 <= m ->
            total (sleeps (snd (notify_evaluation_api post data m)))
            < 2 ^ (m - 1)) as Hwait.
  { intros m Hm; unfold notify_evaluation_api.
    assert (0 < 2 ^ (m - 1)) by (apply Z.pow_pos_nonneg; lia).
    destruct (evaluation_url data) as [url|]; [|simpl; lia].
    destruct (negb (Py.truthy_str url)); [simpl; lia|].
    match goal with
    | |- context [attempts post url ?body m 0 (Z.to_nat m)] =>
        destruct (@attempts_total_wait url body m 0 (Z.to_nat m))
          as [H0|Hle]; lia
    end. }
  cbv zeta; split; [|split; [|split; [|split]]].
  - unfold notify_evaluation_api.
    destruct (evaluation_url data) as [url|]; [|simpl; lia].
    destruct (negb (Py.truthy_str url)); [simpl; lia|].
    match goal with
    | |- context [attempts post url ?body ?m 0 ?rem] =>
        destruct (attempts_trace post url body m 0 rem) as (_ & Hlen & _)
    end.
    exact Hlen.
  - unfold notify_evaluation_api.
    destruct (evaluation_url data) as [url|]; [|constructor].
    destruct (negb (Py.truthy_str url)); [constructor|].
    eapply Forall_impl; [|apply attempts_requests].
    intros [a u b|sec]; simpl; [|auto].
    intros [-> ->]; auto.
  - intros Hm; unfold notify_evaluation_api.
    destruct (evaluation_url data) as [url|]; [|reflexivity].
    destruct (negb (Py.truthy_str url)); [reflexivity|].
    replace (Z.to_nat max_retries) with 0%nat by lia; reflexivity.
  - apply Hwait.
  - specialize (Hwait default_max_retries).
    unfold default_max_retries in *; simpl in Hwait; lia.
Qed.

End NotifierBounds.

(* ================================================================== *)
(** * The form table and the Result table *)
(* ================================================================== *)

Section OtherTables.
Import Database Props More Forms Queries.

Lemma insert_submission_unique (now : string) (sd : submission_data)
      (t : table) :
  forms_unique t -> forms_unique (snd (insert_submission now sd t)).
Proof.
  intros Ht email; unfold insert_submission.
  destruct (submission_row_of now (seq_submissions t + 1) sd) as [row|];
    [|apply Ht].
  simpl; rewrite filter_app, length_app; simpl.
  destruct (String.eqb_spec (s_email row) email) as [<-|Hne].
  - rewrite (replaced_key_gone
               (fun old => String.eqb (s_email old) (s_email row))).
    reflexivity.
  - rewrite (other_keys_kept
               (fun old => String.eqb (s_email old) (s_email row))).
    + specialize (Ht email); simpl; lia.
    + intros x Hx; apply String.eqb_eq in Hx; rewrite Hx.
      apply String.eqb_neq; exact Hne.
Qed.

(** X19: the form table holds at most one entry per email after any
    sequence of [insert_submission] calls on the empty table.  A call
    with an email, an endpoint and a secret stores its entry in place of
    the earlier one for that email, with the empty string as repository
    URL when none is given; a call that lacks one of the three answers
    [False] and changes nothing. *)
Theorem one_form_entry_per_email
        (calls : list (string * submission_data)) (now : string)
        (sd : submission_data) :
  let t := fold_left (fun t call =>
                        snd (insert_submission (fst call) (snd call) t))
                     calls Forms.empty in
  let out := insert_submission now sd t in
  forms_unique t
  /\ forms_unique (snd out)
  /\ (forall email endpoint secret,
         sd_email sd = Some email -> sd_endpoint sd = Some endpoint ->
         sd_secret sd = Some secret ->
         fst out = true
         /\ get_submissions (snd out)
            = (filter (fun old => negb (String.eqb (s_email old) email))
                      (get_submissions t)
               ++ [ {| s_id := seq_submissions t + 1; s_timestamp := now;
                       s_email := email; s_endpoint := endpoint;
                       s_secret := secret;
                       s_repo_url := repo_url_or_empty (sd_repo_url sd) |} ])%list
         /\ (sd_repo_url sd = None ->
             repo_url_or_empty (sd_repo_url sd) = Some ""%string))
  /\ (sd_email sd = None \/ sd_endpoint sd = None \/ sd_secret sd = None ->
      out = (false, t)).
Proof.
  intros t out.
  assert (forms_unique t) as Ht.
  { unfold t.
    assert (forms_unique Forms.empty) as H0 by (intros e; simpl; lia).
    revert H0; generalize Forms.empty.
    induction calls as [|call calls IH]; intros t0 H0; simpl;
      [exact H0 | apply IH, insert_submission_unique, H0]. }
  split; [exact Ht|].
  split; [apply insert_submission_unique; exact Ht|].
  split.
  - intros email endpoint secret He Hep Hsec.
    unfold out, insert_submission, submission_row_of, not_null.
    rewrite He, Hep, Hsec; simpl.
    repeat split; intros ->; reflexivity.
  - unfold out, insert_submission, submission_row_of, not_null.
    intros [H|[H|H]]; rewrite H;
      destruct (sd_email sd), (sd_endpoint sd); reflexivity.
Qed.

(** X20: [insert_result] appends a row exactly when the seven NOT NULL
    values are given, the round fits in 64 bits and the score is a
    number.  The row then comes back from [get_results] for its email
    and task.  With a NaN for the score (SQLite stores it as NULL), a
    round that SQLite cannot hold or a missing value the call answers
    [False] and the store is unchanged. *)
Theorem insert_result_round_trip (now : string) (ed : result_data)
        (d : database) :
  let out := insert_result now ed d in
  (forall e t r u c p name score,
      ed_email ed = Some e -> ed_task ed = Some t -> ed_round ed = Some r ->
      ed_repo_url ed = Some u -> ed_commit_sha ed = Some c ->
      ed_pages_url ed = Some p -> ed_check_name ed = Some name ->
      ed_score ed = Some score -> PrimFloat.is_nan score = false ->
      fits r = true ->
      exists round : int64,
        to_Z round = r
        /\ let row :=
             {| e_id := seq_results d + 1; e_timestamp := now; e_email := e;
                e_task := t; e_round := round; e_repo_url := u;
                e_commit_sha := c; e_pages_url := p; e_check_name := name;
                e_score := score; e_reason := ed_reason ed;
                e_logs := ed_logs ed |} in
           fst out = true
           /\ results (snd out) = (results d ++ [row])%list
           /\ In row (get_results (Some e) (Some t) (snd out)))
  /\ (forall score,
         ed_score ed = Some score -> PrimFloat.is_nan score = true ->
         out = (false, d))
  /\ (forall r,
         ed_round ed = Some r -> fits r = false -> out = (false, d))
  /\ (ed_email ed = None \/ ed_task ed = None \/ ed_round ed = None
      \/ ed_repo_url ed = None \/ ed_commit_sha ed = None
      \/ ed_pages_url ed = None \/ ed_check_name ed = None
      \/ ed_score ed = None ->
      out = (false, d)).
Proof.
  cbv zeta; unfold insert_result, result_row_of, not_null, bind_real.
  split; [|split; [|split]].
  - intros e t r u c p name score He Ht Hr Hu Hc Hp Hname Hscore Hnan Hfits.
    destruct (@bind_int_fits r Hfits) as (round & Hbind & Hround).
    exists round; split; [exact Hround|].
    rewrite He, Ht, Hr, Hu, Hc, Hp, Hname, Hscore, Hnan; simpl.
    rewrite Hbind; simpl.
    split; [reflexivity|split; [reflexivity|]].
    unfold get_results; apply filter_In; split;
      [apply in_or_app; right; left; reflexivity|].
    simpl; rewrite !String.eqb_refl.
    destruct (Py.truthy_str e), (Py.truthy_str t); reflexivity.
  - intros score Hscore Hnan; rewrite Hscore, Hnan.
    destruct (ed_email ed), (ed_task ed), (bind_round (ed_round ed)),
      (ed_repo_url ed), (ed_commit_sha ed), (ed_pages_url ed),
      (ed_check_name ed); reflexivity.
  - intros r Hr Hfits; rewrite Hr; simpl.
    rewrite (@bind_int_overflow r Hfits).
    destruct (ed_email ed), (ed_task ed); reflexivity.
  - intros H.
    assert (ed_round ed = None -> bind_round (ed_round ed) = None) as Hn
        by (intros ->; reflexivity).
    destruct (ed_email ed), (ed_task ed), (bind_round (ed_round ed)),
      (ed_repo_url ed), (ed_commit_sha ed), (ed_pages_url ed),
      (ed_check_name ed), (ed_score ed) as [f|];
      try destruct (PrimFloat.is_nan f); try reflexivity;
      exfalso; intuition discriminate.
Qed.

End OtherTables.

(* ================================================================== *)
(** * Text lemmas *)
(* ================================================================== *)

Section Text.

Lemma contains_unfold (needle hay : string) :
  Py.contains needle hay
  = (String.prefix needle hay
     || match hay with
        | EmptyString => false
        | String _ rest => Py.contains needle rest
        end)%bool.
Proof. destruct hay; reflexivity. Qed.

Lemma prefix_in_app (p a b : string) :
  String.prefix p a = true -> String.prefix p (a ++ b) = true.
Proof.
  revert p; induction a as [|c a IH]; intros p; destruct p as [|x p].
  - intros _; destruct b; reflexivity.
  - discriminate.
  - reflexivity.
  - simpl; destruct (ascii_dec x c); [apply IH|discriminate].
Qed.

Lemma contains_app_l (needle a b : string) :
  Py.contains needle a = true -> Py.contains needle (a ++ b) = true.
Proof.
  induction a as [|c a IH]; intros H.
  - rewrite contains_unfold in H; rewrite contains_unfold.
    apply orb_true_iff in H; apply orb_true_iff.
    destruct H as [H|H]; [|discriminate].
    left; apply (@prefix_in_app needle EmptyString b H).
  - rewrite contains_unfold in H; rewrite contains_unfold.
    apply orb_true_iff in H; apply orb_true_iff.
    destruct H as [H|H].
    + left; apply (@prefix_in_app needle (String c a) b H).
    + right; simpl; apply IH, H.
Qed.

Lemma contains_app_r (needle a b : string) :
  Py.contains needle b = true -> Py.contains needle (a ++ b) = true.
Proof.
  intros H; induction a as [|c a IH]; simpl; [exact H|].
  rewrite IH; apply orb_true_r.
Qed.

Lemma contains_concat (needle sep x : string) (l : list string) :
  In x l -> Py.contains needle x = true ->
  Py.contains needle (String.concat sep l) = true.
Proof.
  intros Hin Hx; induction l as [|y l IH]; [destruct Hin|].
  destruct l as [|z l].
  - destruct Hin as [->|[]]; exact Hx.
  - change (String.concat sep (y :: z :: l))
      with (y ++ sep ++ String.concat sep (z :: l)).
    destruct Hin as [->|Hin].
    + apply contains_app_l, Hx.
    + apply contains_app_r, contains_app_r, IH, Hin.
Qed.

Lemma lower_app (a b : string) :
  Py.lower (a ++ b) = Py.lower a ++ Py.lower b.
Proof. induction a as [|c a IH]; simpl; [|rewrite IH]; reflexivity. Qed.

Lemma lower_concat (sep : string) (l : list string) :
  Py.lower (String.concat sep l)
  = String.concat (Py.lower sep) (map Py.lower l).
Proof.
  induction l as [|y l IH]; [reflexivity|].
  destruct l as [|z l]; [reflexivity|].
  change (String.concat sep (y :: z :: l))
    with (y ++ sep ++ String.concat sep (z :: l)).
  rewrite !lower_app, IH; reflexivity.
Qed.

Lemma length_app (a b : string) :
  String.length (a ++ b) = (String.length a + String.length b)%nat.
Proof. induction a as [|c a IH]; simpl; [|rewrite IH]; reflexivity. Qed.

Lemma length_concat (sep : string) (l : list string) :
  (list_sum (map String.length l) <= String.length (String.concat sep l))%nat.
Proof.
  induction l as [|y l IH]; [simpl; lia|].
  destruct l as [|z l]; [simpl; lia|].
  change (String.concat sep (y :: z :: l))
    with (y ++ sep ++ String.concat sep (z :: l)).
  rewrite !length_app.
  change (list_sum (map String.length (y :: z :: l)))
    with (String.length y + list_sum (map String.length (z :: l)))%nat.
  lia.
Qed.

End Text.

(* ================================================================== *)
(** * What the build endpoint generates, as the evaluator scores it *)
(* ================================================================== *)

Section GeneratedFiles.
Import Evaluate.

Variable self : evaluator.
Variable env : run.

(** X21: the license the build endpoint writes always passes the
    evaluator's license check.  Whatever the year, a working tree whose
    [LICENSE] holds the text of [generate_mit_license] gets
    [(True, 'MIT license found')]. *)
Theorem generated_license_passes (year : Z) :
  read "LICENSE" (files env) = Some (Ok (Build.generate_mit_license year)) ->
  check_mit_license env = (true, "MIT license found").
Proof.
  intros Hread.
  unfold check_mit_license, license_files.
  cbn [scan_license_files]; rewrite Hread.
  assert (Py.contains "mit license"
                      (Py.lower (Build.generate_mit_license year)) = true)
    as ->; [|reflexivity].
  unfold Build.generate_mit_license, PyText.lines.
  rewrite lower_concat.
  apply (@contains_concat "mit license" (Py.lower Py.nl) "mit license");
    [left; reflexivity|reflexivity].
Qed.

Ltac find_line :=
  repeat (first [left; reflexivity | right]).

Lemma generated_readme_criteria (task brief repo_url : string) :
  let text := Build.generate_readme task brief repo_url in
  Z.ltb 500 (Py.len text) = true
  /\ Py.contains "# " text = true
  /\ Py.contains "setup" (Py.lower text) = true
  /\ Py.contains "license" (Py.lower text) = true
  /\ Py.contains "```" text = true.
Proof.
  cbv zeta; unfold Build.generate_readme, PyText.lines.
  split; [|split; [|split; [|split]]].
  - apply Z.ltb_lt; unfold Py.len.
    match goal with
    | |- context [String.concat Py.nl ?l] =>
        pose proof (length_concat Py.nl l) as Hlen;
        set (text := String.concat Py.nl l) in *
    end.
    cbn [map list_sum] in Hlen.
    rewrite !length_app in Hlen.
    cbn [String.length] in Hlen.
    unfold list_sum in Hlen; cbn [fold_right] in Hlen.
    lia.
  - apply (@contains_concat "# " Py.nl
             ("# " ++ PyText.title (PyText.replace "-" " " None task))).
    + left; reflexivity.
    + apply contains_app_l; reflexivity.
  - rewrite lower_concat.
    apply (@contains_concat "setup" (Py.lower Py.nl) "## setup");
      [cbn [map]; find_line|reflexivity].
  - rewrite lower_concat.
    apply (@contains_concat "license" (Py.lower Py.nl) "## license");
      [cbn [map]; find_line|reflexivity].
  - apply (@contains_concat "```" Py.nl "   ```bash");
      [find_line|reflexivity].
Qed.

(** X22: the README the build endpoint writes gets full marks from an
    evaluator without a chat model.  Whatever the task, the brief and
    the repository URL, a working tree whose [README.md] holds the text
    of [generate_readme] scores 1.0, with all five criteria listed in
    the reason. *)
Theorem generated_readme_full_marks (task brief repo_url : string) :
  openai_available self = false ->
  read "README.md" (files env)
  = Some (Ok (Build.generate_readme task brief repo_url)) ->
  check_readme_quality self env
  = (1.0%float,
     "Basic criteria met: adequate length, has headings, has setup/usage sections, mentions license, has code examples").
Proof.
  intros Hno Hread.
  destruct (generated_readme_criteria task brief repo_url)
    as (H1 & H2 & H3 & H4 & H5).
  unfold check_readme_quality; rewrite Hread, Hno.
  cbn [negb]; cbv zeta.
  unfold readme_criteria, any_in; cbn [existsb].
  rewrite H1, H2, H3, H4, H5.
  reflexivity.
Qed.

End GeneratedFiles.

(* ================================================================== *)
(** * The build endpoint *)
(* ================================================================== *)

Section BuildEndpoint.
Import Evaluate Build More.

Variable env : config.
Variable w : world.

Lemma verify_secret_spec (provided : option string) :
  verify_secret env provided = true <-> provided = STUDENT_SECRET env.
Proof.
  unfold verify_secret.
  destruct provided as [p|], (STUDENT_SECRET env) as [x|];
    try (split; [discriminate|intros H; discriminate H]);
    [|split; reflexivity].
  rewrite String.eqb_eq; split; [intros ->; reflexivity|].
  intros H; injection H; auto.
Qed.

Lemma build_status (email task : string) (round : Z)
      (nonce brief evaluation_url : string)
      (attachments : option (list attachment)) :
  let out := build env w email task round nonce brief evaluation_url
                   attachments in
  status out = 500 \/ status out = 200.
Proof.
  cbv zeta; unfold build, status.
  destruct (manager w); [|left; reflexivity].
  destruct (create_repo w _ _); [|left; reflexivity].
  match goal with
  | |- context [match ?x with Ok _ => _ | Raised _ => _ end] =>
      destruct x; [|left; reflexivity]
  end.
  destruct (upload_files w _) as [[u|e] uploads]; [|left; reflexivity].
  destruct (get_commits w); [|left; reflexivity].
  destruct (login w); [|left; reflexivity].
  destruct (StudentApi.notify_evaluation_api _ _ _).
  right; reflexivity.
Qed.

Lemma build_configured (email task : string) (round : Z)
      (nonce brief evaluation_url : string)
      (attachments : option (list attachment)) :
  manager w <> Ok tt ->
  snd (build env w email task round nonce brief evaluation_url attachments)
  = [].
Proof.
  intros H; unfold build.
  destruct (manager w) as [[]|e]; [contradiction H|]; reflexivity.
Qed.

(** The request as the endpoint sees it once every check has passed. *)
Lemma build_application_authorised (d : request) :
  first_missing d = None ->
  q_secret d = Some (STUDENT_SECRET env) ->
  github_client env = true ->
  exists email task round nonce brief evaluation_url,
    q_email d = Some email /\ q_task d = Some task
    /\ q_round d = Some round /\ q_nonce d = Some nonce
    /\ q_brief d = Some brief /\ q_evaluation_url d = Some evaluation_url
    /\ build_application env w (Some d)
       = build env w email task round nonce brief evaluation_url
               (q_attachments d).
Proof.
  intros Hall Hsecret Hgh.
  unfold build_application, empty, first_missing in *.
  destruct (q_email d) as [email|]; [|discriminate].
  destruct (q_secret d) as [secret|]; [|discriminate].
  destruct (q_task d) as [task|]; [|discriminate].
  destruct (q_round d) as [round|]; [|discriminate].
  destruct (q_nonce d) as [nonce|]; [|discriminate].
  destruct (q_brief d) as [brief|]; [|discriminate].
  destruct (q_evaluation_url d) as [url|]; [|discriminate].
  exists email, task, round, nonce, brief, url.
  injection Hsecret as ->.
  assert (verify_secret env (STUDENT_SECRET env) = true) as ->
      by (apply verify_secret_spec; reflexivity).
  rewrite Hgh; simpl.
  repeat split; reflexivity.
Qed.

Lemma build_application_invalid_secret (d : request) (secret : option string) :
  first_missing d = None -> q_secret d = Some secret ->
  verify_secret env secret = false ->
  build_application env w (Some d) = ((Error "Invalid secret", 401), []).
Proof.
  intros Hmiss Hsec Hver.
  unfold build_application, empty, first_missing in *.
  destruct (q_email d); [|discriminate].
  rewrite Hsec in Hmiss |- *.
  destruct (q_task d); [|discriminate].
  destruct (q_round d); [|discriminate].
  destruct (q_nonce d); [|discriminate].
  destruct (q_brief d); [|discriminate].
  destruct (q_evaluation_url d); [|discriminate].
  rewrite Hver; reflexivity.
Qed.

Lemma build_application_unconfigured (d : request) :
  first_missing d = None -> q_secret d = Some (STUDENT_SECRET env) ->
  github_client env = false ->
  build_application env w (Some d)
  = ((Error "GitHub integration not configured", 500), []).
Proof.
  intros Hmiss Hsec Hgh.
  unfold build_application, empty, first_missing in *.
  destruct (q_email d); [|discriminate].
  rewrite Hsec in Hmiss |- *.
  destruct (q_task d); [|discriminate].
  destruct (q_round d); [|discriminate].
  destruct (q_nonce d); [|discriminate].
  destruct (q_brief d); [|discriminate].
  destruct (q_evaluation_url d); [|discriminate].
  assert (verify_secret env (STUDENT_SECRET env) = true) as ->
      by (apply verify_secret_spec; reflexivity).
  rewrite Hgh; reflexivity.
Qed.

Lemma build_application_incomplete (d : request) (field : string) :
  first_missing d = Some field ->
  status (build_application env w (Some d)) = 400
  /\ snd (build_application env w (Some d)) = [].
Proof.
  intros Hmiss; unfold build_application; rewrite Hmiss.
  destruct (empty d); split; reflexivity.
Qed.

(** X23: the order of the checks of the build endpoint.  It answers
    400, 401, 500 or 200.  400 means the body is empty or lacks one of
    the seven required keys; 401 means all seven are there and the
    secret differs from [STUDENT_SECRET]; and nothing is done at GitHub
    or sent to the evaluator unless all seven are there, the secret
    equals [STUDENT_SECRET] and a GitHub token is configured. *)
Theorem build_guards (data : option request) :
  let out := build_application env w data in
  (status out = 400 \/ status out = 401 \/ status out = 500
   \/ status out = 200)
  /\ (status out = 400
      <-> data = None
          \/ exists d, data = Some d /\ first_missing d <> None)
  /\ (status out = 401
      <-> exists d secret,
            data = Some d /\ first_missing d = None
            /\ q_secret d = Some secret /\ secret <> STUDENT_SECRET env)
  /\ (snd out <> []
      -> exists d,
           data = Some d /\ first_missing d = None
           /\ q_secret d = Some (STUDENT_SECRET env)
           /\ github_client env = true).
Proof.
  cbv zeta.
  destruct data as [d|].
  2:{ unfold status; simpl.
      split; [auto|].
      split; [split; auto|].
      split; [split; [discriminate|intros (d & s0 & H & _); discriminate H]|].
      intros H; contradiction H; reflexivity. }
  destruct (first_missing d) as [field|] eqn:Hmiss.
  - destruct (@build_application_incomplete d field Hmiss) as [H400 Hnil].
    rewrite H400, Hnil.
    split; [auto|].
    split.
    { split; [|intros _; reflexivity].
      intros _; right; exists d; split; [reflexivity|].
      rewrite Hmiss; discriminate. }
    split; [split; [discriminate|]|].
    + intros (d' & s0 & Hd & Hnone & _).
      injection Hd as <-; congruence.
    + intros H; contradiction H; reflexivity.
  - destruct (q_secret d) as [secret|] eqn:Hsec.
    2:{ unfold first_missing in Hmiss; rewrite Hsec in Hmiss.
        destruct (q_email d); discriminate. }
    destruct (verify_secret env secret) eqn:Hver.
    + apply verify_secret_spec in Hver; subst secret.
      destruct (github_client env) eqn:Hgh.
      * destruct (@build_application_authorised d Hmiss Hsec Hgh)
          as (email & task & round & nonce & brief & url & _ & _ & _ & _
              & _ & _ & ->).
        pose proof (build_status email task round nonce brief url
                                 (q_attachments d)) as Hst.
        cbv zeta in Hst.
        split; [destruct Hst as [-> | ->]; auto|].
        split; [split|].
        -- intros H; destruct Hst as [H' | H']; rewrite H' in H;
             discriminate H.
        -- intros [H|(d' & Hd & Hd')]; [discriminate H|].
           injection Hd as <-; congruence.
        -- split; [split|].
           ++ intros H; destruct Hst as [H' | H']; rewrite H' in H;
                discriminate H.
           ++ intros (d' & s0 & Hd & _ & Hs & Hneq).
              injection Hd as <-; rewrite Hsec in Hs.
              injection Hs as <-; contradiction Hneq; reflexivity.
           ++ intros _; exists d; auto.
      * rewrite (@build_application_unconfigured d Hmiss Hsec Hgh).
        unfold status; simpl.
        split; [auto|].
        split; [split; [discriminate|]|].
        -- intros [H|(d' & Hd & Hd')]; [discriminate H|].
           injection Hd as <-; congruence.
        -- split; [split; [discriminate|]|].
           ++ intros (d' & s0 & Hd & _ & Hs & Hneq).
              injection Hd as <-; rewrite Hsec in Hs.
              injection Hs as <-; contradiction Hneq; reflexivity.
           ++ intros H; contradiction H; reflexivity.
    + rewrite (@build_application_invalid_secret d secret Hmiss Hsec Hver).
      unfold status; simpl.
      split; [auto|].
      split; [split; [discriminate|]|].
      * intros [H|(d' & Hd & Hd')]; [discriminate H|].
        injection Hd as <-; congruence.
      * split; [split|].
        -- intros _; exists d, secret.
           split; [reflexivity|split; [exact Hmiss|split; [exact Hsec|]]].
           intros ->.
           assert (verify_secret env (STUDENT_SECRET env) = true) as Ht
               by (apply verify_secret_spec; reflexivity).
           congruence.
        -- reflexivity.
        -- intros H; contradiction H; reflexivity.
Qed.

(** X24: an unset [STUDENT_SECRET] does not close the endpoint.  With
    the variable unset, a complete request whose secret is JSON [null]
    passes the secret check and is built, while every string secret is
    refused with 401. *)
Theorem build_unset_secret (d : request) :
  STUDENT_SECRET env = None ->
  first_missing d = None ->
  github_client env = true ->
  (q_secret d = Some None ->
   exists email task round nonce brief evaluation_url,
     build_application env w (Some d)
     = build env w email task round nonce brief evaluation_url
             (q_attachments d))
  /\ (forall secret,
        q_secret d = Some (Some secret) ->
        build_application env w (Some d)
        = ((Error "Invalid secret", 401), [])).
Proof.
  intros Hunset Hmiss Hgh; split.
  - intros Hsec; rewrite <- Hunset in Hsec.
    destruct (@build_application_authorised d Hmiss Hsec Hgh)
      as (email & task & round & nonce & brief & url & _ & _ & _ & _ & _
          & _ & Hout).
    exists email, task, round, nonce, brief, url; exact Hout.
  - intros secret Hsec.
    apply (@build_application_invalid_secret d (Some secret) Hmiss Hsec).
    unfold verify_secret; rewrite Hunset; reflexivity.
Qed.

Lemma assign_keys (key value : string) (files : list (string * string)) :
  (In key (map fst files)
   /\ map fst (assign key value files) = map fst files)
  \/ (~ In key (map fst files)
      /\ map fst (assign key value files) = (map fst files ++ [key])%list).
Proof.
  induction files as [|[k v] files IH]; simpl.
  - right; split; [tauto|reflexivity].
  - destruct (String.eqb_spec k key) as [->|Hne].
    + left; split; [left; reflexivity|reflexivity].
    + destruct IH as [[Hin Heq]|[Hnin Heq]].
      * left; split; [right; exact Hin|simpl; rewrite Heq; reflexivity].
      * right; split; [|simpl; rewrite Heq; reflexivity].
        intros [H|H]; contradiction.
Qed.

Lemma assign_nodup (key value : string) (files : list (string * string)) :
  NoDup (map fst files) -> NoDup (map fst (assign key value files)).
Proof.
  intros Hnd.
  destruct (assign_keys key value files) as [[_ ->]|[Hnin ->]]; [exact Hnd|].
  apply NoDup_app; [exact Hnd|repeat constructor; simpl; tauto|].
  intros a Ha [<-|[]]; contradiction.
Qed.

(** A dictionary assignment changes the value of a key at its place or
    adds the key at the end. *)
Lemma add_attachments_keys (atts : list attachment)
      (files files' : list (string * string)) :
  add_attachments w atts files = Ok files' ->
  (exists extra, map fst files' = (map fst files ++ extra)%list)
  /\ (NoDup (map fst files) -> NoDup (map fst files')).
Proof.
  revert files; induction atts as [|a atts IH]; intros files H; simpl in H.
  - injection H as <-; split; [exists []; rewrite app_nil_r|]; auto.
  - destruct (a_url a) as [url|]; [|apply IH, H].
    destruct (Py.truthy_str url && String.prefix "data:" url)%bool;
      [|apply IH, H].
    destruct (PyText.split_once "," url) as [[header encoded]|];
      [|discriminate].
    destruct (b64decode w encoded) as [file_data|e]; [|discriminate].
    destruct (a_name a) as [name|]; [|discriminate].
    apply IH in H; destruct H as [[extra He] Hnd].
    split.
    + destruct (assign_keys name file_data files) as [[_ Hk]|[_ Hk]];
        rewrite Hk in He.
      * exists extra; exact He.
      * exists ([name] ++ extra)%list; rewrite He, app_assoc; reflexivity.
    + intros Hn; apply Hnd, assign_nodup, Hn.
Qed.

Lemma add_attachments_raises (atts : list attachment)
      (files : list (string * string)) :
  (exists e, add_attachments w atts files = Raised e)
  <-> existsb (malformed w) atts = true.
Proof.
  revert files; induction atts as [|a atts IH]; intros files.
  - simpl; split; [intros [e H]; discriminate H|discriminate].
  - cbn [add_attachments existsb]; unfold malformed at 1.
    destruct (a_url a) as [url|]; [|apply IH].
    destruct (Py.truthy_str url && String.prefix "data:" url)%bool;
      [|apply IH].
    cbn [andb].
    destruct (PyText.split_once "," url) as [[header encoded]|];
      [|split; [reflexivity|eauto]].
    destruct (b64decode w encoded) as [file_data|e];
      [|split; [reflexivity|eauto]].
    destruct (a_name a) as [name|]; [|split; [reflexivity|eauto]].
    apply IH.
Qed.

Lemma upload_files_ok (files : list (string * string)) :
  fst (upload_files w files) = Ok tt ->
  snd (upload_files w files) = map (fun f => CreateFile (fst f) (snd f)) files
  /\ Forall (fun f => create_file w (fst f) (snd f) = Ok tt) files.
Proof.
  induction files as [|[file_path content] files IH]; simpl.
  - intros _; split; [reflexivity|constructor].
  - destruct (create_file w file_path content) as [[]|e] eqn:Hc;
      [|discriminate].
    destruct (upload_files w files) as [outcome done]; simpl in *.
    intros H; destruct (IH H) as [-> Hall].
    split; [reflexivity|constructor; [exact Hc|exact Hall]].
Qed.

Lemma upload_files_all (files : list (string * string)) :
  (forall file_path content, create_file w file_path content = Ok tt) ->
  upload_files w files
  = (Ok tt, map (fun f => CreateFile (fst f) (snd f)) files).
Proof.
  intros Hall; induction files as [|[file_path content] files IH]; simpl;
    [reflexivity|].
  rewrite Hall, IH; reflexivity.
Qed.

(** The answer to the Pages request and the answers of the evaluator
    are read by [enable_pages] and by the notifier only. *)
Lemma add_attachments_outcomes (pages_answer : exc Z)
      (evaluator : Z -> option Z) (atts : list attachment)
      (files : list (string * string)) :
  add_attachments (with_outcomes w pages_answer evaluator) atts files
  = add_attachments w atts files.
Proof.
  revert files; induction atts as [|a atts IH]; intros files; simpl;
    [reflexivity|].
  destruct (a_url a) as [url|]; [|apply IH].
  destruct (Py.truthy_str url && String.prefix "data:" url)%bool;
    [|apply IH].
  destruct (PyText.split_once "," url) as [[header encoded]|];
    [|reflexivity].
  destruct (b64decode w encoded) as [file_data|e]; [|reflexivity].
  destruct (a_name a) as [name|]; [apply IH|reflexivity].
Qed.

Lemma upload_files_outcomes (pages_answer : exc Z)
      (evaluator : Z -> option Z) (files : list (string * string)) :
  upload_files (with_outcomes w pages_answer evaluator) files
  = upload_files w files.
Proof.
  induction files as [|[file_path content] files IH]; simpl; [reflexivity|].
  rewrite IH; reflexivity.
Qed.

Lemma build_status_outcomes (pages_answer : exc Z)
      (evaluator : Z -> option Z) (email task : string) (round : Z)
      (nonce brief evaluation_url : string)
      (attachments : option (list attachment)) :
  status (build env (with_outcomes w pages_answer evaluator) email task round
                nonce brief evaluation_url attachments)
  = status (build env w email task round nonce brief evaluation_url
                  attachments).
Proof.
  unfold build, status.
  change (manager (with_outcomes w pages_answer evaluator))
    with (manager w).
  change (md5 (with_outcomes w pages_answer evaluator)) with (md5 w).
  change (create_repo (with_outcomes w pages_answer evaluator))
    with (create_repo w).
  change (get_commits (with_outcomes w pages_answer evaluator))
    with (get_commits w).
  change (login (with_outcomes w pages_answer evaluator)) with (login w).
  change (year (with_outcomes w pages_answer evaluator)) with (year w).
  change (generate_app env (with_outcomes w pages_answer evaluator) brief)
    with (generate_app env w brief).
  destruct (manager w); [|reflexivity].
  destruct (create_repo w _ _) as [repo|]; [|reflexivity].
  assert (forall files,
             match attachments with
             | Some (a :: l) =>
                 add_attachments (with_outcomes w pages_answer evaluator)
                                 (a :: l) files
             | _ => Ok files
             end
             = match attachments with
               | Some (a :: l) => add_attachments w (a :: l) files
               | _ => Ok files
               end) as Hatts
      by (intros files; destruct attachments as [[|att l]|];
          [reflexivity|apply add_attachments_outcomes|reflexivity]).
  rewrite Hatts.
  match goal with
  | |- context [match ?x with Ok _ => _ | Raised _ => _ end] =>
      destruct x as [files|]; [|reflexivity]
  end.
  rewrite upload_files_outcomes.
  destruct (upload_files w files) as [[u|e] uploads]; [|reflexivity].
  destruct (get_commits w); [|reflexivity].
  destruct (login w); [|reflexivity].
  do 2 destruct (StudentApi.notify_evaluation_api _ _ _).
  reflexivity.
Qed.

(** X25: what a 200 of the build endpoint stands for.  The repository
    was created under the name [<task>-<md5 of the email>]; every file
    of the dictionary was uploaded, one path once, [index.html],
    [LICENSE] and [README.md] first (exactly these three, with the
    generated texts, when the request has no attachments); the Pages
    request was made; and the notifier ran.  The status code does not
    depend on the answer to the Pages request nor on the answers of the
    evaluator: a complete, authorised request with well-formed
    attachments is answered 200 as soon as the repository is created,
    every file is uploaded and the commits and the login can be read,
    and the two outcomes are only reported in the body. *)
Theorem build_success (data : option request) :
  (forall b evs,
      build_application env w data = ((b, 200), evs) ->
      exists d email task round nonce brief evaluation_url repo files commits
             user,
        data = Some d
        /\ q_email d = Some email /\ q_task d = Some task
        /\ q_round d = Some round /\ q_nonce d = Some nonce
        /\ q_brief d = Some brief /\ q_evaluation_url d = Some evaluation_url
        /\ create_repo w (task ++ "-" ++ md5 w email)
                       ("Auto-generated app: " ++ task) = Ok repo
        /\ map fst (firstn 3 files) = ["index.html"; "LICENSE"; "README.md"]
        /\ NoDup (map fst files)
        /\ (q_attachments d = None \/ q_attachments d = Some [] ->
            files = [ ("index.html", generate_app env w brief);
                      ("LICENSE", generate_mit_license (year w));
                      ("README.md",
                       generate_readme task brief (html_url repo)) ])
        /\ Forall (fun f => create_file w (fst f) (snd f) = Ok tt) files
        /\ get_commits w = Ok commits /\ login w = Ok user
        /\ let pages_url :=
             "https://" ++ user ++ ".github.io/"
             ++ (task ++ "-" ++ md5 w email) ++ "/" in
           let sent :=
             StudentApi.notify_evaluation_api (post w)
               {| StudentApi.email := email; StudentApi.task := task;
                  StudentApi.round := round; StudentApi.nonce := nonce;
                  StudentApi.repo_url := html_url repo;
                  StudentApi.commit_sha := hd "unknown" commits;
                  StudentApi.pages_url := pages_url;
                  StudentApi.evaluation_url := Some evaluation_url |}
               StudentApi.default_max_retries in
           evs = (CreateRepo (task ++ "-" ++ md5 w email)
                             ("Auto-generated app: " ++ task)
                  :: map (fun f => CreateFile (fst f) (snd f)) files
                  ++ [EnablePages (full_name repo)]
                  ++ map Notifier (snd sent))%list
           /\ b = Built (html_url repo) pages_url (hd "unknown" commits)
                        (enable_pages w) (fst sent))
  /\ (forall pages_answer evaluator,
         status (build_application env
                   (with_outcomes w pages_answer evaluator) data)
         = status (build_application env w data))
  /\ (forall d email task round nonce evaluation_url repo commits user,
         data = Some d ->
         first_missing d = None ->
         q_secret d = Some (STUDENT_SECRET env) ->
         github_client env = true ->
         manager w = Ok tt ->
         q_email d = Some email -> q_task d = Some task ->
         q_round d = Some round -> q_nonce d = Some nonce ->
         q_evaluation_url d = Some evaluation_url ->
         create_repo w (task ++ "-" ++ md5 w email)
                     ("Auto-generated app: " ++ task) = Ok repo ->
         (forall atts, q_attachments d = Some atts ->
                       existsb (malformed w) atts = false) ->
         (forall file_path content,
             create_file w file_path content = Ok tt) ->
         get_commits w = Ok commits -> login w = Ok user ->
         let pages_url :=
           "https://" ++ user ++ ".github.io/"
           ++ (task ++ "-" ++ md5 w email) ++ "/" in
         let sent :=
           StudentApi.notify_evaluation_api (post w)
             {| StudentApi.email := email; StudentApi.task := task;
                StudentApi.round := round; StudentApi.nonce := nonce;
                StudentApi.repo_url := html_url repo;
                StudentApi.commit_sha := hd "unknown" commits;
                StudentApi.pages_url := pages_url;
                StudentApi.evaluation_url := Some evaluation_url |}
             StudentApi.default_max_retries in
         fst (build_application env w data)
         = (Built (html_url repo) pages_url (hd "unknown" commits)
                  (enable_pages w) (fst sent), 200)).
Proof.
  split; [|split].
  - intros b evs H.
    destruct data as [d|]; [|discriminate H].
    destruct (first_missing d) as [field|] eqn:Hmiss.
    { destruct (@build_application_incomplete d field Hmiss) as [H400 _].
      rewrite H in H400; discriminate H400. }
    destruct (q_secret d) as [secret|] eqn:Hsec.
    2:{ unfold first_missing in Hmiss; rewrite Hsec in Hmiss.
        destruct (q_email d); discriminate. }
    destruct (verify_secret env secret) eqn:Hver.
    2:{ rewrite (@build_application_invalid_secret d secret Hmiss Hsec Hver)
          in H; discriminate H. }
    apply verify_secret_spec in Hver; subst secret.
    destruct (github_client env) eqn:Hgh.
    2:{ rewrite (@build_application_unconfigured d Hmiss Hsec Hgh) in H;
        discriminate H. }
    destruct (@build_application_authorised d Hmiss Hsec Hgh)
      as (email & task & round & nonce & brief & url & He & Ht & Hr & Hn & Hb
          & Hu & Hout).
    rewrite Hout in H; clear Hout.
    unfold build in H.
    destruct (manager w) as [[]|e]; [|discriminate H].
    destruct (create_repo w _ _) as [repo|e] eqn:Hrepo; [|discriminate H].
    match type of H with
    | context [match ?x with Ok _ => _ | Raised _ => _ end] =>
        destruct x as [files|e] eqn:Hfiles; [|discriminate H]
    end.
    destruct (upload_files w files) as [[[]|e] uploads] eqn:Hup;
      [|discriminate H].
    destruct (get_commits w) as [commits|e] eqn:Hcommits; [|discriminate H].
    destruct (login w) as [user|e] eqn:Hlogin; [|discriminate H].
    destruct (StudentApi.notify_evaluation_api _ _ _) as [ok sent] eqn:Hsent.
    injection H as <- <-.
    pose proof (upload_files_ok files) as Hok; rewrite Hup in Hok.
    destruct (Hok eq_refl) as [Huploads Hall]; simpl in Huploads.
    exists d, email, task, round, nonce, brief, url, repo, files, commits, user.
    split; [reflexivity|].
    do 7 (split; [assumption|]).
    assert ((exists extra,
               map fst files
               = (["index.html"; "LICENSE"; "README.md"] ++ extra)%list)
            /\ NoDup (map fst files)
            /\ (q_attachments d = None \/ q_attachments d = Some [] ->
                files = [ ("index.html", generate_app env w brief);
                          ("LICENSE", generate_mit_license (year w));
                          ("README.md",
                           generate_readme task brief (html_url repo)) ]))
      as ([extra Hkeys] & Hnd & Hplain).
    { assert (NoDup ["index.html"; "LICENSE"; "README.md"]) as Hthree.
      { repeat constructor; simpl; intros Hin;
          repeat (destruct Hin as [Hin|Hin]; [discriminate Hin|]);
          exact Hin. }
      destruct (q_attachments d) as [[|a l]|].
      - injection Hfiles as <-.
        split; [exists []; reflexivity|].
        split; [exact Hthree|reflexivity].
      - apply add_attachments_keys in Hfiles.
        destruct Hfiles as [Hext Hnd].
        split; [exact Hext|].
        split; [apply Hnd, Hthree|].
        intros [Hno|Hno]; discriminate Hno.
      - injection Hfiles as <-.
        split; [exists []; reflexivity|].
        split; [exact Hthree|reflexivity]. }
    split.
    { rewrite <- firstn_map, Hkeys; reflexivity. }
    split; [exact Hnd|].
    split; [exact Hplain|].
    split; [exact Hall|].
    split; [reflexivity|].
    split; [reflexivity|].
    cbv zeta.
    assert (match commits with
            | sha :: _ => sha
            | [] => "unknown"
            end = hd "unknown" commits) as Hhd by (destruct commits; reflexivity).
    rewrite Hhd in Hsent; rewrite Hsent; cbn [fst snd].
    split; [|rewrite Hhd; reflexivity].
    rewrite Huploads; simpl; rewrite <- !app_assoc; reflexivity.
  - intros pages_answer evaluator.
    unfold build_application.
    destruct data as [d|]; [|reflexivity].
    destruct (empty d); [reflexivity|].
    destruct (first_missing d); [reflexivity|].
    destruct (q_email d), (q_secret d), (q_task d), (q_round d),
      (q_nonce d), (q_brief d), (q_evaluation_url d); try reflexivity.
    destruct (negb (verify_secret env _)); [reflexivity|].
    destruct (negb (github_client env)); [reflexivity|].
    apply build_status_outcomes.
  - intros d email task round nonce evaluation_url repo commits user
           -> Hmiss Hsec Hgh Hman He Ht Hr Hn Hu Hrepo Hatts Hfiles Hcommits
           Hlogin.
    destruct (@build_application_authorised d Hmiss Hsec Hgh)
      as (email' & task' & round' & nonce' & brief & url' & He' & Ht' & Hr'
          & Hn' & _ & Hu' & ->).
    rewrite He in He'; rewrite Ht in Ht'; rewrite Hr in Hr'.
    rewrite Hn in Hn'; rewrite Hu in Hu'.
    injection He' as <-; injection Ht' as <-; injection Hr' as <-.
    injection Hn' as <-; injection Hu' as <-.
    assert (forall files0,
               exists files,
                 match q_attachments d with
                 | Some (att :: l) => add_attachments w (att :: l) files0
                 | _ => Ok files0
                 end = Ok files) as Hdict.
    { intros files0.
      destruct (q_attachments d) as [[|att l]|] eqn:Hq; eauto.
      destruct (add_attachments w (att :: l) files0) as [files|e] eqn:Hadd;
        [eauto|].
      assert (existsb (malformed w) (att :: l) = true) as Hbad
          by (apply (proj1 (add_attachments_raises (att :: l) files0));
              eauto).
      rewrite (Hatts (att :: l) eq_refl) in Hbad; discriminate Hbad. }
    unfold build; rewrite Hman, Hrepo; cbv beta iota zeta.
    match goal with
    | |- context [Ok ?files0] =>
        lazymatch type of files0 with
        | list (string * string) => destruct (Hdict files0) as [files ->]
        end
    end.
    rewrite (upload_files_all files Hfiles), Hcommits, Hlogin.
    cbv zeta.
    assert (match commits with
            | sha :: _ => sha
            | [] => "unknown"
            end = hd "unknown" commits) as -> by (destruct commits; reflexivity).
    destruct (StudentApi.notify_evaluation_api _ _ _) as [ok sent].
    reflexivity.
Qed.


(** X26: a malformed attachment leaves an empty repository behind.
    When a complete, authorised request carries an attachment whose
    data URI has no comma, whose data does not decode or which has no
    name, the endpoint answers 500 after it has created the repository
    and before it has uploaded a single file. *)
Theorem build_attachment_failure (d : request) (atts : list attachment)
        (repo : repository) (email task : string) :
  first_missing d = None ->
  q_secret d = Some (STUDENT_SECRET env) ->
  github_client env = true ->
  manager w = Ok tt ->
  q_email d = Some email -> q_task d = Some task ->
  create_repo w (task ++ "-" ++ md5 w email) ("Auto-generated app: " ++ task)
  = Ok repo ->
  q_attachments d = Some atts ->
  existsb (malformed w) atts = true ->
  let out := build_application env w (Some d) in
  status out = 500
  /\ snd out = [CreateRepo (task ++ "-" ++ md5 w email)
                           ("Auto-generated app: " ++ task)].
Proof.
  intros Hmiss Hsec Hgh Hman He Ht Hrepo Hatts Hbad; cbv zeta.
  destruct (@build_application_authorised d Hmiss Hsec Hgh)
    as (email' & task' & round & nonce & brief & url & He' & Ht' & _ & _ & _
        & _ & ->).
  rewrite He in He'; rewrite Ht in Ht'.
  injection He' as <-; injection Ht' as <-.
  unfold build; rewrite Hman, Hrepo, Hatts.
  destruct atts as [|a l]; [discriminate Hbad|].
  match goal with
  | |- context [add_attachments w (a :: l) ?files] =>
      destruct (proj2 (add_attachments_raises (a :: l) files) Hbad)
        as [e ->]
  end.
  split; reflexivity.
Qed.

Lemma upload_files_events (files : list (string * string)) (ev : event) :
  In ev (snd (upload_files w files)) ->
  exists file_path content, ev = CreateFile file_path content.
Proof.
  induction files as [|[file_path content] files IH]; simpl; [tauto|].
  destruct (create_file w file_path content).
  - destruct (upload_files w files) as [outcome done]; simpl in *.
    intros [<-|H]; eauto.
  - simpl; intros [<-|[]]; eauto.
Qed.

(** Whatever the endpoint sends to the evaluator goes to the request's
    evaluation URL and repeats its email, task, round and nonce. *)
Lemma build_notifications (email task : string) (round : Z)
      (nonce brief evaluation_url : string)
      (attachments : option (list attachment))
      (attempt : Z) (url : string) (payload : StudentApi.payload) :
  In (Notifier (StudentApi.Post attempt url payload))
     (snd (build env w email task round nonce brief evaluation_url
                 attachments)) ->
  url = evaluation_url
  /\ StudentApi.p_email payload = email
  /\ StudentApi.p_task payload = task
  /\ StudentApi.p_round payload = round
  /\ StudentApi.p_nonce payload = nonce.
Proof.
  unfold build; intros Hin.
  destruct (manager w); [|destruct Hin].
  destruct (create_repo w _ _) as [repo|];
    [|destruct Hin as [H|[]]; discriminate H].
  match type of Hin with
  | context [match ?x with Ok _ => _ | Raised _ => _ end] =>
      destruct x as [files|]; [|destruct Hin as [H|[]]; discriminate H]
  end.
  pose proof (upload_files_events files) as Hev.
  destruct (upload_files w files) as [outcome uploads]; simpl in Hev.
  assert (forall repo_name,
             ~ In (Notifier (StudentApi.Post attempt url payload))
                  (CreateRepo repo_name ("Auto-generated app: " ++ task)
                   :: uploads ++ [EnablePages (full_name repo)])%list)
    as Hdone.
  { intros repo_name [H|H]; [discriminate H|].
    apply in_app_or in H; destruct H as [H|[H|[]]]; [|discriminate H].
    apply Hev in H; destruct H as (fp & c & H); discriminate H. }
  destruct outcome.
  2:{ simpl in Hin; destruct Hin as [H|H]; [discriminate H|].
      apply Hev in H; destruct H as (fp & c & H); discriminate H. }
  destruct (get_commits w) as [commits|];
    [|exfalso; apply (Hdone _ Hin)].
  destruct (login w) as [user|]; [|exfalso; apply (Hdone _ Hin)].
  match type of Hin with
  | context [StudentApi.notify_evaluation_api ?p ?data ?m] =>
      pose proof (fun u b =>
                    @attempts_requests p u b m 0 (Z.to_nat m)) as Hreq;
      unfold StudentApi.notify_evaluation_api in Hin
  end.
  cbn [StudentApi.evaluation_url] in Hin.
  destruct (negb (Py.truthy_str evaluation_url)).
  - simpl in Hin; rewrite app_nil_r in Hin.
    exfalso; apply (Hdone _ Hin).
  - match type of Hin with
    | context [StudentApi.attempts ?p ?u ?b ?m 0 ?rem] =>
        specialize (Hreq u b);
        destruct (StudentApi.attempts p u b m 0 rem) as [ok sent]
    end.
    cbn [snd] in Hin, Hreq.
    change (?a :: ?l ++ ?r ++ ?t)%list with ((a :: l ++ r) ++ t)%list in Hin.
    apply in_app_or in Hin; destruct Hin as [Hin|Hin];
      [exfalso; apply (Hdone _ Hin)|].
    apply in_map_iff in Hin; destruct Hin as (ev & Hev' & Hin).
    injection Hev' as ->.
    rewrite Forall_forall in Hreq; apply Hreq in Hin.
    destruct Hin as [-> ->]; simpl; auto.
Qed.

Lemma build_application_notifications (d : request) (attempt : Z)
      (url : string) (payload : StudentApi.payload) :
  In (Notifier (StudentApi.Post attempt url payload))
     (snd (build_application env w (Some d))) ->
  q_evaluation_url d = Some url
  /\ q_email d = Some (StudentApi.p_email payload)
  /\ q_task d = Some (StudentApi.p_task payload)
  /\ q_round d = Some (StudentApi.p_round payload)
  /\ q_nonce d = Some (StudentApi.p_nonce payload).
Proof.
  intros Hin.
  destruct (first_missing d) as [field|] eqn:Hmiss.
  { destruct (@build_application_incomplete d field Hmiss) as [_ Hnil].
    rewrite Hnil in Hin; destruct Hin. }
  destruct (q_secret d) as [secret|] eqn:Hsec.
  2:{ unfold first_missing in Hmiss; rewrite Hsec in Hmiss.
      destruct (q_email d); discriminate. }
  destruct (verify_secret env secret) eqn:Hver.
  2:{ rewrite (@build_application_invalid_secret d secret Hmiss Hsec Hver)
        in Hin; destruct Hin. }
  apply verify_secret_spec in Hver; subst secret.
  destruct (github_client env) eqn:Hgh.
  2:{ rewrite (@build_application_unconfigured d Hmiss Hsec Hgh) in Hin;
      destruct Hin. }
  destruct (@build_application_authorised d Hmiss Hsec Hgh)
    as (email & task & round & nonce & brief & u & He & Ht & Hr & Hn & Hb
        & Hu & Hout).
  rewrite Hout in Hin.
  apply build_notifications in Hin.
  destruct Hin as (-> & <- & <- & <- & <-); auto.
Qed.

End BuildEndpoint.

(* ================================================================== *)
(** * From the issuer to the student endpoint and back to the gate *)
(* ================================================================== *)

Section Delivery.
Import Database World Props More.

Variable world : oracle.
Variable evaluation_url : string.

(** X27: the round trip of a round-1 task.  The sweep delivers a task
    to the student endpoint and logs it only after the endpoint has
    answered.  Whatever the build endpoint, fed with the delivered body,
    sends to the evaluator goes to the sweep's evaluation URL, and the
    gate accepts it on the store as it is after the line has been
    handled.  On the store as it is when the task is delivered, where no
    Task with the fresh nonce has been logged yet, the gate answers 400
    and stores nothing. *)
Theorem notification_races_task_log (e ep sec : string) (c : Round1.counts)
        (s : state) :
  Py.strip e <> ""%string ->
  exists s' body answer,
    (forall rest,
        Round1.process_rows world evaluation_url
          ({| Round1.c_email := Some e; Round1.c_endpoint := Some ep;
              Round1.c_secret := Some sec |} :: rest) c s
        = Round1.process_rows world evaluation_url rest
            {| Round1.processed_count := Round1.processed_count c + 1;
               Round1.skipped_count := Round1.skipped_count c;
               Round1.error_count := Round1.error_count c |} s')
    /\ trace s'
       = (trace s ++ [Uuid4 (p_nonce body); Post (Py.strip ep) body answer;
                      Sleep 1])%list
    /\ forall env w attempt url payload now,
         In (Build.Notifier (StudentApi.Post attempt url payload))
            (snd (Build.build_application env w
                    (Some (Wire.build_request body)))) ->
         url = evaluation_url
         /\ fst (EvaluationApi.receive_notification now
                   (Some (Wire.notification payload)) (db s'))
            = (EvaluationApi.Success "Repo submission received", 200)
         /\ (~ issued (Py.strip e) (p_task body) 1 (p_nonce body) (db s) ->
             EvaluationApi.receive_notification now
               (Some (Wire.notification payload)) (db s)
             = ((EvaluationApi.Error
                   "No matching task found for the provided email, task, round, and nonce",
                 400), db s)).
Proof.
  intros Hne.
  destruct (process_row_step world evaluation_url e ep sec c s)
    as (s' & body & answer & Hstep & Htrace & He & Hsec & Hr & Hurl & Hok
        & Hdb).
  exists s', body, answer.
  split; [exact Hstep|].
  split; [exact Htrace|].
  intros env w attempt url payload now Hin.
  apply build_application_notifications in Hin.
  cbn [Wire.build_request Build.q_evaluation_url Build.q_email Build.q_task
       Build.q_round Build.q_nonce] in Hin.
  destruct Hin as (Hu & Hpe & Hpt & Hpr & Hpn).
  injection Hu as Hu; injection Hpe as Hpe; injection Hpt as Hpt.
  injection Hpr as Hpr; injection Hpn as Hpn.
  split; [congruence|].
  assert (issued (Py.strip e) (p_task body) 1 (p_nonce body) (db s'))
    as Hissued.
  { destruct (task_record_row _ _ _ _ _ Hok)
      as (row & Hrows & Hemail & Hround & Htask & Hnonce & _).
    rewrite Hdb; unfold issued; rewrite Hrows.
    exists row; split; [apply in_or_app; right; left; reflexivity|].
    rewrite Hemail, Hround, He, Hr; repeat split; assumption. }
  assert (1 <> 0) as Hone by discriminate.
  pose proof (fun db =>
                @gate_matches_issued_task now (Wire.notification payload)
                  (Py.strip e) (p_task body) 1 (p_nonce body)
                  (StudentApi.p_repo_url payload)
                  (StudentApi.p_commit_sha payload)
                  (StudentApi.p_pages_url payload) db) as Hgate.
  cbn [Wire.notification EvaluationApi.n_email EvaluationApi.n_task
       EvaluationApi.n_round EvaluationApi.n_nonce EvaluationApi.n_repo_url
       EvaluationApi.n_commit_sha EvaluationApi.n_pages_url] in Hgate.
  rewrite <- Hpe, <- Hpt, <- Hpr, <- Hpn, He, Hr in Hgate.
  split.
  - destruct (Hgate (db s') eq_refl eq_refl eq_refl eq_refl eq_refl eq_refl
                    eq_refl Hne Hone eq_refl) as [Hyes _].
    apply Hyes in Hissued; destruct Hissued as [H _]; exact H.
  - intros Hfresh.
    destruct (Hgate (db s) eq_refl eq_refl eq_refl eq_refl eq_refl eq_refl
                    eq_refl Hne Hone eq_refl) as [_ Hno].
    apply Hno in Hfresh; destruct Hfresh as [H1 H2].
    destruct (EvaluationApi.receive_notification now
                (Some (Wire.notification payload)) (db s)) as [r d'].
    simpl in *; subst; reflexivity.
Qed.

End Delivery.

(* ================================================================== *)
(** * The sanitizer *)
(* ================================================================== *)

Section Sanitizer.
Import Security.

Lemma list_of_app (a b : string) :
  list_ascii_of_string (a ++ b)
  = (list_ascii_of_string a ++ list_ascii_of_string b)%list.
Proof. induction a as [|c a IH]; simpl; [|rewrite IH]; reflexivity. Qed.

Lemma string_of_app (l1 l2 : list ascii) :
  string_of_list_ascii (l1 ++ l2)
  = string_of_list_ascii l1 ++ string_of_list_ascii l2.
Proof. induction l1 as [|c l1 IH]; simpl; [|rewrite IH]; reflexivity. Qed.

Lemma list_of_reverse (s : string) :
  list_ascii_of_string (Py.reverse s) = rev (list_ascii_of_string s).
Proof. unfold Py.reverse; apply list_ascii_of_string_of_list_ascii. Qed.

Lemma reverse_cons (c : ascii) (s : string) :
  Py.reverse (String c s) = Py.reverse s ++ String c EmptyString.
Proof. unfold Py.reverse; simpl; rewrite string_of_app; reflexivity. Qed.

Lemma reverse_snoc (c : ascii) (s : string) :
  Py.reverse (s ++ String c EmptyString) = String c (Py.reverse s).
Proof.
  unfold Py.reverse; rewrite list_of_app, rev_app_distr; reflexivity.
Qed.

Lemma reverse_involutive (s : string) : Py.reverse (Py.reverse s) = s.
Proof.
  unfold Py.reverse at 1; rewrite list_of_reverse, rev_involutive.
  apply string_of_list_ascii_of_string.
Qed.

Lemma length_list_of (s : string) :
  List.length (list_ascii_of_string s) = String.length s.
Proof. induction s as [|c s IH]; simpl; [|rewrite IH]; reflexivity. Qed.

Lemma length_reverse (s : string) :
  String.length (Py.reverse s) = String.length s.
Proof.
  rewrite <- !length_list_of, list_of_reverse; apply length_rev.
Qed.

Lemma length_lstrip (s : string) :
  (String.length (Py.lstrip s) <= String.length s)%nat.
Proof.
  induction s as [|c s IH]; simpl; [lia|].
  destruct (Py.isspace c); simpl; lia.
Qed.

Lemma lstrip_head (s : string) :
  Py.lstrip s = EmptyString
  \/ exists c rest, Py.lstrip s = String c rest /\ Py.isspace c = false.
Proof.
  induction s as [|c s IH]; simpl; [left; reflexivity|].
  destruct (Py.isspace c) eqn:Hc; [exact IH|right; eauto].
Qed.

Lemma lstrip_snoc (s : string) (c : ascii) :
  Py.isspace c = false ->
  exists u, Py.lstrip (s ++ String c EmptyString) = u ++ String c EmptyString.
Proof.
  intros Hc; induction s as [|x s IH]; simpl.
  - rewrite Hc; exists EmptyString; reflexivity.
  - destruct (Py.isspace x); [exact IH|].
    exists (String x s); reflexivity.
Qed.

Lemma length_strip (s : string) :
  (String.length (Py.strip s) <= String.length s)%nat.
Proof.
  unfold Py.strip.
  rewrite length_reverse.
  pose proof (length_lstrip (Py.reverse (Py.lstrip s))) as H1.
  rewrite length_reverse in H1.
  pose proof (length_lstrip s); lia.
Qed.

Lemma strip_fixed (s : string) :
  Py.lstrip s = s -> Py.lstrip (Py.reverse s) = Py.reverse s ->
  Py.strip s = s.
Proof.
  intros H1 H2; unfold Py.strip.
  rewrite H1, H2; apply reverse_involutive.
Qed.

Lemma strip_idempotent (s : string) : Py.strip (Py.strip s) = Py.strip s.
Proof.
  apply strip_fixed.
  - unfold Py.strip.
    destruct (lstrip_head s) as [Ha|(c & a & Ha & Hc)]; rewrite Ha.
    + reflexivity.
    + rewrite reverse_cons.
      destruct (@lstrip_snoc (Py.reverse a) c Hc) as [u ->].
      rewrite reverse_snoc; simpl; rewrite Hc; reflexivity.
  - unfold Py.strip; rewrite reverse_involutive.
    destruct (lstrip_head (Py.reverse (Py.lstrip s)))
      as [Hb|(c & b & Hb & Hc)]; rewrite Hb.
    + reflexivity.
    + simpl; rewrite Hc; reflexivity.
Qed.

Lemma lstrip_chars (P : ascii -> Prop) (s : string) :
  Forall P (list_ascii_of_string s) ->
  Forall P (list_ascii_of_string (Py.lstrip s)).
Proof.
  induction s as [|c s IH]; simpl; [auto|].
  intros H; destruct (Py.isspace c); [|exact H].
  apply IH; inversion H; assumption.
Qed.

Lemma strip_chars (P : ascii -> Prop) (s : string) :
  Forall P (list_ascii_of_string s) ->
  Forall P (list_ascii_of_string (Py.strip s)).
Proof.
  intros H; unfold Py.strip.
  rewrite list_of_reverse; apply Forall_rev, lstrip_chars.
  rewrite list_of_reverse; apply Forall_rev, lstrip_chars, H.
Qed.

Lemma take_chars (P : ascii -> Prop) (n : nat) (s : string) :
  Forall P (list_ascii_of_string s) ->
  Forall P (list_ascii_of_string (Py.take n s)).
Proof.
  unfold Py.take; revert n; induction s as [|c s IH]; intros n H.
  - destruct n; constructor.
  - destruct n; simpl; [constructor|].
    inversion H; subst; constructor; [assumption|apply IH; assumption].
Qed.

Lemma length_take (n : nat) (s : string) :
  (String.length (Py.take n s) <= n)%nat.
Proof.
  unfold Py.take; revert n; induction s as [|c s IH]; intros n.
  - destruct n; simpl; lia.
  - destruct n; simpl; [lia|].
    specialize (IH n); lia.
Qed.

Lemma join_if_chars (keep : ascii -> bool) (s : string) :
  Forall (fun c => keep c = true) (list_ascii_of_string (join_if keep s)).
Proof.
  induction s as [|c s IH]; simpl; [constructor|].
  destruct (keep c) eqn:Hc; [constructor; assumption|exact IH].
Qed.

Lemma join_if_fixed (keep : ascii -> bool) (s : string) :
  Forall (fun c => keep c = true) (list_ascii_of_string s) ->
  join_if keep s = s.
Proof.
  induction s as [|c s IH]; simpl; [reflexivity|].
  intros H; inversion H; subst.
  rewrite H2, IH; auto.
Qed.

Lemma join_if_sub (P : ascii -> Prop) (keep : ascii -> bool) (s : string) :
  Forall P (list_ascii_of_string s) ->
  Forall P (list_ascii_of_string (join_if keep s)).
Proof.
  induction s as [|c s IH]; simpl; [auto|].
  intros H; inversion H; subst.
  destruct (keep c); [constructor|]; auto.
Qed.

Lemma printable_code (c : ascii) :
  printable c = true ->
  (32 <= nat_of_ascii c)%nat \/ In (nat_of_ascii c) [10; 13; 9]%nat.
Proof.
  unfold printable; cbv zeta.
  rewrite !orb_true_iff, Nat.leb_le, !Nat.eqb_eq; simpl.
  intros [[[H|H]|H]|H]; auto.
Qed.

(** X30: what [sanitize_string] returns, on ASCII text.  Every
    character of the result has a code from 32 on, or is a line feed, a
    carriage return or a tab: the characters below 32 are removed, DEL
    (code 127), which is a control character as well, is not.  The
    result has no white space at either end; with a [max_length] that is
    not negative it has at most [max_length] characters, and sanitizing
    it again changes nothing. *)
Theorem sanitize_string_clean (text : option string) (max_length : Z) :
  (forall s, text = Some s ->
             Forall (fun c => (nat_of_ascii c < 128)%nat)
                    (list_ascii_of_string s)) ->
  let out := sanitize_string text max_length in
  Forall (fun c => (32 <= nat_of_ascii c < 128)%nat
                   \/ In (nat_of_ascii c) [10; 13; 9]%nat)
         (list_ascii_of_string out)
  /\ Py.strip out = out
  /\ (0 <= max_length ->
      Py.len out <= max_length
      /\ sanitize_string (Some out) max_length = out)
  /\ sanitize_string (Some (String (ascii_of_nat 127) EmptyString))
                     default_max_length
     = String (ascii_of_nat 127) EmptyString.
Proof.
  intros Hascii; cbv zeta.
  assert (Forall (fun c => printable c = true)
                 (list_ascii_of_string (sanitize_string text max_length)))
    as Hchars.
  { destruct text as [text|]; [|constructor].
    unfold sanitize_string.
    apply strip_chars.
    destruct (Z.ltb max_length (Py.len (join_if printable text)));
      [apply take_chars|]; apply join_if_chars. }
  assert (Forall (fun c => (nat_of_ascii c < 128)%nat)
                 (list_ascii_of_string (sanitize_string text max_length)))
    as Hcodes.
  { destruct text as [text|]; [|constructor].
    specialize (Hascii text eq_refl).
    unfold sanitize_string.
    apply strip_chars.
    destruct (Z.ltb max_length (Py.len (join_if printable text)));
      [apply take_chars|]; apply join_if_sub, Hascii. }
  assert (Py.strip (sanitize_string text max_length)
          = sanitize_string text max_length) as Hstrip.
  { destruct text as [text|]; [|reflexivity].
    unfold sanitize_string; apply strip_idempotent. }
  split.
  { rewrite Forall_forall in *; intros c Hc.
    specialize (Hchars c Hc); specialize (Hcodes c Hc).
    destruct (printable_code c Hchars) as [H|H]; [left; lia|right; exact H]. }
  split; [exact Hstrip|].
  split; [|reflexivity].
  intros Hm.
  assert (Py.len (sanitize_string text max_length) <= max_length) as Hlen.
  { destruct text as [text|]; [|simpl; exact Hm].
    unfold sanitize_string.
    destruct (Z.ltb_spec max_length (Py.len (join_if printable text)))
      as [Hlt|Hge].
    - unfold slice_to.
      assert (Z.ltb max_length 0 = false) as -> by (apply Z.ltb_ge; lia).
      pose proof (length_strip (Py.take (Z.to_nat max_length)
                                        (join_if printable text))).
      pose proof (length_take (Z.to_nat max_length)
                              (join_if printable text)).
      unfold Py.len; lia.
    - pose proof (length_strip (join_if printable text)).
      unfold Py.len in *; lia. }
  split; [exact Hlen|].
  unfold sanitize_string at 1.
  rewrite (@join_if_fixed printable _ Hchars).
  assert (Z.ltb max_length (Py.len (sanitize_string text max_length)) = false)
    as -> by (apply Z.ltb_ge; lia).
  exact Hstrip.
Qed.

End Sanitizer.

(* ================================================================== *)
(** * The rate limiter *)
(* ================================================================== *)

Section Limiter.
Import Security.

Lemma is_allowed_other (current_time : float) (email other : string)
      (self : requests) :
  other <> email ->
  snd (is_allowed current_time email self) other = self other.
Proof.
  intros Hne; unfold is_allowed.
  assert (String.eqb other email = false) as Heq
      by (apply String.eqb_neq; exact Hne).
  destruct (Nat.leb _ _); [simpl; rewrite Heq; reflexivity|].
  destruct (Nat.leb _ _); simpl; rewrite Heq; reflexivity.
Qed.

Lemma is_allowed_history (current_time : float) (email : string)
      (self : requests) :
  let out := is_allowed current_time email self in
  let last_hour :=
    filter (fun req_time =>
              PrimFloat.ltb (PrimFloat.sub current_time req_time) 3600%float)
           (self email) in
  if fst (fst out)
  then snd out email = (last_hour ++ [current_time])%list
       /\ (List.length last_hour < 10)%nat
  else snd out email = last_hour.
Proof.
  cbv zeta; unfold is_allowed.
  destruct (Nat.leb max_requests_per_minute _);
    [simpl; rewrite String.eqb_refl; reflexivity|].
  destruct (Nat.leb max_requests_per_hour _) eqn:Hhour;
    simpl; rewrite String.eqb_refl; [reflexivity|].
  split; [reflexivity|].
  apply Nat.leb_gt in Hhour; exact Hhour.
Qed.

Lemma is_allowed_bounded (current_time : float) (email : string)
      (self : requests) :
  (forall e, (List.length (self e) <= 10)%nat) ->
  forall e, (List.length (snd (is_allowed current_time email self) e)
             <= 10)%nat.
Proof.
  intros Hinv e.
  destruct (String.eqb_spec e email) as [->|Hne].
  - pose proof (is_allowed_history current_time email self) as H.
    cbv zeta in H.
    destruct (fst (fst (is_allowed current_time email self))).
    + destruct H as [-> Hlt]; rewrite List.length_app; simpl; lia.
    + rewrite H.
      pose proof (filter_length_le
                    (fun req_time =>
                       PrimFloat.ltb (PrimFloat.sub current_time req_time)
                                     3600%float) (self email)).
      specialize (Hinv email); lia.
  - rewrite (@is_allowed_other current_time email e self Hne); apply Hinv.
Qed.

Lemma is_allowed_provenance (current_time : float) (email : string)
      (self : requests) (e : string) (t : float) :
  In t (snd (is_allowed current_time email self) e) ->
  In t (self e) \/ (t = current_time /\ e = email).
Proof.
  destruct (String.eqb_spec e email) as [->|Hne].
  - pose proof (is_allowed_history current_time email self) as H.
    cbv zeta in H.
    destruct (fst (fst (is_allowed current_time email self))).
    + destruct H as [-> _]; intros Hin.
      apply in_app_or in Hin; destruct Hin as [Hin|[<-|[]]]; [|auto].
      apply filter_In in Hin; left; apply Hin.
    + rewrite H; intros Hin; apply filter_In in Hin; left; apply Hin.
  - rewrite (@is_allowed_other current_time email e self Hne); auto.
Qed.

Lemma serve_invariants (calls : list (float * string)) (self : requests) :
  (forall e, (List.length (self e) <= 10)%nat) ->
  let out := serve calls self in
  (forall e, (List.length (snd out e) <= 10)%nat)
  /\ (forall e t, In t (snd out e) -> In t (self e) \/ In (t, e) calls)
  /\ List.length (fst out) = List.length calls.
Proof.
  revert self; induction calls as [|[current_time email] calls IH];
    intros self Hinv; cbv zeta.
  - simpl; auto.
  - cbn [serve].
    pose proof (@is_allowed_bounded current_time email self Hinv) as Hnext.
    pose proof (is_allowed_provenance current_time email self) as Hprov.
    destruct (is_allowed current_time email self) as [answer self1].
    cbn [snd] in Hnext, Hprov.
    specialize (IH self1 Hnext); cbv zeta in IH.
    destruct (serve calls self1) as [answers self2].
    cbn [fst snd] in *.
    destruct IH as (Hb & Hp & Hl).
    split; [exact Hb|].
    split; [|simpl; rewrite Hl; reflexivity].
    intros e t Hin.
    destruct (Hp e t Hin) as [H|H]; [|right; right; exact H].
    destruct (Hprov e t H) as [H'|[-> ->]]; [left; exact H'|].
    right; left; reflexivity.
Qed.

(** X28: the bookkeeping of the rate limiter.  Whatever requests a
    fresh limiter has served, at whatever times, it keeps at most ten
    timestamps per email, every timestamp it keeps is the time of a
    request of that email, and an email that never asked has none. *)
Theorem rate_limiter_bounded (calls : list (float * string)) :
  let out := serve calls init in
  (forall email, (List.length (snd out email) <= 10)%nat)
  /\ (forall email t, In t (snd out email) -> In (t, email) calls)
  /\ List.length (fst out) = List.length calls.
Proof.
  assert (forall e, (List.length (init e) <= 10)%nat) as Hinit
      by (intros e; simpl; lia).
  destruct (@serve_invariants calls init Hinit) as (Hb & Hp & Hl).
  cbv zeta; split; [exact Hb|].
  split; [|exact Hl].
  intros email t Hin; destruct (Hp email t Hin) as [[]|H]; exact H.
Qed.

(** X29: one request at the rate limiter.  The histories of the other
    emails are not touched.  A request is refused when the email has two
    or more timestamps less than a minute old, or else ten or more less
    than an hour old; a refused request is not recorded, so that the
    history of its email becomes exactly its timestamps that are less
    than an hour old, in their order.  An allowed request is recorded at
    the end of those.  An email without history is always allowed. *)
Theorem rate_limiter_step (current_time : float) (email : string)
        (self : requests) :
  let out := is_allowed current_time email self in
  let last_hour :=
    filter (fun req_time =>
              PrimFloat.ltb (PrimFloat.sub current_time req_time) 3600%float)
           (self email) in
  let recent_requests :=
    filter (fun req_time =>
              PrimFloat.ltb (PrimFloat.sub current_time req_time) 60%float)
           last_hour in
  (forall other, other <> email -> snd out other = self other)
  /\ (fst (fst out) = false ->
      snd out email = last_hour
      /\ ((2 <= List.length recent_requests)%nat
          /\ snd (fst out) = "Too many requests per minute"
          \/ (List.length recent_requests < 2)%nat
             /\ (10 <= List.length last_hour)%nat
             /\ snd (fst out) = "Too many requests per hour"))
  /\ (fst (fst out) = true ->
      snd out email = (last_hour ++ [current_time])%list
      /\ (List.length recent_requests < 2)%nat
      /\ (List.length last_hour < 10)%nat
      /\ snd (fst out) = "Request allowed")
  /\ (self email = [] -> fst out = (true, "Request allowed")).
Proof.
  cbv zeta.
  split; [intros other Hne; apply is_allowed_other, Hne|].
  split; [|split].
  - unfold is_allowed.
    destruct (Nat.leb_spec max_requests_per_minute
                (List.length
                   (filter (fun req_time =>
                              PrimFloat.ltb
                                (PrimFloat.sub current_time req_time)
                                60%float)
                           (filter (fun req_time =>
                                      PrimFloat.ltb
                                        (PrimFloat.sub current_time req_time)
                                        3600%float) (self email)))))
      as [Hmin|Hmin].
    + intros _; cbn [fst snd]; rewrite String.eqb_refl.
      split; [reflexivity|left; split; [exact Hmin|reflexivity]].
    + destruct (Nat.leb_spec max_requests_per_hour
                  (List.length
                     (filter (fun req_time =>
                                PrimFloat.ltb
                                  (PrimFloat.sub current_time req_time)
                                  3600%float) (self email))))
        as [Hhour|Hhour]; [|discriminate].
      intros _; cbn [fst snd]; rewrite String.eqb_refl.
      split; [reflexivity|right].
      split; [exact Hmin|split; [exact Hhour|reflexivity]].
  - unfold is_allowed.
    destruct (Nat.leb_spec max_requests_per_minute
                (List.length
                   (filter (fun req_time =>
                              PrimFloat.ltb
                                (PrimFloat.sub current_time req_time)
                                60%float)
                           (filter (fun req_time =>
                                      PrimFloat.ltb
                                        (PrimFloat.sub current_time req_time)
                                        3600%float) (self email)))))
      as [Hmin|Hmin]; [discriminate|].
    destruct (Nat.leb_spec max_requests_per_hour
                (List.length
                   (filter (fun req_time =>
                              PrimFloat.ltb
                                (PrimFloat.sub current_time req_time)
                                3600%float) (self email))))
      as [Hhour|Hhour]; [discriminate|].
    intros _; cbn [fst snd]; rewrite String.eqb_refl.
    split; [reflexivity|].
    split; [exact Hmin|split; [exact Hhour|reflexivity]].
  - intros Hnew; unfold is_allowed; rewrite Hnew; reflexivity.
Qed.

End Limiter.

(* ================================================================== *)
(** * The properties on the example scenario *)
(* ================================================================== *)

Section Examples.
Import Database Props More.

Lemma one_submission_per_key_witness :
  repo_row_of "2025-10-02T10:00:00"
              (seq_repos (perform_all
                            [Upsert "2025-10-01T10:00:00" Sample.issued_task;
                             Notify "2025-10-02T09:00:00" (Some Sample.honest)]
                            init_database) + 1)
              Fixtures.resubmission
  = Some Fixtures.resubmission_row
  /\ repo_count "a@x.edu" "todo-manager-abc12" 1
       (snd (insert_repo "2025-10-02T10:00:00" Fixtures.resubmission
               (perform_all
                  [Upsert "2025-10-01T10:00:00" Sample.issued_task;
                   Notify "2025-10-02T09:00:00" (Some Sample.honest)]
                  init_database)))
     = 1%nat.
Proof.
  split; [reflexivity|].
  destruct (one_submission_per_key
              [Upsert "2025-10-01T10:00:00" Sample.issued_task;
               Notify "2025-10-02T09:00:00" (Some Sample.honest)]
              "2025-10-02T10:00:00" Fixtures.resubmission) as (_ & _ & H).
  exact (proj2 (H Fixtures.resubmission_row eq_refl)).
Defined.

Lemma get_tasks_selects_witness :
  binds (Some Fixtures.wide) = false
  /\ get_tasks (Some "a@x.edu"%string) (Some Fixtures.wide) Sample.store
     = OverflowError
  /\ get_tasks (Some "a@x.edu"%string) (Some 1) Sample.store
     = Returned [Fixtures.issued_row]
  /\ In Fixtures.issued_row (tasks Sample.store).
Proof.
  split; [exact (proj1 (get_tasks_selects (Some "a@x.edu"%string)
                                          (Some Fixtures.wide) Sample.store))|].
  split; [reflexivity|].
  split; [reflexivity|].
  pose proof (proj2 (proj1 (get_tasks_selects (Some "a@x.edu"%string)
                                              (Some 1) Sample.store))
                    Fixtures.issued_row) as [Hstored _].
  apply Hstored; left; reflexivity.
Defined.

Lemma insert_task_round_trip_witness :
  fits 1 = true
  /\ fst (insert_task "2025-10-01T10:00:00" Sample.issued_task init_database)
     = true
  /\ task_exists (Some "a@x.edu"%string) (Some "todo-manager-abc12"%string)
                 (Some 1) Sample.store = Returned true
  /\ binds (td_round Fixtures.wide_task) = false
  /\ insert_task "2025-10-01T10:00:00" Fixtures.wide_task Sample.store
     = (false, Sample.store).
Proof.
  split; [reflexivity|].
  destruct (proj1 (insert_task_round_trip "2025-10-01T10:00:00"
                     Sample.issued_task init_database)
                  _ _ _ _ _ _ _ _
                  eq_refl eq_refl eq_refl eq_refl eq_refl eq_refl eq_refl
                  eq_refl eq_refl eq_refl) as (round & _ & H1 & _ & H3 & _).
  split; [exact H1|].
  split; [exact H3|].
  split; [reflexivity|].
  apply (proj2 (insert_task_round_trip "2025-10-01T10:00:00"
                  Fixtures.wide_task Sample.store)).
  do 8 right; left; reflexivity.
Defined.

Lemma gate_answers_witness :
  fst (EvaluationApi.receive_notification "2025-10-02T09:00:00" None
         Sample.store)
  = (EvaluationApi.Error "No JSON data provided", 400)
  /\ fst (EvaluationApi.receive_notification "2025-10-02T09:00:00"
            (Some Fixtures.keyless) Sample.store)
     = (EvaluationApi.Error "No JSON data provided", 400)
  /\ fst (EvaluationApi.receive_notification "2025-10-02T09:00:00"
            (Some Fixtures.no_nonce) Sample.store)
     = (EvaluationApi.Error "Missing required field: nonce", 400)
  /\ fst (EvaluationApi.receive_notification "2025-10-02T09:00:00"
            (Some Fixtures.wide_round) Sample.store)
     = (EvaluationApi.Error
          "Internal server error: Python int too large to convert to SQLite INTEGER",
        500)
  /\ snd (fst (EvaluationApi.receive_notification "2025-10-02T09:00:00"
                 (Some Sample.honest) Sample.store)) = 200
  /\ exists d row,
       Some Sample.honest = Some d /\ In row (tasks Sample.store)
       /\ EvaluationApi.value (EvaluationApi.n_task d) = Some (t_task row)
       /\ EvaluationApi.value (EvaluationApi.n_nonce d) = Some (t_nonce row).
Proof.
  destruct (gate_answers "2025-10-02T09:00:00" None Sample.store)
    as (_ & _ & _ & _ & Hnull & _).
  destruct (gate_answers "2025-10-02T09:00:00" (Some Fixtures.keyless)
                         Sample.store)
    as (_ & _ & _ & _ & _ & Hkeyless & _).
  destruct (gate_answers "2025-10-02T09:00:00" (Some Fixtures.no_nonce)
                         Sample.store)
    as (_ & _ & _ & _ & _ & _ & Hmissing & _).
  destruct (gate_answers "2025-10-02T09:00:00" (Some Fixtures.wide_round)
                         Sample.store)
    as (_ & _ & _ & _ & _ & _ & _ & Hwide & _).
  destruct (gate_answers "2025-10-02T09:00:00" (Some Sample.honest)
                         Sample.store)
    as (_ & _ & _ & _ & _ & _ & _ & _ & Haccepted).
  split; [exact (Hnull eq_refl)|].
  split; [exact (Hkeyless Fixtures.keyless eq_refl eq_refl)|].
  split; [exact (Hmissing Fixtures.no_nonce "nonce"%string eq_refl eq_refl
                          eq_refl)|].
  split; [exact (Hwide Fixtures.wide_round Fixtures.wide eq_refl eq_refl
                       eq_refl eq_refl)|].
  split; [reflexivity|].
  exact (Haccepted eq_refl).
Defined.

Lemma resubmission_replaces_witness :
  issued "a@x.edu" "todo-manager-abc12" 1 "N1" Sample.store
  /\ exists round : int64,
       to_Z round = 1
       /\ filter (repo_has_key "a@x.edu" "todo-manager-abc12" 1)
            (repos (snd (EvaluationApi.receive_notification
                           "2025-10-02T10:00:00"
                           (Some Fixtures.second_notification)
                           Fixtures.submitted_store)))
          = [ {| r_id := 2; r_timestamp := "2025-10-02T10:00:00";
                 r_email := "a@x.edu"; r_task := "todo-manager-abc12";
                 r_round := round; r_nonce := "N1";
                 r_repo_url := "https://github.com/a/todo2";
                 r_commit_sha := "4d5e6f7";
                 r_pages_url := "https://a.github.io/todo2/" |} ].
Proof.
  assert (issued "a@x.edu" "todo-manager-abc12" 1 "N1" Sample.store)
    as Hissued.
  { exists Fixtures.issued_row.
    split; [left; reflexivity|].
    split; [reflexivity|split; [reflexivity|split; reflexivity]]. }
  split; [exact Hissued|].
  assert ("a@x.edu"%string <> ""%string) as He by discriminate.
  assert (1 <> 0) as Hr by discriminate.
  exact (proj2 (proj2 (@resubmission_replaces
                         "2025-10-02T09:00:00" "2025-10-02T10:00:00"
                         Sample.honest Fixtures.second_notification
                         "a@x.edu" "todo-manager-abc12" 1 "N1"
                         "https://github.com/a/todo" "0a1b2c3"
                         "https://a.github.io/todo/"
                         "https://github.com/a/todo2" "4d5e6f7"
                         "https://a.github.io/todo2/"
                         Sample.store
                         eq_refl eq_refl eq_refl eq_refl eq_refl eq_refl
                         eq_refl eq_refl eq_refl eq_refl eq_refl eq_refl
                         eq_refl eq_refl He Hr Hissued))).
Defined.

Lemma evaluation_stores_witness :
  Evaluate.openai_available Sample.bare = false
  /\ match fst (Evaluate.evaluate_repository Sample.bare
                  (Sample.run_of Sample.readme_only (Evaluate.Ok 200%Z))
                  Sample.submission Fixtures.submitted_store) with
     | Evaluate.Ok rs =>
         List.length
           (results (snd (Evaluate.evaluate_repository Sample.bare
                            (Sample.run_of Sample.readme_only
                                           (Evaluate.Ok 200%Z))
                            Sample.submission Fixtures.submitted_store)))
         = (List.length (results Fixtures.submitted_store)
            + List.length rs)%nat
     | Evaluate.Raised _ =>
         results (snd (Evaluate.evaluate_repository Sample.bare
                         (Sample.run_of Sample.readme_only
                                        (Evaluate.Ok 200%Z))
                         Sample.submission Fixtures.submitted_store))
         = results Fixtures.submitted_store
     end.
Proof.
  split; [reflexivity|].
  destruct (evaluation_stores Sample.bare
              (Sample.run_of Sample.readme_only (Evaluate.Ok 200%Z))
              Sample.submission Fixtures.submitted_store)
    as (_ & _ & _ & H).
  exact (H eq_refl).
Defined.



Lemma round1_sweep_accounts_witness :
  forallb complete [Fixtures.line] = true
  /\ fst (Round1.process_submissions Sample.world "http://eval/api/notify"
            (Some [Fixtures.line]) (start init_database))
     = Some {| Round1.processed_count := 1; Round1.skipped_count := 0;
               Round1.error_count := 0 |}.
Proof.
  split; [reflexivity|].
  exact (proj1 (@round1_sweep_accounts Sample.world "http://eval/api/notify"
                  [Fixtures.line] init_database eq_refl)).
Defined.

Lemma round1_sweep_aborts_witness :
  complete Fixtures.no_secret = false
  /\ fst (Round1.process_submissions Sample.world "http://eval/api/notify"
            (Some [Fixtures.line; Fixtures.no_secret; Fixtures.line])
            (start init_database))
     = None.
Proof.
  split; [reflexivity|].
  exact (proj1 (@round1_sweep_aborts Sample.world "http://eval/api/notify"
                  [Fixtures.line] [Fixtures.line] Fixtures.no_secret
                  init_database eq_refl eq_refl)).
Defined.

Lemma notifier_bounds_witness :
  1 <= 5
  /\ total (StudentApi.sleeps
              (snd (StudentApi.notify_evaluation_api Sample.down Sample.built
                      5)))
     < 2 ^ (5 - 1).
Proof.
  assert (1 <= 5) as H15 by discriminate.
  split; [exact H15|].
  destruct (notifier_bounds Sample.down Sample.built 5)
    as (_ & _ & _ & H & _).
  exact (H H15).
Defined.

Lemma one_form_entry_per_email_witness :
  fst (Forms.insert_submission "2025-09-30T08:00:00" Fixtures.form_entry
         Forms.empty) = true
  /\ Forms.repo_url_or_empty (Forms.sd_repo_url Fixtures.form_entry)
     = Some ""%string.
Proof.
  destruct (one_form_entry_per_email [] "2025-09-30T08:00:00"
                                     Fixtures.form_entry)
    as (_ & _ & H & _).
  destruct (H _ _ _ eq_refl eq_refl eq_refl) as (H1 & _ & H3).
  split; [exact H1|exact (H3 eq_refl)].
Defined.

Lemma insert_result_round_trip_witness :
  PrimFloat.is_nan 1.0%float = false
  /\ fst (insert_result "2025-10-03T08:00:00"
            (Evaluate.result Sample.submission "MIT License" 1.0%float
                             "MIT license found")
            Fixtures.submitted_store) = true
  /\ fits Fixtures.wide = false
  /\ insert_result "2025-10-03T08:00:00" Fixtures.wide_result
                   Fixtures.submitted_store
     = (false, Fixtures.submitted_store).
Proof.
  split; [reflexivity|].
  destruct (proj1 (insert_result_round_trip "2025-10-03T08:00:00"
                     (Evaluate.result Sample.submission "MIT License"
                                      1.0%float "MIT license found")
                     Fixtures.submitted_store)
                  _ _ _ _ _ _ _ _
                  eq_refl eq_refl eq_refl eq_refl eq_refl eq_refl eq_refl
                  eq_refl eq_refl eq_refl) as (round & _ & H1 & _).
  split; [exact H1|].
  split; [reflexivity|].
  destruct (insert_result_round_trip "2025-10-03T08:00:00"
              Fixtures.wide_result Fixtures.submitted_store)
    as (_ & _ & Hwide & _).
  exact (Hwide Fixtures.wide eq_refl eq_refl).
Defined.

Lemma generated_license_passes_witness :
  Evaluate.read "LICENSE"
    (Evaluate.files (Sample.run_of Fixtures.generated_tree (Evaluate.Ok 200%Z)))
  = Some (Evaluate.Ok (Build.generate_mit_license 2025))
  /\ Evaluate.check_mit_license
       (Sample.run_of Fixtures.generated_tree (Evaluate.Ok 200%Z))
     = (true, "MIT license found"%string).
Proof.
  split; [reflexivity|].
  exact (@generated_license_passes
           (Sample.run_of Fixtures.generated_tree (Evaluate.Ok 200%Z)) 2025
           eq_refl).
Defined.

Lemma generated_readme_full_marks_witness :
  Evaluate.read "README.md"
    (Evaluate.files (Sample.run_of Fixtures.generated_tree (Evaluate.Ok 200%Z)))
  = Some (Evaluate.Ok (Build.generate_readme "todo-manager-abc12"
                                             "Create a todo manager"
                                             "https://github.com/a/todo"))
  /\ fst (Evaluate.check_readme_quality Sample.bare
            (Sample.run_of Fixtures.generated_tree (Evaluate.Ok 200%Z)))
     = 1.0%float.
Proof.
  split; [reflexivity|].
  rewrite (@generated_readme_full_marks Sample.bare
             (Sample.run_of Fixtures.generated_tree (Evaluate.Ok 200%Z))
             "todo-manager-abc12" "Create a todo manager"
             "https://github.com/a/todo" eq_refl eq_refl).
  reflexivity.
Defined.

Lemma build_guards_witness :
  status (Build.build_application Fixtures.student Fixtures.github
            (Some Fixtures.request)) = 200
  /\ exists d,
       Some Fixtures.request = Some d /\ Build.first_missing d = None
       /\ Build.q_secret d = Some (Build.STUDENT_SECRET Fixtures.student)
       /\ Build.github_client Fixtures.student = true.
Proof.
  split; [vm_compute; reflexivity|].
  destruct (build_guards Fixtures.student Fixtures.github
                         (Some Fixtures.request)) as (_ & _ & _ & H).
  apply H; vm_compute; discriminate.
Defined.

Lemma build_unset_secret_witness :
  Build.STUDENT_SECRET Fixtures.unprotected = None
  /\ Build.q_secret Fixtures.null_secret = Some None
  /\ status (Build.build_application Fixtures.unprotected Fixtures.github
               (Some Fixtures.null_secret)) = 200
  /\ exists email task round nonce brief evaluation_url,
       Build.build_application Fixtures.unprotected Fixtures.github
         (Some Fixtures.null_secret)
       = Build.build Fixtures.unprotected Fixtures.github email task round
                     nonce brief evaluation_url
                     (Build.q_attachments Fixtures.null_secret).
Proof.
  split; [reflexivity|].
  split; [reflexivity|].
  split; [vm_compute; reflexivity|].
  exact (proj1 (@build_unset_secret Fixtures.unprotected Fixtures.github
                  Fixtures.null_secret eq_refl eq_refl eq_refl) eq_refl).
Defined.

Lemma build_success_witness :
  Build.pages Fixtures.offline = Evaluate.Raised "404 Not Found"%string
  /\ Build.post Fixtures.offline 0 = None
  /\ fst (Build.build_application Fixtures.student Fixtures.offline
            (Some Fixtures.request))
     = (Build.Built "https://github.com/a/todo-manager-abc12-1f2e3d4c"
                    "https://a.github.io/todo-manager-abc12-1f2e3d4c/"
                    "0a1b2c3" false false, 200)
  /\ exists files,
       map fst (firstn 3 files) = ["index.html"; "LICENSE"; "README.md"]%string
       /\ NoDup (map fst files)
       /\ Forall (fun f => Build.create_file Fixtures.offline (fst f) (snd f)
                           = Evaluate.Ok tt) files.
Proof.
  split; [reflexivity|].
  split; [reflexivity|].
  destruct (build_success Fixtures.student Fixtures.offline
                          (Some Fixtures.request))
    as (Hforward & _ & Hbackward).
  assert (fst (Build.build_application Fixtures.student Fixtures.offline
                 (Some Fixtures.request))
          = (Build.Built "https://github.com/a/todo-manager-abc12-1f2e3d4c"
                         "https://a.github.io/todo-manager-abc12-1f2e3d4c/"
                         "0a1b2c3" false false, 200)) as Hanswer.
  { apply (Hbackward Fixtures.request "a@x.edu"%string
                     "todo-manager-abc12"%string 1 "N2"%string
                     "http://eval/api/notify"%string
                     {| Build.html_url :=
                          "https://github.com/a/todo-manager-abc12-1f2e3d4c";
                        Build.full_name :=
                          "a/todo-manager-abc12-1f2e3d4c" |}
                     ["0a1b2c3"%string] "a"%string);
      try reflexivity.
    intros atts Hatts; injection Hatts as <-; reflexivity. }
  split; [exact Hanswer|].
  destruct (Build.build_application Fixtures.student Fixtures.offline
              (Some Fixtures.request)) as [[b code] evs] eqn:Hout.
  cbn [fst] in Hanswer; injection Hanswer as -> ->.
  destruct (Hforward _ _ eq_refl)
    as (d & email & task & round & nonce & brief & url & repo & files
        & commits & user & _ & _ & _ & _ & _ & _ & _ & _ & H1 & H2 & _ & H3
        & _).
  exists files; split; [exact H1|split; [exact H2|exact H3]].
Defined.

Lemma build_attachment_failure_witness :
  existsb (malformed Fixtures.github)
          [ {| Build.a_name := Some "sample.png"%string;
               Build.a_url := Some "data:image/png;base64"%string |} ] = true
  /\ status (Build.build_application Fixtures.student Fixtures.github
               (Some Fixtures.broken_attachment)) = 500
  /\ snd (Build.build_application Fixtures.student Fixtures.github
            (Some Fixtures.broken_attachment))
     = [Build.CreateRepo "todo-manager-abc12-1f2e3d4c"
                         "Auto-generated app: todo-manager-abc12"].
Proof.
  split; [reflexivity|].
  exact (@build_attachment_failure Fixtures.student Fixtures.github
           Fixtures.broken_attachment _ _ "a@x.edu" "todo-manager-abc12"
           eq_refl eq_refl eq_refl eq_refl eq_refl eq_refl eq_refl eq_refl
           eq_refl).
Defined.

Lemma notification_races_task_log_witness :
  exists s' body answer,
    (forall rest,
        Round1.process_rows Sample.world "http://eval/api/notify"
          ({| Round1.c_email := Some "a@x.edu"%string;
              Round1.c_endpoint := Some "http://student/api/build"%string;
              Round1.c_secret := Some "s3cret"%string |} :: rest)
          {| Round1.processed_count := 0; Round1.skipped_count := 0;
             Round1.error_count := 0 |} (start init_database)
        = Round1.process_rows Sample.world "http://eval/api/notify" rest
            {| Round1.processed_count := 0 + 1; Round1.skipped_count := 0;
               Round1.error_count := 0 |} s')
    /\ World.trace s'
       = (World.trace (start init_database)
          ++ [World.Uuid4 (World.p_nonce body);
              World.Post (Py.strip "http://student/api/build") body answer;
              World.Sleep 1])%list
    /\ forall env w attempt url payload now,
         In (Build.Notifier (StudentApi.Post attempt url payload))
            (snd (Build.build_application env w
                    (Some (Wire.build_request body)))) ->
         url = "http://eval/api/notify"%string
         /\ fst (EvaluationApi.receive_notification now
                   (Some (Wire.notification payload)) (World.db s'))
            = (EvaluationApi.Success "Repo submission received", 200)
         /\ (~ issued (Py.strip "a@x.edu") (World.p_task body) 1
                      (World.p_nonce body) (World.db (start init_database)) ->
             EvaluationApi.receive_notification now
               (Some (Wire.notification payload))
               (World.db (start init_database))
             = ((EvaluationApi.Error
                   "No matching task found for the provided email, task, round, and nonce",
                 400), World.db (start init_database))).
Proof.
  assert (Py.strip "a@x.edu" <> ""%string) as Hne
      by (vm_compute; discriminate).
  exact (@notification_races_task_log Sample.world "http://eval/api/notify"
           "a@x.edu" "http://student/api/build" "s3cret"
           {| Round1.processed_count := 0; Round1.skipped_count := 0;
              Round1.error_count := 0 |} (start init_database) Hne).
Defined.

Lemma rate_limiter_bounded_witness :
  map fst (fst (Security.serve Fixtures.burst Security.init))
  = [true; true; false]
  /\ In (100%float, "a@x.edu"%string) Fixtures.burst.
Proof.
  split; [vm_compute; reflexivity|].
  destruct (rate_limiter_bounded Fixtures.burst) as (_ & H & _).
  apply H; vm_compute; left; reflexivity.
Defined.

Lemma rate_limiter_step_witness :
  fst (Security.is_allowed 4020%float "a@x.edu" Fixtures.history)
  = (false, "Too many requests per minute"%string)
  /\ snd (Security.is_allowed 4020%float "a@x.edu" Fixtures.history)
         "a@x.edu"%string
     = [4000%float; 4010%float]
  /\ Security.init "a@x.edu"%string = []
  /\ fst (Security.is_allowed 100%float "a@x.edu" Security.init)
     = (true, "Request allowed"%string).
Proof.
  split; [vm_compute; reflexivity|].
  destruct (rate_limiter_step 4020%float "a@x.edu" Fixtures.history)
    as (_ & Hrefused & _).
  assert (fst (fst (Security.is_allowed 4020%float "a@x.edu"
                                        Fixtures.history)) = false) as Hno
      by (vm_compute; reflexivity).
  destruct (Hrefused Hno) as [Hkept _].
  split; [rewrite Hkept; vm_compute; reflexivity|].
  split; [reflexivity|].
  destruct (rate_limiter_step 100%float "a@x.edu" Security.init)
    as (_ & _ & _ & H).
  exact (H eq_refl).
Defined.

Lemma sanitize_string_clean_witness :
  Security.sanitize_string (Some Fixtures.raw_text) 5 = Fixtures.clean_text
  /\ 0 <= 5
  /\ Py.len (Security.sanitize_string (Some Fixtures.raw_text) 5) <= 5
  /\ Security.sanitize_string
       (Some (Security.sanitize_string (Some Fixtures.raw_text) 5)) 5
     = Security.sanitize_string (Some Fixtures.raw_text) 5.
Proof.
  split; [vm_compute; reflexivity|].
  assert (0 <= 5) as H05 by discriminate.
  split; [exact H05|].
  assert (forall s, Some Fixtures.raw_text = Some s ->
                    Forall (fun c => (nat_of_ascii c < 128)%nat)
                           (list_ascii_of_string s)) as Hascii.
  { intros s H; injection H as <-.
    apply Forall_forall; intros c Hc; apply Nat.ltb_lt; revert c Hc.
    apply (proj1 (forallb_forall
                    (fun c => Nat.ltb (nat_of_ascii c) 128)
                    (list_ascii_of_string Fixtures.raw_text))).
    vm_compute; reflexivity. }
  destruct (@sanitize_string_clean (Some Fixtures.raw_text) 5 Hascii)
    as (_ & _ & H & _).
  exact (H H05).
Defined.

End Examples.
